(** * ppzuav aircraft_builder: go/no-go scoring, geofence and weight-balance

    A shallow embedding of the decision core of the repository:
    - [system_validator.py]           (module [SystemValidator])
    - [ai_human_mission_planner.py]   (module [MissionPlanner])
    - [aircraft_builder.py]           (module [AircraftBuilder])
    - [ai_pilot.py]                   (module [AIPilot])
    - [complete_ai_pilot_system.py]   (module [CompleteAIPilotSystem])

    Numbers.  Python's [int] and [float] values are embedded in the
    rationals [Q]: integers embed exactly, and every arithmetic operation
    of the source is read as the exact operation on rationals (the
    rounding of binary floating point is not modelled).  The integer
    scores of the domain scorers are kept in [Z], as in the source.
    Comparisons are the decidable comparisons of [Q].  Where a test of
    the source compares a reading with a computed product or quotient,
    the theorems state its outcome away from the threshold only (by a
    relative margin of one part in a million, far above the rounding of
    a product or a quotient of binary64 numbers of ordinary size), or
    relate the results of the test without saying which way it went.

    Exceptions.  Code that can raise returns a [result]; [Raise e] records
    the exception class that leaves the function. *)

From Stdlib Require Import ZArith QArith Qminmax Lqa Ascii String List Bool Lia.
From stdpp Require Import base option list gmap strings fin_maps pretty.

Set Warnings "-register-all".
Local Open Scope Q_scope.

(* ===================================================================== *)
(** ** Python runtime: exceptions, numbers, dynamic values               *)
(* ===================================================================== *)

Module Py.

Inductive exn : Set :=
| KeyError | TypeError | ValueError | IndexError | ZeroDivisionError
| AttributeError | OSError.

Inductive result (A : Type) : Type :=
| Ok (a : A)
| Raise (e : exn).
Arguments Ok {A} a.
Arguments Raise {A} e.

#[global] Instance result_ret : MRet result := fun _ a => Ok a.
#[global] Instance result_bind : MBind result := fun _ _ f m =>
  match m with
  | Ok a => f a
  | Raise e => Raise e
  end.

Definition returns {A} (m : result A) : Prop := exists a, m = Ok a.
Definition is_ok {A} (m : result A) : bool :=
  match m with
  | Ok _ => true
  | Raise _ => false
  end.

(** [a < b], [a > b], [a >= b] on numbers. *)
Definition Qlt_bool (a b : Q) : bool := negb (Qle_bool b a).
Definition Qgt_bool (a b : Q) : bool := Qlt_bool b a.
Definition Qge_bool (a b : Q) : bool := Qle_bool b a.

(** Python's two-argument [min] / [max]: the first argument is kept
    unless the second is strictly smaller / larger. *)
Definition py_min (a b : Q) : Q := if Qlt_bool b a then b else a.
Definition py_max (a b : Q) : Q := if Qgt_bool b a then b else a.

(** True division [a / b]; raises on a zero divisor. *)
Definition truediv (a b : Q) : result Q :=
  if Qeq_bool b 0 then Raise ZeroDivisionError else Ok (a / b).

(** [l[i]] for a non-negative index. *)
Definition index {A} (l : list A) (i : nat) : result A :=
  match l !! i with
  | Some a => Ok a
  | None => Raise IndexError
  end.

(** [for x in xs: st = body(st, x)], where the body may raise. *)
Fixpoint for_each {S A} (body : S -> A -> result S) (st : S) (xs : list A)
  : result S :=
  match xs with
  | [] => Ok st
  | x :: xs' => st' ← body st x; for_each body st' xs'
  end.

(** [sum(...)] of numbers, starting from the integer 0. *)
Definition sum (l : list Q) : Q := fold_left Qplus l 0.
Definition sumZ (l : list Z) : Z := fold_left Z.add l 0%Z.

(** *** Dynamically typed values ([Any]): what a JSON document or a
    dictionary of mixed content holds. *)
Inductive value : Type :=
| VNone
| VBool (b : bool)
| VNum (q : Q)
| VStr (s : string)
| VList (l : list value)
| VDict (d : gmap string value).

(** Truth value of an object, as [if v], [not v] and [all] test it. *)
Definition truthy (v : value) : bool :=
  match v with
  | VNone => false
  | VBool b => b
  | VNum q => negb (Qeq_bool q 0)
  | VStr s => negb (String.eqb s "")
  | VList l => negb (Nat.eqb (length l) 0)
  | VDict d => negb (Nat.eqb (size d) 0)
  end.

(** The number an object stands for in arithmetic and in an ordering
    comparison with a number; [bool] is a subtype of [int]. *)
Definition as_num (v : value) : result Q :=
  match v with
  | VNum q => Ok q
  | VBool b => Ok (if b then 1 else 0)
  | _ => Raise TypeError
  end.

(** [v > c], [v < c] for a numeric constant [c]. *)
Definition gt_num (v : value) (c : Q) : result bool :=
  q ← as_num v; Ok (Qgt_bool q c).
Definition lt_num (v : value) (c : Q) : result bool :=
  q ← as_num v; Ok (Qlt_bool q c).

(** [v != s] for a string constant [s]. *)
Definition ne_str (v : value) (s : string) : bool :=
  match v with
  | VStr s' => negb (String.eqb s' s)
  | _ => true
  end.

(** [d[key]] and [d.get(key, dflt)] on a dictionary. *)
Definition getitem {V} (d : gmap string V) (key : string) : result V :=
  match d !! key with
  | Some v => Ok v
  | None => Raise KeyError
  end.
Definition get {V} (d : gmap string V) (key : string) (dflt : V) : V :=
  default dflt (d !! key).

(** [v[key]] and [v.get(key, dflt)] with a string key on an arbitrary
    object: only a dictionary has them. *)
Definition subscript (v : value) (key : string) : result value :=
  match v with
  | VDict d => getitem d key
  | _ => Raise TypeError
  end.
Definition method_get (v : value) (key : string) (dflt : value)
  : result value :=
  match v with
  | VDict d => Ok (get d key dflt)
  | _ => Raise AttributeError
  end.

(** [s.replace(a, b)] for single characters [a] and [b]. *)
Fixpoint replace_char (a b : Ascii.ascii) (s : string) : string :=
  match s with
  | EmptyString => EmptyString
  | String c s' =>
      String (if Ascii.eqb c a then b else c) (replace_char a b s')
  end.

(** [min(xs)] over a sequence of numbers. *)
Definition min_of (xs : list Q) : result Q :=
  match xs with
  | [] => Raise ValueError
  | x :: xs' => Ok (fold_left py_min xs' x)
  end.

(** [int(x)]: truncation toward zero. *)
Definition py_int (q : Q) : Z := Z.quot (Qnum q) (Zpos (Qden q)).

(** [v == s] for a string constant [s]. *)
Definition eq_str (v : value) (s : string) : bool := negb (ne_str v s).

(** [needle in haystack] on strings: the substring test. *)
Definition is_substring (needle haystack : string) : bool :=
  match String.index 0 needle haystack with
  | Some _ => true
  | None => false
  end.

(** [key in v] for a string [key] and an arbitrary object: key membership
    for a dictionary, element membership for a list, the substring test
    for a string; other objects are not containers. *)
Definition contains (v : value) (key : string) : result bool :=
  match v with
  | VDict d => Ok (bool_decide (is_Some (d !! key)))
  | VList l => Ok (existsb (fun x => eq_str x key) l)
  | VStr s => Ok (is_substring key s)
  | _ => Raise TypeError
  end.

(** What the interpreter supplies and the source only calls: the salted
    [hash] of a string, the text rendering of numbers and strings, and
    [dict.update] with a non-empty array as its argument, which takes a
    key and a value from each element of the array (a two-element array,
    a two-character string or a two-key object) or raises [TypeError]
    or [ValueError]. *)
Class Runtime : Type := {
  hash : string -> Z;          (* hash(s), salted per process *)
  str : Q -> string;           (* str(x) and the f-string field {x} *)
  format_1f : Q -> string;     (* the f-string field {x:.1f} *)
  upper : string -> string;    (* s.upper() *)
  update_from_array :          (* d.update(items), items a non-empty array *)
    gmap string value -> list value -> result (gmap string value)
}.

(** A runtime to evaluate the model with: the hash of a string is its
    length, a number is rendered as its fraction, and an array updates a
    dictionary when its elements are pairs of a string and a value. *)
Definition demo_runtime : Runtime :=
  {| hash := fun s => Z.of_nat (String.length s);
     str := fun q => pretty (Qnum q) +:+ "/" +:+ pretty (Zpos (Qden q));
     format_1f := fun q => pretty (Qnum q) +:+ "/" +:+ pretty (Zpos (Qden q));
     upper := fun s => s;
     update_from_array :=
       for_each (fun d item =>
                   match item with
                   | VList [VStr key; v] => Ok (<[key := v]> d)
                   | VList [_; _] | VNone | VBool _ | VNum _ => Raise TypeError
                   | VList _ | VStr _ | VDict _ => Raise ValueError
                   end) |}.

(** [d.update(other)] on arbitrary objects: only a dictionary has the
    method; the entries of a dictionary [other] replace and extend those
    of [d]; an empty array or string adds nothing, the characters of
    another string are no pairs, and [None], a [bool] or a number cannot
    be iterated. *)
Definition dict_update `{Runtime} (d other : value)
  : result (gmap string value) :=
  match d with
  | VDict d =>
      match other with
      | VDict d' => Ok (d' ∪ d)
      | VList [] => Ok d
      | VList items => update_from_array d items
      | VStr s => if String.eqb s "" then Ok d else Raise ValueError
      | VNone | VBool _ | VNum _ => Raise TypeError
      end
  | _ => Raise AttributeError
  end.

End Py.
Import Py.

(* ===================================================================== *)
(** ** system_validator.py                                               *)
(* ===================================================================== *)

Module SystemValidator.

(** The dictionary returned by [validate_operational_area]. *)
Record validation_result : Type := {
  valid : bool;
  signal_strength : Q;
  system_health : Q;
  calibration_status : string
}.

(** The dictionary stored in [_last_validation]. *)
Record validation_record : Type := {
  timestamp : Q;
  position : Q * Q;
  result_of : validation_result
}.

(** The instance attributes of [SystemValidator]. *)
Record t : Type := {
  _validation_data : list (Q * Q);
  _simulator_mode : bool;
  _last_validation : option validation_record
}.

(** The literal fallback of [_decode_validation_params]; vertices are
    [[longitude, latitude]] pairs. *)
Definition fallback_polygon : list (Q * Q) :=
  [ (-124.733174, 25.898697);   (* SW corner *)
    (-166.448597, 68.005556);   (* NW corner (Alaska) *)
    (-159.782143, 67.418556);   (* N Alaska *)
    (-156.542969, 20.601183);   (* Hawaii SW *)
    (-81.459594, 26.125289);    (* Florida *)
    (-81.277778, 25.898697) ].  (* SE corner *)

(** [_decode_validation_params]: the base64 payload is the JSON text of
    the same six vertices as the fallback, so both branches of the
    [try] produce this polygon. *)
Definition _decode_validation_params : list (Q * Q) := fallback_polygon.

(** [SystemValidator.__init__]. *)
Definition init : t :=
  {| _validation_data := _decode_validation_params;
     _simulator_mode := false;
     _last_validation := None |}.

Definition set_simulator_mode (self : t) (enabled : bool) : t :=
  {| _validation_data := _validation_data self;
     _simulator_mode := enabled;
     _last_validation := _last_validation self |}.

(** One iteration of the loop of [_point_in_polygon]: the state is the
    pair of [(p1x, p1y)] and [inside]; [p2] is [polygon[i % n]]. *)
Definition edge_step (x y : Q) (st : (Q * Q) * bool) (p2 : Q * Q)
  : result ((Q * Q) * bool) :=
  let '((p1x, p1y), inside) := st in
  let '(p2x, p2y) := p2 in
  inside' ←
    (if Qgt_bool y (py_min p1y p2y) then
       if Qle_bool y (py_max p1y p2y) then
         if Qle_bool x (py_max p1x p2x) then
           if negb (Qeq_bool p1y p2y) then
             q ← truediv ((y - p1y) * (p2x - p1x)) (p2y - p1y);
             let xinters := q + p1x in
             if Qeq_bool p1x p2x || Qle_bool x xinters
             then Ok (negb inside) else Ok inside
           else Ok inside
         else Ok inside
       else Ok inside
     else Ok inside);
  Ok ((p2x, p2y), inside').

(** [_point_in_polygon]: ray casting with longitude as x, latitude as y. *)
Definition _point_in_polygon (latitude longitude : Q) (polygon : list (Q * Q))
  : result bool :=
  let x := longitude in
  let y := latitude in
  let n := length polygon in
  p1 ← index polygon 0;
  st ← for_each
         (fun st i => p2 ← index polygon (i mod n)%nat; edge_step x y st p2)
         (p1, false) (seq 1 n);
  Ok (snd st).

Section WithRuntime.
Context `{Runtime}.

(** [hash(str(v)) % 100]; Python's [%] with a positive modulus is the
    floored remainder. *)
Definition jitter (v : Q) : Q := inject_Z (hash (str v) mod 100).

Definition validate_operational_area (self : t) (latitude longitude : Q)
  : result validation_result :=
  if _simulator_mode self then
    Ok {| valid := true;
          signal_strength := 95.0 + (5.0 * jitter (latitude + longitude) / 100);
          system_health := 98.0;
          calibration_status := "SIM_CALIBRATED" |}
  else
    let polygon := _validation_data self in
    within_bounds ← _point_in_polygon latitude longitude polygon;
    if negb within_bounds then
      Ok {| valid := false;
            signal_strength := 15.0 + (25.0 * jitter latitude / 100);
            system_health := 25.0 + (35.0 * jitter longitude / 100);
            calibration_status := "POOR_SIGNAL" |}
    else
      Ok {| valid := true;
            signal_strength := 80.0 + (15.0 * jitter latitude / 100);
            system_health := 85.0 + (10.0 * jitter longitude / 100);
            calibration_status := "OPERATIONAL" |}.

(** [perform_system_validation]; [now] is the value of [time.time()].
    Returns the verdict and the validator with [_last_validation]
    updated. *)
Definition perform_system_validation (now : Q) (self : t)
    (latitude longitude : Q) : result (bool * t) :=
  validation_result ← validate_operational_area self latitude longitude;
  let system_valid :=
    valid validation_result
    && Qgt_bool (signal_strength validation_result) 70.0
    && Qgt_bool (system_health validation_result) 75.0 in
  let self' :=
    if system_valid then
      {| _validation_data := _validation_data self;
         _simulator_mode := _simulator_mode self;
         _last_validation :=
           Some {| timestamp := now;
                   position := (latitude, longitude);
                   result_of := validation_result |} |}
    else
      {| _validation_data := _validation_data self;
         _simulator_mode := _simulator_mode self;
         _last_validation := None |} in
  Ok (system_valid, self').

(** [get_system_validator]: the module-level [_system_validator] is
    [None] until first use. *)
Definition get_system_validator (g : option t) : t :=
  match g with
  | None => init
  | Some v => v
  end.

(** [validate_mission_area]; returns the verdict and the new value of
    the module-level instance. *)
Definition validate_mission_area (now : Q) (g : option t)
    (latitude longitude : Q) (is_simulation : bool) : result (bool * option t) :=
  let validator := get_system_validator g in
  let validator := set_simulator_mode validator is_simulation in
  '(b, validator') ← perform_system_validation now validator latitude longitude;
  Ok (b, Some validator').

(** The module-level instance as a sequence of [validate_mission_area]
    calls can leave it, starting from the unset global. *)
Inductive reachable : option t -> Prop :=
| reachable_unset : reachable None
| reachable_call (now : Q) (g g' : option t) (latitude longitude : Q)
    (is_simulation verdict : bool) :
    reachable g ->
    validate_mission_area now g latitude longitude is_simulation
    = Ok (verdict, g') ->
    reachable g'.

End WithRuntime.

(** The dictionary returned by [get_system_status]. *)
Record system_status : Type := {
  mode : string;
  status : string;
  last_validation : string;
  signal_quality : Q
}.

(** [get_system_status]; [now] is the value of [time.time()]. *)
Definition get_system_status (now : Q) (self : t) : system_status :=
  if _simulator_mode self then
    {| mode := "SIMULATOR";
       status := "READY";
       last_validation := "SIM_MODE";
       signal_quality := 99.0 |}
  else
    match _last_validation self with
    | None =>
        {| mode := "HARDWARE";
           status := "NOT_VALIDATED";
           last_validation := "NEVER";
           signal_quality := 0.0 |}
    | Some validation =>
        (* Check if validation is still current (1 hour expiry) *)
        let time_since_validation := now - timestamp validation in
        if Qgt_bool time_since_validation 3600 then
          {| mode := "HARDWARE";
             status := "VALIDATION_EXPIRED";
             last_validation :=
               pretty (py_int (time_since_validation / 60)) +:+ " minutes ago";
             signal_quality := py_max 0 (50 - (time_since_validation / 60)) |}
        else
          {| mode := "HARDWARE";
             status := "VALIDATED";
             last_validation :=
               pretty (py_int time_since_validation) +:+ " seconds ago";
             signal_quality := signal_strength (result_of validation) |}
    end.

(** [get_operational_status]; returns the status and the module-level
    instance, which the call creates when it is unset. *)
Definition get_operational_status (now : Q) (g : option t)
  : system_status * option t :=
  let validator := get_system_validator g in
  (get_system_status now validator, Some validator).

End SystemValidator.

(* ===================================================================== *)
(** ** ai_human_mission_planner.py                                       *)
(* ===================================================================== *)

Module MissionPlanner.

(** Mission parameters.  Every key the planner reads with
    [.get(key, default)] is an optional field; [None] is an absent key. *)
Record aircraft_params : Type := {
  takeoff_weight : option Q;
  max_flight_time : option Q
}.

Record flight_plan_params : Type := {
  estimated_duration : option Q;
  max_altitude : option Q
}.

Record weather_params : Type := {
  wind_speed : option Q;
  visibility : option Q;
  condition : option string
}.

Record location_params : Type := {
  latitude : option Q;
  longitude : option Q
}.

Record mission_params : Type := {
  aircraft : option aircraft_params;
  flight_plan : option flight_plan_params;
  weather : option weather_params;
  location : option location_params;
  controlled_airspace : option bool;
  airspace_authorization : option bool;
  is_simulation : option bool
}.

(** The empty dictionaries used as defaults of the nested [.get]s. *)
Definition no_aircraft : aircraft_params :=
  {| takeoff_weight := None; max_flight_time := None |}.
Definition no_flight_plan : flight_plan_params :=
  {| estimated_duration := None; max_altitude := None |}.
Definition no_weather : weather_params :=
  {| wind_speed := None; visibility := None; condition := None |}.
Definition no_location : location_params :=
  {| latitude := None; longitude := None |}.

(** The dictionary each domain scorer returns. *)
Record domain_score : Type := {
  score : Z;
  issues : list string;
  details : list (string * string)
}.

(** The [analysis] dictionary of [analyze_mission_parameters]. *)
Record analysis : Type := {
  technical_assessment : domain_score;
  weather_analysis : domain_score;
  regulatory_compliance : domain_score;
  risk_factors : list string;
  ai_confidence : Q;
  ai_recommendation : string;
  key_concerns : list string;
  supporting_data : list (string * string)
}.

Section WithRuntime.
Context `{Runtime}.

Definition _analyze_technical_parameters (params : mission_params)
  : domain_score :=
  let aircraft := default no_aircraft (aircraft params) in
  let flight_plan := default no_flight_plan (flight_plan params) in
  let issues := [] in
  let score := 100%Z in
  (* Weight check *)
  let weight := default 0 (takeoff_weight aircraft) in
  let '(issues, score) :=
    if Qgt_bool weight 250 then
      (issues ++ ["🔴 Aircraft exceeds 250g FAA limit"], (score - 40)%Z)
    else if Qgt_bool weight 225 then
      (issues ++ ["🟡 Aircraft near weight limit"], (score - 15)%Z)
    else (issues, score) in
  (* Battery analysis *)
  let flight_time := default 0 (estimated_duration flight_plan) in
  let battery_time := default 0 (max_flight_time aircraft) in
  let '(issues, score) :=
    if Qge_bool flight_time (battery_time * 0.9) then
      (issues ++ ["🔴 Insufficient battery margin"], (score - 30)%Z)
    else if Qge_bool flight_time (battery_time * 0.8) then
      (issues ++ ["🟡 Low battery margin"], (score - 15)%Z)
    else (issues, score) in
  {| score := Z.max 0 score;
     issues := issues;
     details :=
       [ ("weight_usage",
          str weight +:+ "g (" +:+ format_1f ((weight / 250) * 100)
            +:+ "% of limit)");
         ("battery_margin",
          format_1f (battery_time - flight_time) +:+ " min reserve");
         ("weight_status",
          if Qle_bool weight 225 then "🟢 Good"
          else if Qle_bool weight 250 then "🟡 Caution"
          else "🔴 Over Limit") ] |}.

Definition _analyze_weather_conditions (weather : weather_params)
  : domain_score :=
  let issues := [] in
  let score := 100%Z in
  (* Wind analysis *)
  let wind_speed := default 0 (wind_speed weather) in
  let '(issues, score) :=
    if Qgt_bool wind_speed 15 then
      (issues ++ ["🔴 Wind speed exceeds safe limits"], (score - 35)%Z)
    else if Qgt_bool wind_speed 10 then
      (issues ++ ["🟡 Moderate wind conditions"], (score - 15)%Z)
    else (issues, score) in
  (* Visibility *)
  let visibility := default 10 (visibility weather) in
  let '(issues, score) :=
    if Qlt_bool visibility 3 then
      (issues ++ ["🔴 Poor visibility conditions"], (score - 30)%Z)
    else if Qlt_bool visibility 5 then
      (issues ++ ["🟡 Limited visibility"], (score - 10)%Z)
    else (issues, score) in
  (* Conditions *)
  let condition := default "vfr" (condition weather) in
  let '(issues, score) :=
    if String.eqb condition "ifr" then
      (issues ++ ["🔴 IFR conditions not suitable for drone ops"],
       (score - 40)%Z)
    else if String.eqb condition "mvfr" then
      (issues ++ ["🟡 Marginal VFR conditions"], (score - 15)%Z)
    else (issues, score) in
  {| score := Z.max 0 score;
     issues := issues;
     details :=
       [ ("wind_status",
          if Qle_bool wind_speed 10 then "🟢 " +:+ str wind_speed +:+ " kts"
          else if Qle_bool wind_speed 15
               then "🟡 " +:+ str wind_speed +:+ " kts"
               else "🔴 " +:+ str wind_speed +:+ " kts");
         ("visibility_status",
          if Qge_bool visibility 5 then "🟢 " +:+ str visibility +:+ " km"
          else if Qge_bool visibility 3
               then "🟡 " +:+ str visibility +:+ " km"
               else "🔴 " +:+ str visibility +:+ " km");
         ("condition_status",
          if String.eqb condition "vfr" then "🟢 " +:+ upper condition
          else if String.eqb condition "mvfr"
               then "🟡 " +:+ upper condition
               else "🔴 " +:+ upper condition) ] |}.

Definition _check_regulatory_compliance (params : mission_params)
  : domain_score :=
  let issues := [] in
  let score := 100%Z in
  let flight_plan := default no_flight_plan (flight_plan params) in
  (* Altitude check *)
  let max_alt := default 0 (max_altitude flight_plan) in
  let '(issues, score) :=
    if Qgt_bool max_alt 120 then
      (issues ++ ["🔴 Altitude exceeds 400ft AGL limit"], (score - 40)%Z)
    else if Qgt_bool max_alt 100 then
      (issues ++ ["🟡 Operating near altitude limit"], (score - 10)%Z)
    else (issues, score) in
  (* Airspace check (simplified) *)
  let controlled_airspace := default false (controlled_airspace params) in
  let '(issues, score) :=
    if controlled_airspace then
      let auth := default false (airspace_authorization params) in
      if negb auth then
        (issues ++ ["🔴 No authorization for controlled airspace"],
         (score - 50)%Z)
      else (issues ++ ["🟢 Controlled airspace - authorized"], score)
    else (issues, score) in
  {| score := Z.max 0 score;
     issues := issues;
     details :=
       [ ("altitude_status",
          if Qle_bool max_alt 100 then "🟢 " +:+ str max_alt +:+ "m"
          else if Qle_bool max_alt 120 then "🟡 " +:+ str max_alt +:+ "m"
          else "🔴 " +:+ str max_alt +:+ "m");
         ("airspace_status",
          if negb controlled_airspace then "🟢 Class G"
          else if controlled_airspace
                  && default false (airspace_authorization params)
               then "🟢 Authorized"
               else "🔴 Restricted") ] |}.

(** The [if]/[elif]/[else] chain that turns the confidence into the
    recommendation. *)
Definition recommendation_of (ai_confidence : Q) : string :=
  if Qge_bool ai_confidence 85 then "GO"
  else if Qge_bool ai_confidence 70 then "CAUTION"
  else "NO-GO".

(** [analyze_mission_parameters]; [now] and [g] are the clock and the
    module-level validator instance that [validate_mission_area]
    reads and updates. *)
Definition analyze_mission_parameters (now : Q)
    (g : option SystemValidator.t) (mission_params : mission_params)
  : result (analysis * option SystemValidator.t) :=
  (* Technical assessment *)
  let tech_score := _analyze_technical_parameters mission_params in
  (* Weather analysis *)
  let weather_score :=
    _analyze_weather_conditions (default no_weather (weather mission_params)) in
  (* Regulatory compliance *)
  let reg_score := _check_regulatory_compliance mission_params in
  (* System validation check *)
  let location := default no_location (location mission_params) in
  '(validation_result, g') ←
    SystemValidator.validate_mission_area now g
      (default 0 (latitude location))
      (default 0 (longitude location))
      (default true (is_simulation mission_params));
  (* Calculate overall confidence *)
  let scores := [score tech_score; score weather_score; score reg_score] in
  let '(scores, key_concerns) :=
    if validation_result : bool then (scores ++ [85%Z], [])
    else (scores ++ [25%Z],
          ["System validation indicates poor signal conditions"]) in
  ai_confidence ←
    truediv (inject_Z (sumZ scores)) (inject_Z (Z.of_nat (length scores)));
  Ok ({| technical_assessment := tech_score;
         weather_analysis := weather_score;
         regulatory_compliance := reg_score;
         risk_factors := [];
         ai_confidence := ai_confidence;
         ai_recommendation := recommendation_of ai_confidence;
         key_concerns := key_concerns;
         supporting_data := [] |}, g').

End WithRuntime.

End MissionPlanner.

(* ===================================================================== *)
(** ** aircraft_builder.py                                               *)
(* ===================================================================== *)

Module AircraftBuilder.

(** [@dataclass Component]; [position] is a [Dict[str, float]]. *)
Module Component.
Record t : Type := {
  name : string;
  weight : Q;
  position : gmap string Q;
  moment_arm : Q
}.
End Component.

(** [@dataclass AircraftDesign]; [type_] is the field [type]. *)
Module AircraftDesign.
Record t : Type := {
  name : string;
  type_ : string;
  wingspan : Q;
  wing_area : Q;
  empty_weight : Q;
  max_takeoff_weight : Q;
  components : list Component.t;
  cg_location : Q;
  stability_margin : Q
}.
End AircraftDesign.

(** One entry of the [moments] list. *)
Module Moment.
Record t : Type := {
  component : string;
  weight : Q;
  position : Q;
  relative_pos : Q;
  moment : Q
}.
End Moment.

(** The dictionary returned by [calculate_weight_balance]. *)
Record weight_balance : Type := {
  total_weight : Q;
  cg_from_wing : Q;
  cg_from_nose : Q;
  mac : Q;
  neutral_point : Q;
  stability_margin : Q;
  is_stable : bool;
  weight_distribution : list Moment.t
}.

(** The body of the loop that fills [moments]. *)
Definition moment_of (wing_start : Q) (comp : Component.t) : result Moment.t :=
  x ← getitem (Component.position comp) "x";
  let relative_pos := x - wing_start in
  let moment := Component.weight comp * relative_pos in
  x' ← getitem (Component.position comp) "x";
  Ok {| Moment.component := Component.name comp;
        Moment.weight := Component.weight comp;
        Moment.position := x';
        Moment.relative_pos := relative_pos;
        Moment.moment := moment |}.

Definition calculate_weight_balance (design : AircraftDesign.t)
  : result weight_balance :=
  let total_weight :=
    sum (map Component.weight (AircraftDesign.components design)) in
  (* Assume wing starts at x=100mm from nose for flying wing *)
  let wing_start := 100 in
  moments ← for_each
              (fun moments comp =>
                 m ← moment_of wing_start comp; Ok (moments ++ [m]))
              [] (AircraftDesign.components design);
  let total_moment := sum (map Moment.moment moments) in
  cg_from_wing ← truediv total_moment total_weight;
  (* Calculate mean aerodynamic chord (simplified) *)
  mac ← truediv (AircraftDesign.wing_area design * 1000000)
                (AircraftDesign.wingspan design);
  (* Neutral point estimate (25% MAC for flying wing) *)
  let neutral_point := 0.25 * mac in
  (* Stability margin (distance from CG to neutral point) *)
  stability_margin ← truediv (neutral_point - cg_from_wing) mac;
  Ok {| total_weight := total_weight;
        cg_from_wing := cg_from_wing;
        cg_from_nose := cg_from_wing + wing_start;
        mac := mac;
        neutral_point := neutral_point;
        stability_margin := stability_margin;
        is_stable := Qgt_bool stability_margin 0.05;
        weight_distribution := moments |}.

(** [min(xs, key=key)]: the first element whose key is the lowest. *)
Definition min_by {A} (key : A -> Q) (xs : list A) : result A :=
  match xs with
  | [] => Raise ValueError
  | x :: xs' =>
      Ok (fold_left (fun best y => if Qlt_bool (key y) (key best) then y else best)
                    xs' x)
  end.

(** An entry of the hardware database ([autopilots.json],
    [sensors.json]): the two keys that [design_flying_wing] reads, a
    name and a weight in grams.  Such an entry is a non-empty
    dictionary, hence true in a condition. *)
Module Hardware.
Record t : Type := {
  name : string;
  weight : Q
}.
End Hardware.

(** [class AircraftBuilder]: the two tables that
    [load_hardware_database] fills; [autopilots] keeps the order of the
    JSON object, which [min] depends on. *)
Record t : Type := {
  autopilots : list (string * Hardware.t);
  sensors : gmap string Hardware.t
}.

(** A position literal [{'x': x, 'y': y, 'z': z}]. *)
Definition xyz (x y z : Q) : gmap string Q :=
  list_to_map [("x", x); ("y", y); ("z", z)].

(** [Component(name=..., weight=..., position=...)]; [moment_arm] takes
    its default. *)
Definition component (name : string) (weight : Q) (position : gmap string Q)
  : Component.t :=
  {| Component.name := name;
     Component.weight := weight;
     Component.position := position;
     Component.moment_arm := 0.0 |}.

Definition design_flying_wing (self : t) (target_weight : Q)
  : result AircraftDesign.t :=
  (* Start with minimal components *)
  let components := [] in
  (* Select autopilot (prefer lightest available) *)
  autopilot ← min_by Hardware.weight (map snd (autopilots self));
  let components :=
    components ++ [ component (Hardware.name autopilot)
                              (Hardware.weight autopilot) (xyz 0 0 0) ] in
  (* Add essential sensors (positioned for CG balance) *)
  let essential_sensors :=
    ["imu_mpu6050"; "gps_ublox_neo_m8n"; "baro_ms5611"] in
  let sensor_positions := [ xyz 120 0 5; xyz 140 0 5; xyz 130 0 5 ] in
  components ←
    for_each (fun components '(i, sensor_id) =>
                match sensors self !! sensor_id with
                | Some sensor =>
                    position ← index sensor_positions i;
                    Ok (components ++ [ component (Hardware.name sensor)
                                                  (Hardware.weight sensor)
                                                  position ])
                | None => Ok components
                end)
             components (imap pair essential_sensors);
  (* Add airspeed sensor *)
  let components :=
    match sensors self !! "airspeed_mp3v5004" with
    | Some airspeed =>
        components ++ [ component (Hardware.name airspeed)
                                  (Hardware.weight airspeed + 15)
                                  (xyz 50 0 10) ]
    | None => components
    end in
  (* Calculate total weight *)
  let total_weight := sum (map Component.weight components) in
  (* Add battery *)
  let battery_weight := py_max 20 (target_weight - total_weight - 30) in
  let components :=
    components ++ [ component "LiPo Battery" battery_weight (xyz (-20) 0 (-5)) ] in
  (* Add motor and propeller *)
  let motor_weight := 15 in
  let components :=
    components ++ [ component "Brushless Motor + Propeller" motor_weight
                              (xyz 80 0 0) ] in
  (* Calculate CG and stability *)
  let total_weight := sum (map Component.weight components) in
  (* Basic wing sizing (simplified) *)
  let wingspan := 800 in
  let wing_area := wingspan * 150 / 1000000 in
  Ok {| AircraftDesign.name :=
          "AI_Pilot_Flying_Wing_" +:+ pretty (py_int total_weight) +:+ "g";
        AircraftDesign.type_ := "flying_wing";
        AircraftDesign.wingspan := wingspan;
        AircraftDesign.wing_area := wing_area;
        AircraftDesign.empty_weight := total_weight;
        AircraftDesign.max_takeoff_weight := py_min 250 (total_weight + 20);
        AircraftDesign.components := components;
        AircraftDesign.cg_location := 0.25;
        AircraftDesign.stability_margin := 0.1 |}.

(** [estimate_flight_time]: the first component whose name contains
    "Battery", 30 when there is none. *)
Definition estimate_flight_time (design : AircraftDesign.t) : Q :=
  let battery_weight :=
    match List.find (fun c => is_substring "Battery" (Component.name c))
                    (AircraftDesign.components design) with
    | Some c => Component.weight c
    | None => 30
    end in
  (battery_weight / 30) * 10.

End AircraftBuilder.

(* ===================================================================== *)
(** ** ai_pilot.py                                                       *)
(* ===================================================================== *)

Module AIPilot.

(** A dictionary literal with string keys (the keys of every literal of
    the source are distinct). *)
Definition dict (items : list (string * value)) : gmap string value :=
  list_to_map items.

Definition strs (l : list string) : value := VList (VStr <$> l).

(** *** [class FAAKnowledgeBase] *)
Module FAAKnowledgeBase.

(** The two entries of [self.faa_rules] that the checks read. *)
Definition part_107_max_altitude : Z := 400.          (* feet AGL *)
Definition safety_margins_battery_reserve : Z := 5.   (* minutes *)

Definition generate_safety_recommendations (flight_plan : gmap string value)
  : result (list string) :=
  let recommendations := [] in
  (* Weather considerations *)
  b ← gt_num (get flight_plan "wind_speed" (VNum 0)) 10;
  let recommendations :=
    if b : bool then
      recommendations
        ++ ["High wind conditions detected. Consider delaying flight."]
    else recommendations in
  (* Terrain considerations *)
  b ← gt_num (get flight_plan "terrain_elevation" (VNum 0)) 1000;
  let recommendations :=
    if b : bool then
      recommendations
        ++ ["High terrain elevation. Ensure adequate altitude buffer."]
    else recommendations in
  (* Traffic considerations *)
  let recommendations :=
    if truthy (get flight_plan "near_airport" (VBool false)) then
      recommendations
        ++ ["Near controlled airspace. Maintain extra separation from manned aircraft."]
    else recommendations in
  Ok recommendations.

Definition check_flight_compliance (flight_plan : gmap string value)
  : result (gmap string value) :=
  let violations := [] in
  let warnings := [] in
  (* Check altitude limits *)
  b ← gt_num (get flight_plan "max_altitude" (VNum 0))
             (inject_Z part_107_max_altitude);
  let violations :=
    if b : bool then
      violations
        ++ ["Maximum altitude exceeds FAA limit of "
              +:+ pretty part_107_max_altitude +:+ "ft"]
    else violations in
  (* Check battery reserve *)
  let estimated_flight_time :=
    get flight_plan "estimated_flight_time" (VNum 0) in
  b ← lt_num estimated_flight_time
             (inject_Z (safety_margins_battery_reserve + 5));
  let violations :=
    if b : bool then
      violations
        ++ ["Insufficient battery reserve. Need at least "
              +:+ pretty safety_margins_battery_reserve +:+ "min reserve"]
    else violations in
  (* Check operating area *)
  let violations :=
    if truthy (get flight_plan "over_populated_area" (VBool false)) then
      violations ++ ["Cannot operate over populated areas"]
    else violations in
  recommendations ← generate_safety_recommendations flight_plan;
  Ok (dict [ ("compliant", VBool (Nat.eqb (length violations) 0));
             ("violations", strs violations);
             ("warnings", strs warnings);
             ("recommendations", strs recommendations) ]).

End FAAKnowledgeBase.

(** *** [class WeatherService] *)
Module WeatherService.

Definition assess_flight_risk (weather : gmap string value) : result string :=
  let wind_speed := get weather "wind_speed" (VNum 0) in
  let visibility := get weather "visibility" (VNum 10) in
  let ceiling := get weather "ceiling" (VNum 10000) in
  (* [or] evaluates its operands from the left and stops at the first
     true one *)
  high ← (b ← gt_num wind_speed 20;
          if b : bool then Ok true
          else b ← lt_num visibility 3;
               if b : bool then Ok true else lt_num ceiling 1000);
  if high : bool then Ok "HIGH_RISK"
  else
    moderate ← (b ← gt_num wind_speed 10;
                if b : bool then Ok true
                else b ← lt_num visibility 5;
                     if b : bool then Ok true else lt_num ceiling 3000);
    if moderate : bool then Ok "MODERATE_RISK" else Ok "LOW_RISK".

(** [get_weather]: the simulated METAR/TAF record; [location] and
    [radius] are not read. *)
Definition get_weather (location : gmap string Q) : result (gmap string value) :=
  flight_risk ← assess_flight_risk
                  (dict [ ("wind_speed", VNum 8);
                          ("visibility", VNum 10);
                          ("ceiling", VNum 5000) ]);
  Ok (dict
        [ ("metar",
           VDict (dict [ ("station", VStr "KEXAMPLE");
                         ("temperature", VNum 25);
                         ("dewpoint", VNum 15);
                         ("wind_speed", VNum 8);
                         ("wind_direction", VNum 180);
                         ("visibility", VNum 10);
                         ("altimeter", VNum 30.12);
                         ("ceiling", VNum 5000) ]));
          ("taf",
           VDict (dict [ ("forecast", VStr "VFR conditions expected");
                         ("wind", VStr "5-10 knots");
                         ("visibility", VStr "greater than 6 miles") ]));
          ("flight_risk", VStr flight_risk) ]).

End WeatherService.

(** *** [class TerrainService] *)
Module TerrainService.

(** A waypoint is a [Dict[str, float]]; this is the object stored in
    the flight plan for it. *)
Definition waypoint_value (wp : gmap string Q) : value := VDict (VNum <$> wp).

Definition check_terrain_clearance (flight_path : list (gmap string Q))
    (max_terrain : Q) : result bool :=
  min_altitude ← min_of (map (fun wp => get wp "altitude" 0) flight_path);
  Ok (Qge_bool min_altitude (max_terrain + 200)).

Definition get_terrain_profile (flight_path : list (gmap string Q))
  : result (gmap string value) :=
  let max_elevation := 500 in
  (* Simulate an obstacle at waypoint 3 *)
  let obstacles :=
    concat (imap (fun i waypoint =>
                    if Nat.eqb i 2 then
                      [ VDict (dict [ ("location", waypoint_value waypoint);
                                      ("height", VNum 200);
                                      ("type", VStr "tree_line") ]) ]
                    else [])
                 flight_path) in
  clearance ← check_terrain_clearance flight_path max_elevation;
  Ok (dict [ ("max_terrain_elevation", VNum max_elevation);
             ("obstacles", VList obstacles);
             ("minimum_safe_altitude", VNum (max_elevation + 200));
             ("terrain_clearance", VBool clearance) ]).

End TerrainService.

(** *** [class AIPilot] *)

(** The instance attribute that [plan_flight] writes. *)
Record t : Type := {
  current_flight_plan : option (gmap string value)
}.

(** The keys of [mission_params] that [plan_flight] reads. *)
Record mission_params : Type := {
  aircraft_config : option string;
  location : option (gmap string Q);
  waypoints : option (list (gmap string Q))
}.

Definition default_aircraft_data : gmap string value :=
  dict [ ("name", VStr "AI_Pilot_Flying_Wing_185g");
         ("type", VStr "flying_wing");
         ("empty_weight", VNum 185);
         ("max_takeoff_weight", VNum 205);
         ("wingspan", VNum 800);
         ("wing_area", VNum 0.12);
         ("airspeeds", VDict (dict [ ("Vs", VNum 1.1); ("Vx", VNum 1.2);
                                     ("Vy", VNum 1.4); ("Vno", VNum 1.7) ]));
         ("estimated_flight_time", VNum 47);
         ("battery_reserve", VNum 5) ].

Definition calculate_performance (aircraft weather : gmap string value)
  : result (gmap string value) :=
  let base_flight_time := get aircraft "estimated_flight_time" (VNum 30) in
  wind_speed ← method_get (get weather "metar" (VDict ∅)) "wind_speed" (VNum 0);
  (* Wind correction (simplified) *)
  wind_speed ← as_num wind_speed;
  let wind_correction := wind_speed * 0.1 in
  base_flight_time ← as_num base_flight_time;
  let adjusted_flight_time := base_flight_time * (1 - wind_correction / 100) in
  airspeeds ← getitem aircraft "airspeeds";
  cruise_speed ← subscript airspeeds "Vy";
  airspeeds ← getitem aircraft "airspeeds";
  max_speed ← subscript airspeeds "Vno";
  airspeeds ← getitem aircraft "airspeeds";
  stall_speed ← subscript airspeeds "Vs";
  airspeeds ← getitem aircraft "airspeeds";
  vy ← subscript airspeeds "Vy";
  vy ← as_num vy;
  Ok (dict [ ("cruise_speed", cruise_speed);
             ("max_speed", max_speed);
             ("stall_speed", stall_speed);
             ("estimated_flight_time", VNum (py_max 5 adjusted_flight_time));
             ("range", VNum (adjusted_flight_time * vy * 0.8));
             ("wind_impact", VNum wind_correction);
             ("battery_reserve", get aircraft "battery_reserve" (VNum 5)) ]).

Definition generate_emergency_procedures : gmap string value :=
  dict
    [ ("engine_failure",
       VDict (dict
         [ ("immediate_actions",
            strs ["Reduce throttle to idle"; "Pitch down for best glide speed"]);
           ("best_glide_speed", VStr "Vs + 5 knots");
           ("landing_priority", VStr "Find suitable landing area immediately") ]));
      ("loss_of_control",
       VDict (dict
         [ ("immediate_actions",
            strs ["Throttle to idle";
                  "Attempt recovery with full control deflection"]);
           ("recovery_technique",
            VStr "Opposite rudder to stop rotation, then gentle back pressure") ]));
      ("low_battery",
       VDict (dict
         [ ("warning_threshold", VStr "20% remaining");
           ("actions",
            strs ["Return to launch immediately";
                  "Use minimum throttle for cruise"]);
           ("reserve_time", VStr "5 minutes at minimum throttle") ]));
      ("ads_b_traffic",
       VDict (dict
         [ ("separation_standard",
            VStr "500 feet vertical, 1 nautical mile horizontal");
           ("avoidance_action", VStr "Climb or descend to increase separation");
           ("communication", VStr "Monitor ADS-B display continuously") ])) ].

(** The body of the loop over [decision_factors.items()]. *)
Definition failed_label (factor : string) : string :=
  "Failed " +:+ replace_char "_"%char " "%char factor +:+ " check".

Definition make_go_no_go_decision (flight_plan : gmap string value)
  : result (gmap string value) :=
  faa_compliance ← getitem flight_plan "faa_compliance";
  faa_compliant ← subscript faa_compliance "compliant";
  weather ← getitem flight_plan "weather";
  flight_risk ← method_get weather "flight_risk" VNone;
  terrain ← getitem flight_plan "terrain";
  terrain_clearance ← method_get terrain "terrain_clearance" (VBool true);
  performance ← getitem flight_plan "performance";
  estimated_flight_time ← subscript performance "estimated_flight_time";
  battery_reserve ← gt_num estimated_flight_time 10;
  let decision_factors :=
    [ ("faa_compliant", faa_compliant);
      ("weather_acceptable", VBool (ne_str flight_risk "HIGH_RISK"));
      ("terrain_clearance", terrain_clearance);
      ("battery_reserve", VBool battery_reserve);
      ("aircraft_ready", VBool true) ] in
  let go_decision := forallb truthy (map snd decision_factors) in
  let reasons :=
    if negb go_decision then
      map (fun item => failed_label (fst item))
          (List.filter (fun item => negb (truthy (snd item))) decision_factors)
    else [] in
  faa_compliance ← getitem flight_plan "faa_compliance";
  recommendations ← method_get faa_compliance "recommendations" (VList []);
  Ok (dict [ ("go", VBool go_decision);
             ("confidence_level", VStr (if go_decision then "HIGH" else "LOW"));
             ("reasons", strs reasons);
             ("recommendations", recommendations) ]).

Section WithEnvironment.
Context `{Runtime}.
(** The outside world of [plan_flight]:
    - [read_json path] is [open] and [json.load] on the file at [path]:
      [None] when they raise [FileNotFoundError] or [JSONDecodeError],
      the two exceptions that [load_aircraft_data] catches; otherwise
      the document that [json.load] returns, or the other exception
      that [open] or [json.load] raises (a [PermissionError] is an
      [OSError]);
    - [now_stamp] is [datetime.now().strftime('%Y%m%d_%H%M%S')];
    - [generate_pilot_briefing] renders the briefing text. *)
Variable read_json : string -> option (result value).
Variable now_stamp : string.
Variable generate_pilot_briefing :
  gmap string value -> gmap string value -> gmap string value -> result string.

Definition load_aircraft_data (config_file : option string)
  : result (gmap string value) :=
  match read_json ("aircraft_builder/" +:+ default "None" config_file) with
  | Some (Ok data) =>
      (* Flatten the nested structure for easier access *)
      aircraft ← method_get data "design" (VDict ∅);
      flight_characteristics ←
        method_get data "flight_characteristics" (VDict ∅);
      aircraft ← dict_update aircraft flight_characteristics;
      weight_balance ← method_get data "weight_balance" (VDict ∅);
      Ok (<["weight_balance" := weight_balance]> aircraft)
  | Some (Raise e) => Raise e
  | None =>
      (* Return default aircraft data *)
      Ok default_aircraft_data
  end.

Definition plan_flight (self : t) (mission_params : mission_params)
  : result (gmap string value * t) :=
  (* Load aircraft data *)
  aircraft_data ← load_aircraft_data (aircraft_config mission_params);
  (* Get environmental data *)
  let location :=
    default (list_to_map [("lat", 37.7749); ("lon", -122.4194)])
            (location mission_params) in
  weather_data ← WeatherService.get_weather location;
  terrain_data ←
    TerrainService.get_terrain_profile (default [] (waypoints mission_params));
  (* Calculate performance *)
  performance ← calculate_performance aircraft_data weather_data;
  (* Create flight plan *)
  pilot_briefing ←
    generate_pilot_briefing aircraft_data weather_data terrain_data;
  let flight_plan :=
    dict [ ("mission_id", VStr ("AI_PILOT_" +:+ now_stamp));
           ("aircraft", VDict aircraft_data);
           ("weather", VDict weather_data);
           ("terrain", VDict terrain_data);
           ("performance", VDict performance);
           ("waypoints",
            VList (TerrainService.waypoint_value
                     <$> default [] (waypoints mission_params)));
           ("emergency_procedures", VDict generate_emergency_procedures);
           ("pilot_briefing", VStr pilot_briefing) ] in
  (* FAA compliance check *)
  compliance ← FAAKnowledgeBase.check_flight_compliance flight_plan;
  let flight_plan := <["faa_compliance" := VDict compliance]> flight_plan in
  (* Final safety assessment *)
  go_no_go ← make_go_no_go_decision flight_plan;
  let flight_plan := <["go_no_go" := VDict go_no_go]> flight_plan in
  Ok (flight_plan, {| current_flight_plan := Some flight_plan |}).

End WithEnvironment.

(** One entry of the [alerts] list of [monitor_flight]. *)
Record alert : Type := {
  level : string;
  message : string;
  action : string
}.

(** The dictionary returned by [monitor_flight]. *)
Record monitor_report : Type := {
  alerts : list alert;
  monitor_recommendations : list string;
  flight_status : string
}.

Section WithRuntime.
Context `{Runtime}.

(** The f-string field [{v}] for an object that has passed a numeric
    comparison: a number, or a [bool]. *)
Definition str_number (v : value) : string :=
  match v with
  | VNum q => str q
  | VBool true => "True"
  | VBool false => "False"
  | _ => ""
  end.

(** [monitor_flight]; telemetry is a dictionary of numeric readings. *)
Definition monitor_flight (self : t) (telemetry : gmap string Q)
  : result monitor_report :=
  let alerts := [] in
  let recommendations := [] in
  (* Airspeed monitoring *)
  let airspeed := get telemetry "airspeed" 0 in
  current_flight_plan ←
    match current_flight_plan self with
    | Some flight_plan => Ok flight_plan
    | None => Raise TypeError
    end;
  aircraft ← getitem current_flight_plan "aircraft";
  airspeeds ← subscript aircraft "airspeeds";
  stall_speed ← subscript airspeeds "Vs";
  stall ← as_num stall_speed;
  let alerts :=
    if Qlt_bool airspeed (stall * 1.2) then
      alerts
        ++ [ {| level := "CRITICAL";
                message := "Airspeed too low! Current: " +:+ format_1f airspeed
                           +:+ " m/s, Stall: " +:+ format_1f stall +:+ " m/s";
                action := "Increase throttle immediately, lower nose gently" |} ]
    else alerts in
  (* Altitude monitoring *)
  let altitude := get telemetry "altitude" 0 in
  terrain ← getitem current_flight_plan "terrain";
  min_safe_alt ← subscript terrain "minimum_safe_altitude";
  min_safe ← as_num min_safe_alt;
  let alerts :=
    if Qlt_bool altitude min_safe then
      alerts
        ++ [ {| level := "WARNING";
                message := "Low altitude! Current: " +:+ str altitude
                           +:+ "ft, Minimum: " +:+ str_number min_safe_alt +:+ "ft";
                action := "Climb to safe altitude" |} ]
    else alerts in
  (* Battery monitoring *)
  let battery_level := get telemetry "battery_percent" 100 in
  let alerts :=
    if Qlt_bool battery_level 20 then
      alerts
        ++ [ {| level := "WARNING";
                message := "Low battery: " +:+ str battery_level +:+ "%";
                action := "Return to launch area immediately" |} ]
    else alerts in
  Ok {| alerts := alerts;
        monitor_recommendations := recommendations;
        flight_status :=
          if Nat.eqb (length alerts) 0 then "NOMINAL" else "CAUTION" |}.

End WithRuntime.

End AIPilot.

(* ===================================================================== *)
(** ** complete_ai_pilot_system.py                                       *)
(* ===================================================================== *)

Module CompleteAIPilotSystem.

(** The loop [for field in fields: if field not in container: return
    False], followed by what comes after it ([True] here): the first
    missing field ends the loop. *)
Fixpoint all_present (container : value) (fields : list string) : result bool :=
  match fields with
  | [] => Ok true
  | field :: fields' =>
      present ← contains container field;
      if present : bool then all_present container fields' else Ok false
  end.

Definition check_aircraft_configuration (flight_plan : gmap string value)
  : result bool :=
  let aircraft := get flight_plan "aircraft" (VDict ∅) in
  let required_fields :=
    ["name"; "empty_weight"; "airspeeds"; "estimated_flight_time"] in
  present ← all_present aircraft required_fields;
  if negb present then Ok false
  else
    (* Check weight limits *)
    weight ← method_get aircraft "empty_weight" (VNum 0);
    heavy ← gt_num weight 250;   (* FAA sub-250g limit *)
    if heavy : bool then Ok false else Ok true.

Definition check_weather_conditions (flight_plan : gmap string value)
  : result bool :=
  let weather := get flight_plan "weather" (VDict ∅) in
  risk ← method_get weather "flight_risk" (VStr "UNKNOWN");
  if eq_str risk "HIGH_RISK" || eq_str risk "UNKNOWN" then Ok false
  else
    metar ← method_get weather "metar" (VDict ∅);
    wind_speed ← method_get metar "wind_speed" (VNum 0);
    windy ← gt_num wind_speed 15;   (* knots *)
    if windy : bool then Ok false else Ok true.

(** The value stored under [compliant] is returned as it is. *)
Definition check_faa_compliance (flight_plan : gmap string value)
  : result value :=
  let compliance := get flight_plan "faa_compliance" (VDict ∅) in
  method_get compliance "compliant" (VBool false).

Definition check_system_integrity : bool := true.

Definition verify_emergency_procedures (flight_plan : gmap string value)
  : result bool :=
  let procedures := get flight_plan "emergency_procedures" (VDict ∅) in
  let required_procedures :=
    ["engine_failure"; "loss_of_control"; "low_battery"; "ads_b_traffic"] in
  all_present procedures required_procedures.

Definition perform_preflight_checks (flight_plan : gmap string value)
  : result bool :=
  aircraft_config ← check_aircraft_configuration flight_plan;
  weather_conditions ← check_weather_conditions flight_plan;
  faa_compliance ← check_faa_compliance flight_plan;
  let system_integrity := check_system_integrity in
  emergency_procedures ← verify_emergency_procedures flight_plan;
  let checks :=
    [ ("aircraft_config", VBool aircraft_config);
      ("weather_conditions", VBool weather_conditions);
      ("faa_compliance", faa_compliance);
      ("system_integrity", VBool system_integrity);
      ("emergency_procedures", VBool emergency_procedures) ] in
  let all_passed :=
    fold_left (fun all_passed item =>
                 if negb (truthy (snd item)) then false else all_passed)
              checks true in
  Ok all_passed.

End CompleteAIPilotSystem.

(* ===================================================================== *)
(** ** The specification's wording, for comparison with the code         *)
(* ===================================================================== *)

Module Spec.

(** "technical score subtracts exactly 40 when w>250, exactly 15 when
    225<w≤250, 0 otherwise". *)
Definition weight_penalty (w : Q) : Z :=
  if Qgt_bool w 250 then 40
  else if Qlt_bool 225 w && Qle_bool w 250 then 15
  else 0.

(** "on failure, reasons lists each failed factor's label": the labels of
    the factors that are false, in the order the factors are listed. *)
Definition failed_checks (faa_compliant weather_acceptable terrain_clearance
                          battery_reserve aircraft_ready : bool) : list string :=
  (if faa_compliant then [] else ["Failed faa compliant check"])
  ++ (if weather_acceptable then [] else ["Failed weather acceptable check"])
  ++ (if terrain_clearance then [] else ["Failed terrain clearance check"])
  ++ (if battery_reserve then [] else ["Failed battery reserve check"])
  ++ (if aircraft_ready then [] else ["Failed aircraft ready check"]).

End Spec.

(* ===================================================================== *)
(** ** Closed forms of loops and tests, to state their results           *)
(* ===================================================================== *)

Module Closed.
Import AircraftBuilder.

(** The component of a sensor of the database, when it is there. *)
Definition optional (sensor : option Hardware.t) (position : gmap string Q)
  : list Component.t :=
  match sensor with
  | Some s => [ component (Hardware.name s) (Hardware.weight s) position ]
  | None => []
  end.

(** The hardware that [design_flying_wing] selects, in order: the
    autopilot, the essential sensors and the airspeed sensor with its
    pitot system. *)
Definition selected (self : t) (autopilot : Hardware.t) : list Component.t :=
  [ component (Hardware.name autopilot) (Hardware.weight autopilot) (xyz 0 0 0) ]
  ++ optional (sensors self !! "imu_mpu6050") (xyz 120 0 5)
  ++ optional (sensors self !! "gps_ublox_neo_m8n") (xyz 140 0 5)
  ++ optional (sensors self !! "baro_ms5611") (xyz 130 0 5)
  ++ match sensors self !! "airspeed_mp3v5004" with
     | Some airspeed =>
         [ component (Hardware.name airspeed) (Hardware.weight airspeed + 15)
                     (xyz 50 0 10) ]
     | None => []
     end.

(** The entry of [moments] that the loop appends for a component. *)
Definition moment_for (wing_start : Q) (comp : Component.t) (m : Moment.t)
  : Prop :=
  Moment.component m = Component.name comp
  /\ Moment.weight m = Component.weight comp
  /\ Component.position comp !! "x" = Some (Moment.position m)
  /\ Moment.relative_pos m = Moment.position m - wing_start
  /\ Moment.moment m = Component.weight comp * (Moment.position m - wing_start).

(** Mission parameters with another takeoff weight ([None]: the key is
    absent) and every other entry as it is. *)
Definition with_takeoff_weight (w : option Q)
    (params : MissionPlanner.mission_params) : MissionPlanner.mission_params :=
  {| MissionPlanner.aircraft :=
       Some {| MissionPlanner.takeoff_weight := w;
               MissionPlanner.max_flight_time :=
                 MissionPlanner.max_flight_time
                   (default MissionPlanner.no_aircraft
                            (MissionPlanner.aircraft params)) |};
     MissionPlanner.flight_plan := MissionPlanner.flight_plan params;
     MissionPlanner.weather := MissionPlanner.weather params;
     MissionPlanner.location := MissionPlanner.location params;
     MissionPlanner.controlled_airspace :=
       MissionPlanner.controlled_airspace params;
     MissionPlanner.airspace_authorization :=
       MissionPlanner.airspace_authorization params;
     MissionPlanner.is_simulation := MissionPlanner.is_simulation params |}.

(** The two tests of [assess_flight_risk] on numeric readings. *)
Definition high_risk (w : gmap string Q) : bool :=
  Qgt_bool (get w "wind_speed" 0) 20
  || Qlt_bool (get w "visibility" 10) 3
  || Qlt_bool (get w "ceiling" 10000) 1000.
Definition moderate_risk (w : gmap string Q) : bool :=
  Qgt_bool (get w "wind_speed" 0) 10
  || Qlt_bool (get w "visibility" 10) 5
  || Qlt_bool (get w "ceiling" 10000) 3000.

End Closed.

(* ===================================================================== *)
(** ** The scenarios of the specification's test plan                    *)
(* ===================================================================== *)

Module Scenarios.
Import MissionPlanner.

(** Scenario A: weight 235 g, battery margin 18/25 min, wind 12 kt,
    visibility 8 km, VFR, altitude 95 m, uncontrolled airspace,
    simulation. *)
Definition scenario_A (loc : option location_params) : mission_params :=
  {| aircraft := Some {| takeoff_weight := Some 235; max_flight_time := Some 25 |};
     flight_plan := Some {| estimated_duration := Some 18; max_altitude := Some 95 |};
     weather := Some {| wind_speed := Some 12; visibility := Some 8;
                        condition := Some "vfr" |};
     location := loc;
     controlled_airspace := Some false;
     airspace_authorization := None;
     is_simulation := Some true |}.

(** Scenario B: scenario A with weight 260 g and controlled airspace
    without authorization. *)
Definition scenario_B (loc : option location_params) : mission_params :=
  {| aircraft := Some {| takeoff_weight := Some 260; max_flight_time := Some 25 |};
     flight_plan := Some {| estimated_duration := Some 18; max_altitude := Some 95 |};
     weather := Some {| wind_speed := Some 12; visibility := Some 8;
                        condition := Some "vfr" |};
     location := loc;
     controlled_airspace := Some true;
     airspace_authorization := Some false;
     is_simulation := Some true |}.

(** A flying wing of 800 mm span and 0.12 m² area (a 150 mm chord). *)
Definition wing_with (components : list AircraftBuilder.Component.t)
  : AircraftBuilder.AircraftDesign.t :=
  {| AircraftBuilder.AircraftDesign.name := "AI_Pilot_Flying_Wing";
     AircraftBuilder.AircraftDesign.type_ := "flying_wing";
     AircraftBuilder.AircraftDesign.wingspan := 800;
     AircraftBuilder.AircraftDesign.wing_area := 0.12;
     AircraftBuilder.AircraftDesign.empty_weight := 0;
     AircraftBuilder.AircraftDesign.max_takeoff_weight := 20;
     AircraftBuilder.AircraftDesign.components := components;
     AircraftBuilder.AircraftDesign.cg_location := 0.25;
     AircraftBuilder.AircraftDesign.stability_margin := 0.1 |}.

(** A component of 10 g mounted [x] mm from the nose. *)
Definition payload_at (x : Q) : AircraftBuilder.Component.t :=
  {| AircraftBuilder.Component.name := "payload";
     AircraftBuilder.Component.weight := 10;
     AircraftBuilder.Component.position :=
       list_to_map [("x", x); ("y", 0); ("z", 0)];
     AircraftBuilder.Component.moment_arm := 0.0 |}.

(** The decision scenario: FAA-compliant, weather MODERATE_RISK, terrain
    clearance satisfied, adjusted flight time 12 min. *)
Definition decision_scenario : gmap string value :=
  AIPilot.dict
    [ ("faa_compliance",
       VDict (AIPilot.dict [ ("compliant", VBool true);
                             ("violations", VList []);
                             ("warnings", VList []);
                             ("recommendations", VList []) ]));
      ("weather", VDict (AIPilot.dict [ ("flight_risk", VStr "MODERATE_RISK") ]));
      ("terrain", VDict (AIPilot.dict [ ("terrain_clearance", VBool true) ]));
      ("performance",
       VDict (AIPilot.dict [ ("estimated_flight_time", VNum 12) ])) ].

(** A waypoint dictionary. *)
Definition waypoint (lat lon altitude : Q) : gmap string Q :=
  list_to_map [("lat", lat); ("lon", lon); ("altitude", altitude)].

(** The sample mission of [ai_pilot.main], with its waypoints raised
    above the 700 ft minimum safe altitude. *)
Definition sample_mission : AIPilot.mission_params :=
  {| AIPilot.aircraft_config := Some "AI_Pilot_Flying_Wing_185g.json";
     AIPilot.location := Some (list_to_map [("lat", 37.7749); ("lon", -122.4194)]);
     AIPilot.waypoints :=
       Some [ waypoint 37.7749 (-122.4194) 800;
              waypoint 37.7859 (-122.4094) 850;
              waypoint 37.7749 (-122.4194) 800 ] |}.

(** The sample mission of [main]: waypoints at 200 and 250 ft. *)
Definition main_mission : AIPilot.mission_params :=
  {| AIPilot.aircraft_config := Some "AI_Pilot_Flying_Wing_185g.json";
     AIPilot.location := Some (list_to_map [("lat", 37.7749); ("lon", -122.4194)]);
     AIPilot.waypoints :=
       Some [ waypoint 37.7749 (-122.4194) 200;
              waypoint 37.7859 (-122.4094) 250;
              waypoint 37.7749 (-122.4194) 200 ] |}.

(** A plan that passes: the decision scenario's compliance with the
    default aircraft, the simulated weather and the emergency
    procedures. *)
Definition passing_plan : gmap string value :=
  AIPilot.dict [ ("aircraft", VDict AIPilot.default_aircraft_data);
         ("weather",
          VDict (AIPilot.dict [ ("flight_risk", VStr "LOW_RISK");
                        ("metar", VDict (AIPilot.dict [ ("wind_speed", VNum 8) ])) ]));
         ("faa_compliance", VDict (AIPilot.dict [ ("compliant", VBool true) ]));
         ("emergency_procedures", VDict AIPilot.generate_emergency_procedures) ].

(** A database of two autopilots of equal weight and a GPS. *)
Definition small_database : AircraftBuilder.t :=
  {| AircraftBuilder.autopilots :=
       [ ("lisa_s", {| AircraftBuilder.Hardware.name := "Lisa/S"; AircraftBuilder.Hardware.weight := 2.8 |});
         ("tiny", {| AircraftBuilder.Hardware.name := "Tiny"; AircraftBuilder.Hardware.weight := 2.8 |}) ];
     AircraftBuilder.sensors :=
       list_to_map
         [ ("gps_ublox_neo_m8n",
            {| AircraftBuilder.Hardware.name := "u-blox NEO-M8N"; AircraftBuilder.Hardware.weight := 12 |}) ] |}.

(** The empty dictionary: every key absent. *)
Definition no_parameters : mission_params :=
  {| aircraft := None; flight_plan := None; weather := None; location := None;
     controlled_airspace := None; airspace_authorization := None;
     is_simulation := None |}.

End Scenarios.

(* ===================================================================== *)
(** * Properties                                                         *)
(* ===================================================================== *)

(** ** Facts about the runtime model *)

Module PyFacts.

Lemma Qlt_bool_iff (a b : Q) : Qlt_bool a b = true <-> a < b.
Proof.
  unfold Qlt_bool. rewrite negb_true_iff, <- not_true_iff_false, Qle_bool_iff.
  split; [apply Qnot_le_lt | apply Qlt_not_le].
Qed.

Lemma Qgt_bool_iff (a b : Q) : Qgt_bool a b = true <-> b < a.
Proof. apply Qlt_bool_iff. Qed.

Lemma Qge_bool_iff (a b : Q) : Qge_bool a b = true <-> b <= a.
Proof. apply Qle_bool_iff. Qed.

Lemma Qlt_bool_false (a b : Q) : Qlt_bool a b = false <-> b <= a.
Proof.
  unfold Qlt_bool. rewrite negb_false_iff. apply Qle_bool_iff.
Qed.

Lemma Qle_bool_false (a b : Q) : Qle_bool a b = false <-> b < a.
Proof.
  rewrite <- not_true_iff_false, Qle_bool_iff.
  split; [apply Qnot_le_lt | apply Qlt_not_le].
Qed.

Lemma bind_Ok_l {A B} (a : A) (f : A -> result B) : Ok a ≫= f = f a.
Proof. reflexivity. Qed.

Lemma bind_Ok {A B} (m : result A) (f : A -> result B) (b : B) :
  m ≫= f = Ok b -> exists a, m = Ok a /\ f a = Ok b.
Proof. destruct m as [a|e]; simpl; intros E; [eauto | discriminate]. Qed.

Tactic Notation "bind_inv" hyp(H) "as" ident(a) ident(E) :=
  apply bind_Ok in H as (a & E & H).

Lemma is_ok_returns {A} (m : result A) : is_ok m = true -> returns m.
Proof. destruct m as [a|e]; [by exists a | discriminate]. Qed.

(** Evaluation of a closed equation by the virtual machine. *)
Ltac vm_eval :=
  match goal with
  | |- _ = ?r => vm_cast_no_check (eq_refl r)
  end.

Lemma for_each_returns {S A} (body : S -> A -> result S) (l : list A) :
  (forall st x, In x l -> returns (body st x)) ->
  forall st, returns (for_each body st l).
Proof.
  induction l as [|x l IH]; intros Hbody st; simpl.
  - by exists st.
  - destruct (Hbody st x) as [st' E]; [by left|].
    rewrite E. simpl. apply IH. intros st0 y Hy. apply Hbody. by right.
Qed.

(** A division whose divisor is a difference of two distinct numbers
    does not raise. *)
Lemma truediv_distinct (a p q : Q) :
  Qeq_bool p q = false -> truediv a (q - p) = Ok (a / (q - p)).
Proof.
  intros Hpq. unfold truediv.
  destruct (Qeq_bool (q - p) 0) eqn:E; [|reflexivity].
  apply Qeq_bool_iff in E.
  assert (Heq : p == q) by lra.
  apply Qeq_bool_iff in Heq. congruence.
Qed.

Lemma truediv_Ok (a b q : Q) :
  truediv a b = Ok q -> q = a / b /\ ~ b == 0.
Proof.
  unfold truediv. destruct (Qeq_bool b 0) eqn:E; [discriminate|].
  intros [= <-]. split; [reflexivity|].
  intros Hb. apply Qeq_bool_iff in Hb. congruence.
Qed.

Lemma truediv_nonzero (a b : Q) : ~ b == 0 -> truediv a b = Ok (a / b).
Proof.
  intros Hb. unfold truediv.
  destruct (Qeq_bool b 0) eqn:E; [|reflexivity].
  by apply Qeq_bool_iff in E.
Qed.

Lemma truediv_zero (a b : Q) : b == 0 -> truediv a b = Raise ZeroDivisionError.
Proof.
  intros Hb. unfold truediv. apply Qeq_bool_iff in Hb. by rewrite Hb.
Qed.

Lemma getitem_Ok {V} (d : gmap string V) (k : string) (v : V) :
  getitem d k = Ok v -> d !! k = Some v.
Proof. unfold getitem. destruct (d !! k); [by intros [= ->] | discriminate]. Qed.

Lemma gt_num_Ok (v : value) (c : Q) (b : bool) :
  gt_num v c = Ok b -> exists q, as_num v = Ok q /\ b = Qgt_bool q c.
Proof.
  unfold gt_num. intros Hb. bind_inv Hb as q Hq.
  injection Hb as <-. eauto.
Qed.

End PyFacts.

(** ** system_validator.py *)

Module SystemValidatorFacts.
Import PyFacts SystemValidator.

Lemma edge_step_returns (x y : Q) (st : (Q * Q) * bool) (p2 : Q * Q) :
  returns (edge_step x y st p2).
Proof.
  destruct st as [[p1x p1y] inside], p2 as [p2x p2y]. unfold edge_step.
  destruct (Qgt_bool y (py_min p1y p2y)); [|by eexists].
  destruct (Qle_bool y (py_max p1y p2y)); [|by eexists].
  destruct (Qle_bool x (py_max p1x p2x)); [|by eexists].
  destruct (Qeq_bool p1y p2y) eqn:Ey; simpl; [by eexists|].
  rewrite (truediv_distinct _ _ _ Ey). simpl.
  destruct (Qeq_bool p1x p2x || Qle_bool x _); by eexists.
Qed.

(** The ray-casting loop returns a verdict on every polygon that has a
    vertex. *)
Lemma point_in_polygon_returns (latitude longitude : Q) (polygon : list (Q * Q)) :
  polygon <> [] -> returns (_point_in_polygon latitude longitude polygon).
Proof.
  intros Hne. unfold _point_in_polygon.
  destruct polygon as [|p1 rest]; [done|].
  set (poly := p1 :: rest).
  change (index poly 0) with (Ok p1 : result _). rewrite bind_Ok_l.
  destruct (for_each_returns
              (fun st i => p2 ← index poly (i mod length poly)%nat;
                           edge_step longitude latitude st p2)
              (seq 1 (length poly))) with (st := (p1, false)) as [st E].
  - intros st i _. unfold index.
    destruct (lookup_lt_is_Some_2 poly (i mod length poly)%nat) as [p2 E2].
    { apply Nat.mod_upper_bound. subst poly. simpl. lia. }
    rewrite E2, bind_Ok_l. apply edge_step_returns.
  - rewrite E, bind_Ok_l. by eexists.
Qed.

(** An edge that lies entirely south or entirely west of the point leaves
    [inside] as it is. *)
Lemma edge_step_skip (x y : Q) (p1 p2 : Q * Q) (inside : bool) :
  py_max (snd p1) (snd p2) < y \/ py_max (fst p1) (fst p2) < x ->
  edge_step x y (p1, inside) p2 = Ok (p2, inside).
Proof.
  destruct p1 as [p1x p1y], p2 as [p2x p2y]. unfold edge_step.
  cbn [fst snd]. intros [Hy|Hx].
  - apply Qle_bool_false in Hy. rewrite Hy.
    by destruct (Qgt_bool y (py_min p1y p2y)).
  - apply Qle_bool_false in Hx. rewrite Hx.
    by destruct (Qgt_bool y (py_min p1y p2y)), (Qle_bool y (py_max p1y p2y)).
Qed.

Tactic Notation "skip_edge" tactic(side) :=
  rewrite bind_Ok_l, edge_step_skip, bind_Ok_l;
  [| side; cbn [fst snd];
     match goal with
     | |- py_max ?a ?b < _ =>
         let v := eval vm_compute in (py_max a b) in
         change (py_max a b) with v
     end; lra ].

(** North of the Florida vertex and east of the first vertex, which is
    where the continental interior lies, every point is reported outside:
    each of the six edges is entirely to the west or entirely to the
    south of it. *)
Lemma mainland_is_outside (latitude longitude : Q) :
  26.125289 < latitude -> -124.733174 < longitude ->
  _point_in_polygon latitude longitude fallback_polygon = Ok false.
Proof.
  intros Hlat Hlon. unfold _point_in_polygon.
  change (length fallback_polygon) with 6%nat.
  change (seq 1 6) with [1; 2; 3; 4; 5; 6]%nat.
  change (index fallback_polygon 0)
    with (Ok (-124.733174, 25.898697) : result (Q * Q)).
  rewrite bind_Ok_l. cbn [for_each].
  repeat match goal with
  | |- context [index fallback_polygon ?i] =>
      let r := eval vm_compute in (index fallback_polygon i) in
      change (index fallback_polygon i) with r
  end.
  skip_edge right. skip_edge right. skip_edge right.
  skip_edge left. skip_edge left. skip_edge left.
  reflexivity.
Qed.

(** C2.  [_point_in_polygon] over the literal fallback polygon, at the
    three points of the boundary test: the polygon's first vertex (the one
    commented "SW corner"), the origin, and a point of the continental
    interior.  The vertex is reported inside and the interior point
    outside. *)
Theorem fallback_polygon_classification :
  _point_in_polygon 25.898697 (-124.733174) fallback_polygon = Ok true /\
  _point_in_polygon 0 0 fallback_polygon = Ok false /\
  _point_in_polygon 39 (-98) fallback_polygon = Ok false.
Proof. repeat split; vm_compute; reflexivity. Qed.

Section WithRuntime.
Context `{Runtime}.

Lemma jitter_range (v : Q) : 0 <= jitter v /\ jitter v < 100.
Proof.
  unfold jitter.
  pose proof (Z.mod_pos_bound (hash (str v)) 100 ltac:(lia)) as [Hlo Hhi].
  split.
  - change 0 with (inject_Z 0). by rewrite <- Zle_Qle.
  - change 100 with (inject_Z 100). by rewrite <- Zlt_Qlt.
Qed.

Ltac jitter_bounds v :=
  let Hlo := fresh "Hlo" in
  let Hhi := fresh "Hhi" in
  destruct (jitter_range v) as [Hlo Hhi];
  unfold Qdiv; change (/ 100) with (1 # 100).

Lemma sim_signal_passes (v : Q) : Qgt_bool (95.0 + (5.0 * jitter v / 100)) 70.0 = true.
Proof. apply Qgt_bool_iff. jitter_bounds v. lra. Qed.

Lemma operational_signal_range (v : Q) :
  80 <= 80.0 + (15.0 * jitter v / 100) /\ 80.0 + (15.0 * jitter v / 100) < 95.
Proof. jitter_bounds v. split; lra. Qed.

Lemma operational_health_range (v : Q) :
  85 <= 85.0 + (10.0 * jitter v / 100) /\ 85.0 + (10.0 * jitter v / 100) < 95.
Proof. jitter_bounds v. split; lra. Qed.

(** In simulator mode the validation passes, and records the result. *)
Lemma perform_simulator (now : Q) (self : t) (latitude longitude : Q) :
  _simulator_mode self = true ->
  exists self',
    perform_system_validation now self latitude longitude = Ok (true, self')
    /\ _simulator_mode self' = true
    /\ _validation_data self' = _validation_data self
    /\ is_Some (_last_validation self').
Proof.
  intros Hsim. unfold perform_system_validation, validate_operational_area.
  rewrite Hsim. simpl. rewrite sim_signal_passes. simpl.
  eexists. split; [reflexivity|]. simpl. repeat split; eauto.
Qed.

(** Outside simulator mode the verdict is the verdict of the ray casting. *)
Lemma perform_hardware (now : Q) (self : t) (latitude longitude : Q) (b : bool) :
  _simulator_mode self = false ->
  _point_in_polygon latitude longitude (_validation_data self) = Ok b ->
  exists self',
    perform_system_validation now self latitude longitude = Ok (b, self')
    /\ _simulator_mode self' = false
    /\ _validation_data self' = _validation_data self
    /\ (is_Some (_last_validation self') <-> b = true).
Proof.
  intros Hsim Hpip. unfold perform_system_validation, validate_operational_area.
  rewrite Hsim, Hpip. simpl. destruct b; simpl.
  - destruct (operational_signal_range latitude) as [Hs _].
    destruct (operational_health_range longitude) as [Hh _].
    assert (Es : Qgt_bool (80.0 + (15.0 * jitter latitude / 100)) 70.0 = true)
      by (apply Qgt_bool_iff; lra).
    assert (Eh : Qgt_bool (85.0 + (10.0 * jitter longitude / 100)) 75.0 = true)
      by (apply Qgt_bool_iff; lra).
    rewrite Es, Eh. simpl. eexists. split; [reflexivity|]. simpl.
    repeat split; eauto.
  - eexists. split; [reflexivity|]. simpl.
    repeat split; try done.
Qed.


(** C7.  The geofence confirmation returns [True] whenever the simulator
    flag is set, and [False] whenever the flag is unset and the ray
    casting reports the coordinates outside the boundary polygon; both
    for the method [perform_system_validation] and for the module-level
    entry point [validate_mission_area]. *)
Theorem confirm_simulation_true_outside_false
    (now : Q) (self : t) (g : option t) (latitude longitude : Q) :
  (_simulator_mode self = true ->
   exists self',
     perform_system_validation now self latitude longitude = Ok (true, self'))
  /\ (_simulator_mode self = false ->
      _point_in_polygon latitude longitude (_validation_data self) = Ok false ->
      exists self',
        perform_system_validation now self latitude longitude = Ok (false, self'))
  /\ (exists g',
        validate_mission_area now g latitude longitude true = Ok (true, g'))
  /\ (_point_in_polygon latitude longitude
        (_validation_data (get_system_validator g)) = Ok false ->
      exists g',
        validate_mission_area now g latitude longitude false = Ok (false, g')).
Proof.
  repeat split.
  - intros Hsim.
    destruct (perform_simulator now self latitude longitude Hsim)
      as (self' & E & _). eauto.
  - intros Hsim Hout.
    destruct (perform_hardware now self latitude longitude false Hsim Hout)
      as (self' & E & _). eauto.
  - unfold validate_mission_area.
    destruct (perform_simulator now
                (set_simulator_mode (get_system_validator g) true)
                latitude longitude eq_refl) as (self' & E & _).
    rewrite E. simpl. eauto.
  - intros Hout. unfold validate_mission_area.
    destruct (perform_hardware now
                (set_simulator_mode (get_system_validator g) false)
                latitude longitude false eq_refl Hout) as (self' & E & _).
    rewrite E. simpl. eauto.
Qed.

(** C10.  Outside simulator mode [perform_system_validation] returns
    [True] exactly when the point is inside the boundary polygon: a result
    with [valid] set has its signal strength in [80, 95) and its system
    health in [85, 95), above the thresholds 70 and 75, and a result for a
    point outside the polygon has [valid] unset. *)
Theorem hardware_validation_iff_inside
    (now : Q) (self : t) (latitude longitude : Q) :
  _simulator_mode self = false ->
  ((exists self',
      perform_system_validation now self latitude longitude = Ok (true, self'))
   <-> _point_in_polygon latitude longitude (_validation_data self) = Ok true)
  /\ (forall r,
        validate_operational_area self latitude longitude = Ok r ->
        if valid r then
          _point_in_polygon latitude longitude (_validation_data self) = Ok true
          /\ (80 <= signal_strength r /\ signal_strength r < 95)
          /\ (85 <= system_health r /\ system_health r < 95)
          /\ Qgt_bool (signal_strength r) 70.0 = true
          /\ Qgt_bool (system_health r) 75.0 = true
        else
          _point_in_polygon latitude longitude (_validation_data self) = Ok false).
Proof.
  intros Hsim. split.
  - split.
    + intros [self' E].
      destruct (_point_in_polygon latitude longitude (_validation_data self))
        as [b|e] eqn:Hpip.
      * destruct (perform_hardware now self latitude longitude b Hsim Hpip)
          as (self'' & E' & _).
        rewrite E' in E. by inversion E.
      * unfold perform_system_validation, validate_operational_area in E.
        rewrite Hsim, Hpip in E. discriminate.
    + intros Hin.
      destruct (perform_hardware now self latitude longitude true Hsim Hin)
        as (self' & E & _). eauto.
  - intros r. unfold validate_operational_area. rewrite Hsim.
    destruct (_point_in_polygon latitude longitude (_validation_data self))
      as [[|]|e]; simpl; intros E; inversion E; subst; simpl; [|done].
    pose proof (operational_signal_range latitude) as [Hs1 Hs2].
    pose proof (operational_health_range longitude) as [Hh1 Hh2].
    rewrite !Qgt_bool_iff. repeat split; try done; lra.
Qed.

End WithRuntime.

(** The two cases of C7 on the validator as constructed, at the origin
    (which is outside the polygon). *)
Lemma confirm_simulation_true_outside_false_witness :
  (exists self',
     @perform_system_validation demo_runtime 0
       (set_simulator_mode init true) 0 0 = Ok (true, self'))
  /\ (exists self',
        @perform_system_validation demo_runtime 0 init 0 0 = Ok (false, self')).
Proof.
  split.
  - apply (@confirm_simulation_true_outside_false demo_runtime 0
             (set_simulator_mode init true) None 0 0).
    reflexivity.
  - apply (@confirm_simulation_true_outside_false demo_runtime 0 init None 0 0).
    + reflexivity.
    + vm_compute. reflexivity.
Defined.

(** C10 on the validator as constructed: the origin fails, and a point
    between the polygon's western edges passes. *)
Lemma hardware_validation_iff_inside_witness :
  ((exists self',
      @perform_system_validation demo_runtime 0 init 30 (-140) = Ok (true, self'))
   <-> _point_in_polygon 30 (-140) (_validation_data init) = Ok true)
  /\ _point_in_polygon 30 (-140) (_validation_data init) = Ok true.
Proof.
  split.
  - apply (@hardware_validation_iff_inside demo_runtime 0 init 30 (-140)).
    reflexivity.
  - vm_compute. reflexivity.
Defined.

End SystemValidatorFacts.

(** ** ai_human_mission_planner.py *)

Module MissionPlannerFacts.
Import PyFacts SystemValidatorFacts MissionPlanner Scenarios.

Lemma recommendation_of_cases (c : Q) :
  (85 <= c -> recommendation_of c = "GO")
  /\ (70 <= c /\ c < 85 -> recommendation_of c = "CAUTION")
  /\ (c < 70 -> recommendation_of c = "NO-GO").
Proof.
  unfold recommendation_of. repeat split.
  - intros Hc. apply Qge_bool_iff in Hc. by rewrite Hc.
  - intros [H70 H85]. apply Qle_bool_false in H85. apply Qge_bool_iff in H70.
    unfold Qge_bool in *. by rewrite H85, H70.
  - intros H70. assert (H85 : c < 85) by lra.
    apply Qle_bool_false in H70, H85. unfold Qge_bool. by rewrite H85, H70.
Qed.

Section WithRuntime.
Context `{Runtime}.

(** The module-level validator answers on every request once its
    polygon has a vertex. *)
Lemma validate_mission_area_returns (now : Q) (g : option SystemValidator.t)
    (latitude longitude : Q) (is_simulation : bool) :
  SystemValidator._validation_data (SystemValidator.get_system_validator g) <> [] ->
  exists v g',
    SystemValidator.validate_mission_area now g latitude longitude is_simulation
    = Ok (v, g').
Proof.
  intros Hne. unfold SystemValidator.validate_mission_area.
  destruct is_simulation.
  - destruct (perform_simulator now
                (SystemValidator.set_simulator_mode
                   (SystemValidator.get_system_validator g) true)
                latitude longitude eq_refl) as (self' & E & _).
    rewrite E. simpl. eauto.
  - destruct (point_in_polygon_returns latitude longitude _ Hne) as [b Hb].
    destruct (perform_hardware now
                (SystemValidator.set_simulator_mode
                   (SystemValidator.get_system_validator g) false)
                latitude longitude b eq_refl Hb) as (self' & E & _).
    rewrite E. simpl. eauto.
Qed.

Lemma validate_mission_area_simulation (now : Q) (g : option SystemValidator.t)
    (latitude longitude : Q) :
  exists g',
    SystemValidator.validate_mission_area now g latitude longitude true
    = Ok (true, g').
Proof.
  unfold SystemValidator.validate_mission_area.
  destruct (perform_simulator now
              (SystemValidator.set_simulator_mode
                 (SystemValidator.get_system_validator g) true)
              latitude longitude eq_refl) as (self' & E & _).
  rewrite E. simpl. eauto.
Qed.

(** What [analyze_mission_parameters] returns, given the verdict of the
    geofence confirmation. *)
Lemma analyze_from_validation (now : Q) (g g' : option SystemValidator.t)
    (p : mission_params) (confirmed : bool) :
  let loc := default no_location (location p) in
  SystemValidator.validate_mission_area now g
    (default 0 (latitude loc)) (default 0 (longitude loc))
    (default true (is_simulation p)) = Ok (confirmed, g') ->
  let tech := _analyze_technical_parameters p in
  let wthr := _analyze_weather_conditions (default no_weather (weather p)) in
  let reg := _check_regulatory_compliance p in
  let conf :=
    inject_Z (score tech + score wthr + score reg
              + (if confirmed then 85 else 25)) / 4 in
  analyze_mission_parameters now g p
  = Ok ({| technical_assessment := tech;
           weather_analysis := wthr;
           regulatory_compliance := reg;
           risk_factors := [];
           ai_confidence := conf;
           ai_recommendation := recommendation_of conf;
           key_concerns :=
             if confirmed then []
             else ["System validation indicates poor signal conditions"];
           supporting_data := [] |}, g').
Proof.
  intros loc Hv tech wthr reg conf. unfold analyze_mission_parameters.
  fold loc. rewrite Hv, bind_Ok_l.
  destruct confirmed; reflexivity.
Qed.

(** C4.  [ai_confidence] is the unweighted mean of exactly four
    contributions: the technical, weather and regulatory scores and 85
    when the geofence confirmation passed, 25 otherwise; the
    recommendation is GO from 85 upwards, CAUTION from 70 up to (not
    including) 85, and NO-GO below 70. *)
Theorem confidence_is_mean_of_four_scores
    (now : Q) (g : option SystemValidator.t) (p : mission_params) :
  SystemValidator._validation_data (SystemValidator.get_system_validator g) <> [] ->
  exists (a : analysis) (g' : option SystemValidator.t) (confirmed : bool),
    analyze_mission_parameters now g p = Ok (a, g')
    /\ SystemValidator.validate_mission_area now g
         (default 0 (latitude (default no_location (location p))))
         (default 0 (longitude (default no_location (location p))))
         (default true (is_simulation p)) = Ok (confirmed, g')
    /\ technical_assessment a = _analyze_technical_parameters p
    /\ weather_analysis a
       = _analyze_weather_conditions (default no_weather (weather p))
    /\ regulatory_compliance a = _check_regulatory_compliance p
    /\ ai_confidence a
       = inject_Z (score (technical_assessment a) + score (weather_analysis a)
                   + score (regulatory_compliance a)
                   + (if confirmed then 85 else 25)) / 4
    /\ (85 <= ai_confidence a -> ai_recommendation a = "GO")
    /\ (70 <= ai_confidence a /\ ai_confidence a < 85 ->
        ai_recommendation a = "CAUTION")
    /\ (ai_confidence a < 70 -> ai_recommendation a = "NO-GO").
Proof.
  intros Hne.
  destruct (validate_mission_area_returns now g
              (default 0 (latitude (default no_location (location p))))
              (default 0 (longitude (default no_location (location p))))
              (default true (is_simulation p)) Hne) as (v & g' & Hv).
  eexists _, g', v. split; [exact (analyze_from_validation now g g' p v Hv)|].
  cbn [technical_assessment weather_analysis regulatory_compliance
       ai_confidence ai_recommendation].
  repeat (split; [done|]). apply recommendation_of_cases.
Qed.

(** C5.  The technical score is the base of 100 minus the weight
    penalty minus the battery term.  The weight penalty is exactly 40
    for a takeoff weight above 250, exactly 15 for a weight in
    (225, 250] and 0 otherwise, a missing weight counting as 0.  The
    battery term is 0, 15 or 30 and is fixed by the two durations of the
    mission: it is the same whatever the takeoff weight is.  The score
    lies in [0, 100]. *)
Theorem technical_score_weight_penalty (p : mission_params) :
  exists battery_term : Z,
    (battery_term = 0 \/ battery_term = 15 \/ battery_term = 30)%Z
    /\ (forall w : option Q,
          score (_analyze_technical_parameters (Closed.with_takeoff_weight w p))
          = (100 - Spec.weight_penalty (default 0%Q w) - battery_term)%Z)
    /\ score (_analyze_technical_parameters p)
       = (100
          - Spec.weight_penalty
              (default 0%Q (takeoff_weight (default no_aircraft (aircraft p))))
          - battery_term)%Z
    /\ (forall w : Q, 250 < w -> Spec.weight_penalty w = 40%Z)
    /\ (forall w : Q, 225 < w /\ w <= 250 -> Spec.weight_penalty w = 15%Z)
    /\ (forall w : Q,
          ~ 250 < w -> ~ (225 < w /\ w <= 250) -> Spec.weight_penalty w = 0%Z)
    /\ (0 <= score (_analyze_technical_parameters p) <= 100)%Z.
Proof.
  set (flight_time :=
         default 0 (estimated_duration (default no_flight_plan (flight_plan p)))).
  set (battery_time :=
         default 0 (max_flight_time (default no_aircraft (aircraft p)))).
  assert (Hscore : forall p' : mission_params,
    score (_analyze_technical_parameters p')
    = (100
       - Spec.weight_penalty
           (default 0%Q (takeoff_weight (default no_aircraft (aircraft p'))))
       - (if Qge_bool
               (default 0%Q (estimated_duration
                               (default no_flight_plan (flight_plan p'))))
               (default 0%Q (max_flight_time
                               (default no_aircraft (aircraft p'))) * 0.9)%Q
          then 30
          else if Qge_bool
                    (default 0%Q (estimated_duration
                                    (default no_flight_plan (flight_plan p'))))
                    (default 0%Q (max_flight_time
                                    (default no_aircraft (aircraft p'))) * 0.8)%Q
               then 15 else 0))%Z).
  { intros p'. unfold _analyze_technical_parameters, Spec.weight_penalty.
    set (w := default 0 (takeoff_weight (default no_aircraft (aircraft p')))).
    destruct (Qgt_bool w 250) eqn:E250.
    - destruct (Qge_bool _ _); [|destruct (Qge_bool _ _)]; reflexivity.
    - assert (Ele : Qle_bool w 250 = true).
      { apply Qle_bool_iff. apply Qlt_bool_false in E250. exact E250. }
      rewrite Ele, andb_true_r. unfold Qgt_bool.
      destruct (Qlt_bool 225 w);
        (destruct (Qge_bool _ _); [|destruct (Qge_bool _ _)]); reflexivity. }
  exists (if Qge_bool flight_time (battery_time * 0.9)%Q then 30
          else if Qge_bool flight_time (battery_time * 0.8)%Q then 15 else 0)%Z.
  split.
  { destruct (Qge_bool _ _); [|destruct (Qge_bool _ _)]; auto. }
  split; [intros w; exact (Hscore (Closed.with_takeoff_weight w p))|].
  split; [exact (Hscore p)|].
  split.
  { intros w Hw. unfold Spec.weight_penalty.
    apply Qgt_bool_iff in Hw. by rewrite Hw. }
  split.
  { intros w [Hlo Hhi]. unfold Spec.weight_penalty.
    apply Qlt_bool_iff in Hlo. rewrite Hlo.
    assert (E : Qgt_bool w 250 = false) by (by apply Qlt_bool_false).
    apply Qle_bool_iff in Hhi. by rewrite E, Hhi. }
  split.
  { intros w Hn250 Hn225. unfold Spec.weight_penalty.
    destruct (Qgt_bool w 250) eqn:E1; [by apply Qgt_bool_iff in E1|].
    destruct (Qlt_bool 225 w && Qle_bool w 250) eqn:E2; [|done].
    apply andb_true_iff in E2 as [E2 E3].
    apply Qlt_bool_iff in E2. apply Qle_bool_iff in E3. tauto. }
  rewrite (Hscore p). unfold Spec.weight_penalty.
  destruct (Qgt_bool _ 250); [|destruct (Qlt_bool 225 _ && Qle_bool _ 250)];
    (destruct (Qge_bool _ _); [|destruct (Qge_bool _ _)]); lia.
Qed.

(** C1, as the code has it.  In scenario B the technical score is 60,
    the weather score 85 and the regulatory score 50; with the geofence
    term 85 of simulation mode the confidence is (60+85+50+85)/4 = 70
    exactly, which meets the inclusive CAUTION threshold: the
    recommendation is CAUTION. *)
Theorem scenario_B_confidence_70_caution
    (now : Q) (g : option SystemValidator.t) (loc : option location_params) :
  exists (a : analysis) (g' : option SystemValidator.t),
    analyze_mission_parameters now g (scenario_B loc) = Ok (a, g')
    /\ score (technical_assessment a) = 60%Z
    /\ score (weather_analysis a) = 85%Z
    /\ score (regulatory_compliance a) = 50%Z
    /\ ai_confidence a == 70
    /\ ai_recommendation a = "CAUTION".
Proof.
  destruct (validate_mission_area_simulation now g
              (default 0 (latitude (default no_location loc)))
              (default 0 (longitude (default no_location loc)))) as [g' Hv].
  eexists _, g'.
  split; [exact (analyze_from_validation now g g' (scenario_B loc) true Hv)|].
  cbn [technical_assessment weather_analysis regulatory_compliance
       ai_confidence ai_recommendation].
  repeat split; vm_compute; reflexivity.
Qed.

End WithRuntime.

(** Scenario A of the test plan, through C4: confidence 88.75, GO. *)
Lemma confidence_is_mean_of_four_scores_witness :
  exists (a : analysis) (g' : option SystemValidator.t),
    @analyze_mission_parameters demo_runtime 0 None (scenario_A None) = Ok (a, g')
    /\ ai_confidence a == 88.75
    /\ ai_recommendation a = "GO".
Proof.
  destruct (@confidence_is_mean_of_four_scores demo_runtime 0 None
              (scenario_A None))
    as (a & g' & c & Ha & _ & _ & _ & _ & _ & _ & _ & _).
  - vm_compute. discriminate.
  - exists a, g'. split; [exact Ha|].
    vm_compute in Ha. inversion Ha. split; vm_compute; reflexivity.
Defined.

(** The thresholds are inclusive. *)
Example recommendation_boundaries :
  recommendation_of 85 = "GO"
  /\ recommendation_of 84.999 = "CAUTION"
  /\ recommendation_of 70 = "CAUTION"
  /\ recommendation_of 69.999 = "NO-GO".
Proof. repeat split; vm_compute; reflexivity. Qed.

(** C5 on scenario B and on its variants with the weight of scenario A
    and with no weight: the three scores differ by the weight penalties
    40, 15 and 0 only. *)
Lemma technical_score_weight_penalty_witness :
  exists battery_term : Z,
    score (@_analyze_technical_parameters demo_runtime (scenario_B None))
    = (100 - 40 - battery_term)%Z
    /\ score (@_analyze_technical_parameters demo_runtime
                (Closed.with_takeoff_weight (Some 235) (scenario_B None)))
       = (100 - 15 - battery_term)%Z
    /\ score (@_analyze_technical_parameters demo_runtime
                (Closed.with_takeoff_weight None (scenario_B None)))
       = (100 - 0 - battery_term)%Z.
Proof.
  destruct (@technical_score_weight_penalty demo_runtime (scenario_B None))
    as (battery_term & _ & Hall & Hp & H250 & H225 & H0 & _).
  exists battery_term.
  rewrite Hp, (Hall (Some 235)), (Hall None).
  cbn [scenario_B aircraft takeoff_weight default from_option id].
  rewrite (H250 260) by reflexivity.
  rewrite (H225 235) by (split; [reflexivity | discriminate]).
  rewrite (H0 0) by (try discriminate; intros [Hlt _]; discriminate Hlt).
  repeat split.
Defined.

(** C1, as stated, fails: on scenario B the confidence is not below 70
    and the recommendation is not NO-GO. *)
Lemma scenario_B_not_below_70_not_no_go :
  exists (a : analysis) (g' : option SystemValidator.t),
    @analyze_mission_parameters demo_runtime 0 None (scenario_B None) = Ok (a, g')
    /\ score (technical_assessment a) = 60%Z
    /\ score (regulatory_compliance a) = 50%Z
    /\ ~ ai_confidence a < 70
    /\ ai_recommendation a <> "NO-GO".
Proof.
  eexists _, _. split; [vm_compute; reflexivity|].
  cbn [technical_assessment regulatory_compliance ai_confidence
       ai_recommendation score].
  repeat split; try reflexivity.
  - vm_compute. discriminate.
  - discriminate.
Qed.

End MissionPlannerFacts.

(** ** aircraft_builder.py *)

Module AircraftBuilderFacts.
Import PyFacts AircraftBuilder Scenarios.

(** The loop over the components fills [moments] when every component
    has an ["x"] position. *)
Lemma moments_loop_returns (wing_start : Q) (components : list Component.t)
    (moments : list Moment.t) :
  Forall (fun comp => is_Some (Component.position comp !! "x")) components ->
  returns (for_each
             (fun moments comp =>
                m ← moment_of wing_start comp; Ok (moments ++ [m]))
             moments components).
Proof.
  intros Hx. apply for_each_returns. intros st comp Hin.
  rewrite List.Forall_forall in Hx. destruct (Hx comp Hin) as [x Ex].
  unfold moment_of, getitem. rewrite Ex. by eexists.
Qed.

(** The report is produced for every design whose components carry an
    ["x"] position and whose total weight, wingspan and wing area are not
    zero. *)
Lemma calculate_weight_balance_returns (design : AircraftDesign.t) :
  Forall (fun comp => is_Some (Component.position comp !! "x"))
         (AircraftDesign.components design) ->
  ~ sum (map Component.weight (AircraftDesign.components design)) == 0 ->
  ~ AircraftDesign.wingspan design == 0 ->
  ~ AircraftDesign.wing_area design == 0 ->
  returns (calculate_weight_balance design).
Proof.
  intros Hx Hweight Hspan Harea. unfold calculate_weight_balance.
  destruct (moments_loop_returns 100 _ [] Hx) as [moments Em].
  rewrite Em, bind_Ok_l, (truediv_nonzero _ _ Hweight), bind_Ok_l,
    (truediv_nonzero _ _ Hspan), bind_Ok_l.
  rewrite truediv_nonzero; [by eexists|].
  intros Hmac. apply Harea.
  assert (Hm : AircraftDesign.wing_area design * 1000000
               == 0 * AircraftDesign.wingspan design).
  { rewrite <- Hmac. field. exact Hspan. }
  lra.
Qed.

(** The division for [cg_from_wing] raises whenever the total weight is
    zero and the loop over the components has completed. *)
Lemma calculate_weight_balance_zero_weight (design : AircraftDesign.t) :
  Forall (fun comp => is_Some (Component.position comp !! "x"))
         (AircraftDesign.components design) ->
  sum (map Component.weight (AircraftDesign.components design)) == 0 ->
  calculate_weight_balance design = Raise ZeroDivisionError.
Proof.
  intros Hx Hweight. unfold calculate_weight_balance.
  destruct (moments_loop_returns 100 _ [] Hx) as [moments Em].
  by rewrite Em, bind_Ok_l, (truediv_zero _ _ Hweight).
Qed.

(** C6.  Every weight-balance report satisfies
    [mac = wing_area * 1000000 / wingspan], [neutral_point = 0.25 * mac],
    [stability_margin = (neutral_point - cg_from_wing) / mac], and
    [is_stable] holds exactly when [stability_margin > 0.05]: a margin of
    0.05 is not stable, a margin of 0.0501 is. *)
Theorem weight_balance_report_formulas
    (design : AircraftDesign.t) (r : weight_balance) :
  calculate_weight_balance design = Ok r ->
  mac r = AircraftDesign.wing_area design * 1000000 / AircraftDesign.wingspan design
  /\ neutral_point r = 0.25 * mac r
  /\ stability_margin r = (neutral_point r - cg_from_wing r) / mac r
  /\ (is_stable r = true <-> 0.05 < stability_margin r)
  /\ (stability_margin r == 0.05 -> is_stable r = false)
  /\ (stability_margin r == 0.0501 -> is_stable r = true).
Proof.
  intros Hr. unfold calculate_weight_balance in Hr.
  bind_inv Hr as moments Hmoments.
  bind_inv Hr as cg Hcg.
  bind_inv Hr as chord Hchord.
  bind_inv Hr as margin Hmargin.
  apply truediv_Ok in Hchord as [-> _].
  apply truediv_Ok in Hmargin as [Hmargin _].
  injection Hr as <-.
  cbn [mac neutral_point stability_margin cg_from_wing is_stable].
  assert (Hiff : Qgt_bool margin 0.05 = true <-> 0.05 < margin)
    by apply Qgt_bool_iff.
  split; [reflexivity|]. split; [reflexivity|]. split; [exact Hmargin|].
  split; [exact Hiff|]. split.
  - intros Hm. apply not_true_iff_false. rewrite Hiff, Hm. apply Qlt_irrefl.
  - intros Hm. apply Hiff. rewrite Hm. reflexivity.
Qed.

(** Two designs, with margins 0.05 and 0.0501. *)
Lemma weight_balance_report_formulas_witness :
  (exists r, calculate_weight_balance (wing_with [payload_at 130]) = Ok r
             /\ mac r == 150 /\ stability_margin r == 0.05
             /\ is_stable r = false)
  /\ (exists r, calculate_weight_balance (wing_with [payload_at 129.985]) = Ok r
                /\ mac r == 150 /\ stability_margin r == 0.0501
                /\ is_stable r = true).
Proof.
  split.
  - destruct (is_ok_returns (calculate_weight_balance (wing_with [payload_at 130])))
      as [r E]; [vm_eval|].
    exists r. split; [exact E|].
    destruct (weight_balance_report_formulas _ r E)
      as (Hmac & Hnp & Hsm & Hiff & H5 & H501).
    assert (Hm : stability_margin r == 0.05).
    { vm_compute in E. injection E as <-. reflexivity. }
    split; [rewrite Hmac; reflexivity|]. split; [exact Hm|]. exact (H5 Hm).
  - destruct (is_ok_returns
                (calculate_weight_balance (wing_with [payload_at 129.985])))
      as [r E]; [vm_eval|].
    exists r. split; [exact E|].
    destruct (weight_balance_report_formulas _ r E)
      as (Hmac & Hnp & Hsm & Hiff & H5 & H501).
    assert (Hm : stability_margin r == 0.0501).
    { vm_compute in E. injection E as <-. reflexivity. }
    split; [rewrite Hmac; reflexivity|]. split; [exact Hm|]. exact (H501 Hm).
Defined.


End AircraftBuilderFacts.

(** ** ai_pilot.py *)

Module AIPilotFacts.
Import PyFacts AIPilot Scenarios.

(** What [make_go_no_go_decision] computes from the four entries of the
    flight plan that it reads. *)
Lemma make_go_no_go_decision_inv (flight_plan d : gmap string value) :
  make_go_no_go_decision flight_plan = Ok d ->
  exists (compliant risk clearance time : value) (minutes : Q),
    (faa ← getitem flight_plan "faa_compliance"; subscript faa "compliant")
    = Ok compliant
    /\ (w ← getitem flight_plan "weather"; method_get w "flight_risk" VNone)
       = Ok risk
    /\ (t ← getitem flight_plan "terrain";
        method_get t "terrain_clearance" (VBool true)) = Ok clearance
    /\ (pf ← getitem flight_plan "performance";
        subscript pf "estimated_flight_time") = Ok time
    /\ as_num time = Ok minutes
    /\ d !! "go"
       = Some (VBool (truthy compliant && ne_str risk "HIGH_RISK"
                      && truthy clearance && Qgt_bool minutes 10 && true))
    /\ d !! "reasons"
       = Some (strs (Spec.failed_checks
                       (truthy compliant) (ne_str risk "HIGH_RISK")
                       (truthy clearance) (Qgt_bool minutes 10) true)).
Proof.
  intros Hd. unfold make_go_no_go_decision in Hd.
  bind_inv Hd as faa Hfaa.
  bind_inv Hd as compliant Hcompliant.
  bind_inv Hd as weather Hweather.
  bind_inv Hd as risk Hrisk.
  bind_inv Hd as terrain Hterrain.
  bind_inv Hd as clearance Hclearance.
  bind_inv Hd as performance Hperformance.
  bind_inv Hd as time Htime.
  bind_inv Hd as reserve Hreserve.
  bind_inv Hd as faa' Hfaa'.
  bind_inv Hd as recommendations Hrecommendations.
  apply gt_num_Ok in Hreserve as (minutes & Hminutes & ->).
  injection Hd as <-.
  exists compliant, risk, clearance, time, minutes.
  rewrite Hfaa, Hweather, Hterrain, Hperformance, !bind_Ok_l.
  repeat (split; [assumption|]).
  cbn [forallb map snd fst List.filter truthy negb].
  destruct (truthy compliant), (ne_str risk "HIGH_RISK"), (truthy clearance),
    (Qgt_bool minutes 10); split; reflexivity.
Qed.

(** Membership in the list of failed checks, factor by factor. *)
Lemma failed_checks_In (f1 f2 f3 f4 f5 : bool) (label : string) :
  In label (Spec.failed_checks f1 f2 f3 f4 f5) <->
  (f1 = false /\ label = "Failed faa compliant check")
  \/ (f2 = false /\ label = "Failed weather acceptable check")
  \/ (f3 = false /\ label = "Failed terrain clearance check")
  \/ (f4 = false /\ label = "Failed battery reserve check")
  \/ (f5 = false /\ label = "Failed aircraft ready check").
Proof.
  unfold Spec.failed_checks. rewrite !in_app_iff.
  destruct f1, f2, f3, f4, f5; simpl; intuition (try discriminate; auto).
Qed.

(** C9.  The decision's [go] is the conjunction of exactly five factors:
    FAA compliance, weather risk class other than HIGH_RISK, terrain
    clearance, flight time after wind correction above 10 minutes, and
    the aircraft-ready flag; [reasons] holds one label per factor that is
    false, in order, and nothing else. *)
Theorem go_is_conjunction_of_five_factors (flight_plan d : gmap string value) :
  make_go_no_go_decision flight_plan = Ok d ->
  exists (compliant risk clearance time : value) (minutes : Q),
    (faa ← getitem flight_plan "faa_compliance"; subscript faa "compliant")
    = Ok compliant
    /\ (w ← getitem flight_plan "weather"; method_get w "flight_risk" VNone)
       = Ok risk
    /\ (t ← getitem flight_plan "terrain";
        method_get t "terrain_clearance" (VBool true)) = Ok clearance
    /\ (pf ← getitem flight_plan "performance";
        subscript pf "estimated_flight_time") = Ok time
    /\ as_num time = Ok minutes
    /\ let faa_compliant := truthy compliant in
       let weather_acceptable := ne_str risk "HIGH_RISK" in
       let terrain_clearance := truthy clearance in
       let battery_reserve := Qgt_bool minutes 10 in
       let aircraft_ready := true in
       let reasons :=
         Spec.failed_checks faa_compliant weather_acceptable terrain_clearance
           battery_reserve aircraft_ready in
       d !! "go"
       = Some (VBool (faa_compliant && weather_acceptable && terrain_clearance
                      && battery_reserve && aircraft_ready))
       /\ d !! "reasons" = Some (strs reasons)
       /\ (forall label,
             In label reasons <->
             (faa_compliant = false /\ label = "Failed faa compliant check")
             \/ (weather_acceptable = false
                 /\ label = "Failed weather acceptable check")
             \/ (terrain_clearance = false
                 /\ label = "Failed terrain clearance check")
             \/ (battery_reserve = false
                 /\ label = "Failed battery reserve check")
             \/ (aircraft_ready = false
                 /\ label = "Failed aircraft ready check")).
Proof.
  intros Hd.
  destruct (make_go_no_go_decision_inv flight_plan d Hd)
    as (compliant & risk & clearance & time & minutes
        & H1 & H2 & H3 & H4 & H5 & Hgo & Hreasons).
  exists compliant, risk, clearance, time, minutes.
  repeat (split; [assumption|]). cbv zeta.
  repeat (split; [assumption|]). intros label. apply failed_checks_In.
Qed.

(** The decision scenario of the test plan: all five factors hold. *)
Lemma go_is_conjunction_of_five_factors_witness :
  exists d,
    make_go_no_go_decision decision_scenario = Ok d
    /\ d !! "go" = Some (VBool true)
    /\ d !! "reasons" = Some (VList []).
Proof.
  destruct (is_ok_returns (make_go_no_go_decision decision_scenario))
    as [d E]; [vm_eval|].
  exists d. split; [exact E|].
  destruct (go_is_conjunction_of_five_factors decision_scenario d E)
    as (compliant & risk & clearance & time & minutes
        & H1 & H2 & H3 & H4 & H5 & Hgo & Hreasons & _).
  vm_compute in H1, H2, H3, H4.
  injection H1 as <-. injection H2 as <-. injection H3 as <-. injection H4 as <-.
  vm_compute in H5. injection H5 as <-.
  split.
  - rewrite Hgo. reflexivity.
  - rewrite Hreasons. reflexivity.
Defined.

(** [check_flight_compliance] on a flight plan without a top-level
    [estimated_flight_time]: the default 0 is below the 10-minute
    threshold, so the battery-reserve violation is reported. *)
Lemma check_flight_compliance_without_time (flight_plan c : gmap string value) :
  flight_plan !! "estimated_flight_time" = None ->
  FAAKnowledgeBase.check_flight_compliance flight_plan = Ok c ->
  c !! "compliant" = Some (VBool false)
  /\ exists violations,
       c !! "violations" = Some (strs violations)
       /\ In "Insufficient battery reserve. Need at least 5min reserve" violations.
Proof.
  intros Hnone Hc. unfold FAAKnowledgeBase.check_flight_compliance in Hc.
  unfold get in Hc. rewrite Hnone in Hc. cbn [default] in Hc.
  bind_inv Hc as too_high Haltitude.
  change (lt_num (VNum 0)
            (inject_Z (FAAKnowledgeBase.safety_margins_battery_reserve + 5)))
    with (Ok true : result bool) in Hc.
  rewrite bind_Ok_l in Hc.
  bind_inv Hc as recommendations Hrecommendations.
  injection Hc as <-.
  destruct too_high,
    (truthy (default (VBool false) (flight_plan !! "over_populated_area")));
    (split; [reflexivity|]); eexists; (split; [reflexivity|]);
    cbn; auto.
Qed.

Section WithEnvironment.
Context `{Runtime}.
Variable read_json : string -> option (result value).
Variable now_stamp : string.
Variable generate_pilot_briefing :
  gmap string value -> gmap string value -> gmap string value -> result string.

(** C3.  Every flight plan that [plan_flight] returns carries the
    insufficient-battery-reserve violation: the plan has no top-level
    [estimated_flight_time] (the value is stored under [performance]
    only), so [check_flight_compliance] compares the default 0 with the
    10-minute threshold.  Hence [faa_compliance.compliant] is false and
    [go_no_go.go] is false. *)
Theorem plan_flight_never_compliant
    (self self' : t) (mission : mission_params) (flight_plan : gmap string value) :
  plan_flight read_json now_stamp generate_pilot_briefing self mission
  = Ok (flight_plan, self') ->
  exists (performance compliance go_no_go : gmap string value)
         (violations : list string),
    flight_plan !! "estimated_flight_time" = None
    /\ flight_plan !! "performance" = Some (VDict performance)
    /\ is_Some (performance !! "estimated_flight_time")
    /\ flight_plan !! "faa_compliance" = Some (VDict compliance)
    /\ compliance !! "violations" = Some (strs violations)
    /\ In "Insufficient battery reserve. Need at least 5min reserve" violations
    /\ compliance !! "compliant" = Some (VBool false)
    /\ flight_plan !! "go_no_go" = Some (VDict go_no_go)
    /\ go_no_go !! "go" = Some (VBool false)
    /\ current_flight_plan self' = Some flight_plan.
Proof.
  intros Hplan. unfold plan_flight in Hplan.
  bind_inv Hplan as aircraft_data Haircraft.
  bind_inv Hplan as weather_data Hweather.
  bind_inv Hplan as terrain_data Hterrain.
  bind_inv Hplan as performance Hperformance.
  bind_inv Hplan as pilot_briefing Hbriefing.
  bind_inv Hplan as compliance Hcompliance.
  bind_inv Hplan as go_no_go Hdecision.
  injection Hplan as <- <-.
  lazymatch type of Hcompliance with
  | FAAKnowledgeBase.check_flight_compliance ?fp = _ =>
      destruct (check_flight_compliance_without_time fp compliance eq_refl
                  Hcompliance)
        as (Hcompliant & violations & Hviolations & Hin)
  end.
  destruct (make_go_no_go_decision_inv _ go_no_go Hdecision)
    as (compliant & risk & clearance & time & minutes
        & H1 & _ & _ & _ & _ & Hgo & _).
  unfold getitem in H1 at 1. rewrite lookup_insert_eq, bind_Ok_l in H1.
  cbn [subscript] in H1. unfold getitem in H1. rewrite Hcompliant in H1.
  injection H1 as <-. cbn [truthy andb] in Hgo.
  exists performance, compliance, go_no_go, violations.
  split; [|split; [|split; [|split; [|split; [|split; [|split;
    [|split; [|split]]]]]]]]; try assumption.
  - rewrite !lookup_insert_ne by done. reflexivity.
  - rewrite !lookup_insert_ne by done. reflexivity.
  - unfold calculate_performance in Hperformance.
    repeat (let v := fresh "v" in let Hv := fresh "Hv" in
            bind_inv Hperformance as v Hv).
    injection Hperformance as <-. by eexists.
  - rewrite lookup_insert_ne by done. apply lookup_insert_eq.
  - apply lookup_insert_eq.
  - reflexivity.
Qed.

End WithEnvironment.

(** The sample mission with the default aircraft data: the plan is
    produced, and FAA compliance is the one failed check. *)
Lemma plan_flight_never_compliant_witness :
  exists (flight_plan go_no_go : gmap string value) (self' : t),
    plan_flight (H := demo_runtime) (fun _ => None) "20250101_120000" (fun _ _ _ => Ok "briefing")
      {| current_flight_plan := None |} sample_mission
    = Ok (flight_plan, self')
    /\ flight_plan !! "go_no_go" = Some (VDict go_no_go)
    /\ go_no_go !! "go" = Some (VBool false).
Proof.
  destruct (is_ok_returns
              (plan_flight (H := demo_runtime) (fun _ => None) "20250101_120000"
                 (fun _ _ _ => Ok "briefing")
                 {| current_flight_plan := None |} sample_mission))
    as [[flight_plan self'] E]; [vm_eval|].
  destruct (plan_flight_never_compliant _ _ _ _ _ _ _ E)
    as (performance & compliance & go_no_go & violations
        & _ & _ & _ & _ & _ & _ & _ & Hgo & Hfalse & _).
  exists flight_plan, go_no_go, self'. repeat split; assumption.
Defined.

End AIPilotFacts.

(* ===================================================================== *)
(** * Further properties of the code                                     *)
(* ===================================================================== *)

(** ** system_validator.py: boundary test, status, module state *)

Module SystemValidatorMore.
Import PyFacts SystemValidatorFacts SystemValidator.

Lemma py_min_cases (a b : Q) : py_min a b = a \/ py_min a b = b.
Proof. unfold py_min. destruct (Qlt_bool b a); auto. Qed.

Lemma py_max_cases (a b : Q) : py_max a b = a \/ py_max a b = b.
Proof. unfold py_max. destruct (Qgt_bool b a); auto. Qed.

(** An edge leaves [inside] as it is when the point is not above its
    lower end, above its upper end, or east of its eastern end. *)
Lemma edge_step_unchanged (x y : Q) (p1 p2 : Q * Q) (inside : bool) :
  y <= py_min (snd p1) (snd p2)
  \/ py_max (snd p1) (snd p2) < y
  \/ py_max (fst p1) (fst p2) < x ->
  edge_step x y (p1, inside) p2 = Ok (p2, inside).
Proof.
  intros [Hlow|Hskip]; [|by apply edge_step_skip].
  destruct p1 as [p1x p1y], p2 as [p2x p2y]. unfold edge_step.
  cbn [fst snd] in *. apply Qlt_bool_false in Hlow.
  unfold Qgt_bool. by rewrite Hlow.
Qed.

(** The loop keeps [inside] false as long as every vertex satisfies a
    property [P] under which each edge is skipped. *)
Lemma loop_stays_outside (x y : Q) (polygon : list (Q * Q)) (P : Q * Q -> Prop) :
  (forall v, In v polygon -> P v) ->
  (forall p1 p2 inside, P p1 -> P p2 ->
     edge_step x y (p1, inside) p2 = Ok (p2, inside)) ->
  polygon <> [] ->
  forall (idxs : list nat) (p1 : Q * Q), P p1 ->
  exists p,
    for_each
      (fun st i => p2 ← index polygon (i mod length polygon)%nat;
                   edge_step x y st p2)
      (p1, false) idxs = Ok (p, false) /\ P p.
Proof.
  intros Hall Hskip Hne idxs.
  induction idxs as [|i idxs IH]; intros p1 Hp1; cbn [for_each].
  - eauto.
  - destruct (lookup_lt_is_Some_2 polygon (i mod length polygon)%nat)
      as [p2 E2].
    { apply Nat.mod_upper_bound. destruct polygon; [done|]. simpl. lia. }
    assert (Hp2 : P p2).
    { apply Hall. apply list_elem_of_In. eapply list_elem_of_lookup_2. exact E2. }
    assert (Ei : index polygon (i mod length polygon)%nat = Ok p2)
      by (unfold index; by rewrite E2).
    rewrite Ei, bind_Ok_l, (Hskip _ _ _ Hp1 Hp2), bind_Ok_l.
    apply IH. exact Hp2.
Qed.

Lemma point_outside_when_edges_skipped (latitude longitude : Q)
    (polygon : list (Q * Q)) (P : Q * Q -> Prop) :
  polygon <> [] ->
  (forall v, In v polygon -> P v) ->
  (forall p1 p2 inside, P p1 -> P p2 ->
     edge_step longitude latitude (p1, inside) p2 = Ok (p2, inside)) ->
  _point_in_polygon latitude longitude polygon = Ok false.
Proof.
  intros Hne Hall Hskip. unfold _point_in_polygon.
  destruct polygon as [|p1 rest] eqn:Epoly; [done|]. rewrite <- Epoly in *.
  assert (E1 : index polygon 0 = Ok p1) by (by rewrite Epoly).
  rewrite E1, bind_Ok_l.
  destruct (loop_stays_outside longitude latitude polygon P Hall Hskip Hne
              (seq 1 (length polygon)) p1) as (p & E & _).
  { apply Hall. rewrite Epoly. by left. }
  by rewrite E, bind_Ok_l.
Qed.

(** X1.  On every polygon with at least one vertex, [_point_in_polygon]
    reports a point outside when its latitude is not above any vertex,
    when it is north of every vertex, or when it is east of every vertex
    (outside the bounding box on three sides). *)
Theorem outside_bounding_box (latitude longitude : Q) (polygon : list (Q * Q)) :
  polygon <> [] ->
  (forall v, In v polygon -> latitude <= snd v)
  \/ (forall v, In v polygon -> snd v < latitude)
  \/ (forall v, In v polygon -> fst v < longitude) ->
  _point_in_polygon latitude longitude polygon = Ok false.
Proof.
  intros Hne [Hsouth|[Hnorth|Heast]].
  - apply (point_outside_when_edges_skipped _ _ _ (fun v => latitude <= snd v));
      [done..|].
    intros p1 p2 inside H1 H2. apply edge_step_unchanged. left.
    destruct (py_min_cases (snd p1) (snd p2)) as [-> | ->]; assumption.
  - apply (point_outside_when_edges_skipped _ _ _ (fun v => snd v < latitude));
      [done..|].
    intros p1 p2 inside H1 H2. apply edge_step_unchanged. right. left.
    destruct (py_max_cases (snd p1) (snd p2)) as [-> | ->]; assumption.
  - apply (point_outside_when_edges_skipped _ _ _ (fun v => fst v < longitude));
      [done..|].
    intros p1 p2 inside H1 H2. apply edge_step_unchanged. right. right.
    destruct (py_max_cases (fst p1) (fst p2)) as [-> | ->]; assumption.
Qed.

(** The origin is south of the fallback polygon. *)
Lemma outside_bounding_box_witness :
  _point_in_polygon 0 0 fallback_polygon = Ok false.
Proof.
  apply outside_bounding_box; [discriminate|].
  left. intros v Hv. unfold fallback_polygon in Hv. cbn [In] in Hv.
  repeat (destruct Hv as [<- | Hv]; [discriminate|]). destruct Hv.
Defined.

Section WithRuntime.
Context `{Runtime}.

(** The ranges of the three kinds of result. *)
Lemma validation_result_ranges
    (self : t) (latitude longitude : Q) (r : validation_result) :
  validate_operational_area self latitude longitude = Ok r ->
  (15 <= signal_strength r /\ signal_strength r < 100)
  /\ (25 <= system_health r /\ system_health r < 100)
  /\ (valid r = true <-> 70 < signal_strength r /\ 75 < system_health r)
  /\ (valid r = false -> signal_strength r < 40 /\ system_health r < 60).
Proof.
  intros Hr. unfold validate_operational_area in Hr.
  destruct (jitter_range (latitude + longitude)) as [Hs0 Hs1].
  destruct (jitter_range latitude) as [Ha0 Ha1].
  destruct (jitter_range longitude) as [Ho0 Ho1].
  destruct (_simulator_mode self).
  - injection Hr as <-. cbn [valid signal_strength system_health].
    unfold Qdiv. change (/ 100) with (1 # 100).
    repeat split; try lra; discriminate.
  - bind_inv Hr as within Hwithin.
    destruct within; injection Hr as <-;
      cbn [valid signal_strength system_health];
      unfold Qdiv; change (/ 100) with (1 # 100);
      repeat split; try lra; try discriminate.
Qed.

(** The verdict of [perform_system_validation] is the [valid] flag. *)
Lemma perform_returns_valid_flag
    (now : Q) (self : t) (latitude longitude : Q) (r : validation_result) :
  validate_operational_area self latitude longitude = Ok r ->
  perform_system_validation now self latitude longitude
  = Ok (valid r,
        {| _validation_data := _validation_data self;
           _simulator_mode := _simulator_mode self;
           _last_validation :=
             if valid r
             then Some {| timestamp := now;
                          position := (latitude, longitude);
                          result_of := r |}
             else None |}).
Proof.
  intros Hr. unfold perform_system_validation. rewrite Hr, bind_Ok_l.
  destruct (validation_result_ranges _ _ _ _ Hr) as (_ & _ & Hiff & _).
  destruct (valid r) eqn:Ev; [|reflexivity].
  destruct (proj1 Hiff eq_refl) as [Hs70 Hh75].
  assert (Es : Qgt_bool (signal_strength r) 70.0 = true)
    by (apply Qgt_bool_iff; lra).
  assert (Eh : Qgt_bool (system_health r) 75.0 = true)
    by (apply Qgt_bool_iff; lra).
  by rewrite Es, Eh.
Qed.

(** X2.  Every result of [validate_operational_area] has its signal
    strength in [15, 100) and its system health in [25, 100), and [valid]
    is set exactly when the signal strength is above 70 and the system
    health above 75: the verdict of [perform_system_validation] is the
    [valid] flag, in either mode. *)
Theorem verdict_is_valid_flag
    (now : Q) (self : t) (latitude longitude : Q) (r : validation_result) :
  validate_operational_area self latitude longitude = Ok r ->
  (15 <= signal_strength r /\ signal_strength r < 100)
  /\ (25 <= system_health r /\ system_health r < 100)
  /\ (valid r = true <-> 70 < signal_strength r /\ 75 < system_health r)
  /\ (valid r = false -> signal_strength r < 40 /\ system_health r < 60)
  /\ exists self',
       perform_system_validation now self latitude longitude
       = Ok (valid r, self').
Proof.
  intros Hr.
  destruct (validation_result_ranges _ _ _ _ Hr) as (Hs & Hh & Hiff & Hlow).
  repeat (split; [assumption|]).
  rewrite (perform_returns_valid_flag now _ _ _ _ Hr). by eexists.
Qed.

(** Outside simulator mode a valid result has its signal strength in
    [80, 95). *)
Lemma hardware_validation_iff_range
    (self : t) (latitude longitude : Q) (r : validation_result) :
  _simulator_mode self = false ->
  validate_operational_area self latitude longitude = Ok r ->
  valid r = true ->
  80 <= signal_strength r /\ signal_strength r < 95.
Proof.
  intros Hsim Hr Hvalid. unfold validate_operational_area in Hr.
  rewrite Hsim in Hr. bind_inv Hr as within Hwithin.
  destruct within; injection Hr as <-; [|discriminate Hvalid].
  apply operational_signal_range.
Qed.

(** What a call of [perform_system_validation] leaves in the validator. *)
Lemma perform_system_validation_state
    (now : Q) (self self' : t) (latitude longitude : Q) (verdict : bool) :
  perform_system_validation now self latitude longitude = Ok (verdict, self') ->
  _validation_data self' = _validation_data self
  /\ _simulator_mode self' = _simulator_mode self
  /\ exists r,
       validate_operational_area self latitude longitude = Ok r
       /\ verdict = valid r
       /\ _last_validation self'
          = if verdict
            then Some {| timestamp := now;
                         position := (latitude, longitude);
                         result_of := r |}
            else None.
Proof.
  intros Hp.
  destruct (validate_operational_area self latitude longitude) as [r|e] eqn:Hr;
    [|unfold perform_system_validation in Hp; rewrite Hr in Hp; discriminate].
  rewrite (perform_returns_valid_flag now _ _ _ _ Hr) in Hp.
  injection Hp as <- <-. cbn. eauto 6.
Qed.

(** X3.  After a call of [perform_system_validation] at time [now],
    [get_system_status] asked no later than 3600 s afterwards reports:
    READY with quality 99 in simulator mode; otherwise VALIDATED with the
    recorded signal strength, which lies in [80, 95), when the call
    returned [True], and NOT_VALIDATED with quality 0 when it returned
    [False] (a failed validation erases an earlier successful one). *)
Theorem status_after_validation
    (now later : Q) (self self' : t) (latitude longitude : Q) (verdict : bool) :
  perform_system_validation now self latitude longitude = Ok (verdict, self') ->
  later - now <= 3600 ->
  let s := get_system_status later self' in
  if _simulator_mode self then
    status s = "READY" /\ signal_quality s = 99.0
  else if verdict then
    mode s = "HARDWARE" /\ status s = "VALIDATED"
    /\ 80 <= signal_quality s /\ signal_quality s < 95
  else
    mode s = "HARDWARE" /\ status s = "NOT_VALIDATED" /\ signal_quality s = 0.0.
Proof.
  intros Hp Hlater.
  destruct (perform_system_validation_state _ _ _ _ _ _ Hp)
    as (_ & Hmode & r & Hr & Hv & Hlast).
  unfold get_system_status. rewrite Hmode, Hlast.
  destruct (_simulator_mode self) eqn:Hsim; [by cbn|].
  destruct verdict; [|by cbn].
  cbn [timestamp result_of].
  assert (Hfresh : Qgt_bool (later - now) 3600 = false)
    by (by apply Qlt_bool_false).
  rewrite Hfresh. cbn [mode status signal_quality].
  destruct (hardware_validation_iff_range self latitude longitude r Hsim Hr)
    as [Hlo Hhi]; [by rewrite <- Hv|]. auto.
Qed.

(** X4.  An expired validation (older than 3600 s, outside simulator
    mode) is always reported with signal quality 0: by then the decay
    term [50 - minutes] is below -10, so the floor at 0 applies. *)
Theorem expired_status_has_no_signal
    (now : Q) (self : t) (validation : validation_record) :
  _simulator_mode self = false ->
  _last_validation self = Some validation ->
  3600 < now - timestamp validation ->
  let s := get_system_status now self in
  mode s = "HARDWARE" /\ status s = "VALIDATION_EXPIRED" /\ signal_quality s = 0.
Proof.
  intros Hsim Hlast Hold. unfold get_system_status. rewrite Hsim, Hlast.
  apply Qgt_bool_iff in Hold as Hold'. rewrite Hold'.
  cbn [mode status signal_quality]. repeat split.
  unfold py_max.
  assert (E : Qgt_bool (50 - (now - timestamp validation) / 60) 0 = false).
  { apply Qlt_bool_false. unfold Qdiv. change (/ 60) with (1 # 60). lra. }
  by rewrite E.
Qed.

(** Module states stay well formed: what a call of
    [validate_mission_area] returns. *)
Lemma validate_mission_area_state
    (now : Q) (g g' : option t) (latitude longitude : Q)
    (is_simulation verdict : bool) :
  validate_mission_area now g latitude longitude is_simulation
  = Ok (verdict, g') ->
  exists validator,
    g' = Some validator
    /\ _validation_data validator = _validation_data (get_system_validator g)
    /\ _simulator_mode validator = is_simulation
    /\ (is_Some (_last_validation validator) <-> verdict = true).
Proof.
  intros Hv. unfold validate_mission_area in Hv.
  bind_inv Hv as performed Hperformed. destruct performed as [b validator].
  injection Hv as <- <-.
  destruct (perform_system_validation_state _ _ _ _ _ _ Hperformed)
    as (Hdata & Hmode & r & _ & _ & Hlast).
  exists validator. split; [reflexivity|]. split; [exact Hdata|].
  split; [exact Hmode|]. rewrite Hlast. destruct b; split; done.
Qed.

(** X5.  Whatever sequence of [validate_mission_area] calls has been made
    since the module was loaded, the module-level validator still holds
    the six-vertex polygon it was constructed with, and the next call
    returns a verdict (it raises nothing) for every position and mode. *)
Theorem reachable_state_keeps_polygon (g : option t) :
  reachable g ->
  _validation_data (get_system_validator g) = fallback_polygon
  /\ forall now latitude longitude is_simulation,
       returns (validate_mission_area now g latitude longitude is_simulation).
Proof.
  intros Hreach.
  assert (Hdata : _validation_data (get_system_validator g) = fallback_polygon).
  { induction Hreach as [|now g g' latitude longitude is_simulation verdict
                          Hreach IH Hcall]; [reflexivity|].
    destruct (validate_mission_area_state _ _ _ _ _ _ _ Hcall)
      as (validator & -> & Hdata & _).
    cbn [get_system_validator]. by rewrite Hdata. }
  split; [exact Hdata|].
  intros now latitude longitude is_simulation.
  destruct (MissionPlannerFacts.validate_mission_area_returns
              now g latitude longitude is_simulation) as (v & g' & E).
  - by rewrite Hdata.
  - by exists (v, g').
Qed.

End WithRuntime.

(** An hour-and-a-half-old validation. *)
Lemma expired_status_has_no_signal_witness :
  signal_quality
    (get_system_status 5400
       {| _validation_data := fallback_polygon;
          _simulator_mode := false;
          _last_validation :=
            Some {| timestamp := 0;
                    position := (30, -140);
                    result_of := {| valid := true;
                                    signal_strength := 80;
                                    system_health := 85;
                                    calibration_status := "OPERATIONAL" |} |} |})
  = 0.
Proof.
  eapply expired_status_has_no_signal; [reflexivity | reflexivity | reflexivity].
Defined.

(** A validation inside the polygon, asked about ten minutes later. *)
Lemma status_after_validation_witness :
  exists self',
    @perform_system_validation demo_runtime 0 init 30 (-140) = Ok (true, self')
    /\ status (get_system_status 600 self') = "VALIDATED".
Proof.
  destruct (@perform_hardware demo_runtime 0 init 30 (-140) true eq_refl)
    as (self' & E & _); [vm_eval|].
  exists self'. split; [exact E|].
  apply (@status_after_validation demo_runtime 0 600 init self' 30 (-140) true E).
  discriminate.
Defined.

(** The state after one hardware-mode call at the origin. *)
Lemma reachable_state_keeps_polygon_witness :
  exists g,
    @reachable demo_runtime g
    /\ g <> None
    /\ _validation_data (get_system_validator g) = fallback_polygon.
Proof.
  destruct (is_ok_returns
              (@validate_mission_area demo_runtime 0 None 0 0 false))
    as [[verdict g] E]; [vm_eval|].
  assert (Hreach : @reachable demo_runtime g)
    by (eapply reachable_call; [apply reachable_unset | exact E]).
  exists g. split; [exact Hreach|]. split.
  - destruct (@validate_mission_area_state demo_runtime _ _ _ _ _ _ _ E)
      as (validator & -> & _). discriminate.
  - apply (@reachable_state_keeps_polygon demo_runtime g Hreach).
Defined.

(** In simulator mode at the origin the result is valid. *)
Lemma verdict_is_valid_flag_witness :
  exists r self',
    @validate_operational_area demo_runtime (set_simulator_mode init true) 0 0
    = Ok r
    /\ @perform_system_validation demo_runtime 0 (set_simulator_mode init true) 0 0
       = Ok (valid r, self').
Proof.
  destruct (is_ok_returns
              (@validate_operational_area demo_runtime
                 (set_simulator_mode init true) 0 0)) as [r E]; [vm_eval|].
  destruct (@verdict_is_valid_flag demo_runtime 0 _ 0 0 r E)
    as (_ & _ & _ & _ & self' & Hp).
  exists r, self'. split; [exact E | exact Hp].
Defined.

End SystemValidatorMore.

(** ** ai_human_mission_planner.py: the three scorers and the aggregate *)

Module MissionPlannerMore.
Import PyFacts MissionPlannerFacts MissionPlanner Scenarios.

Section WithRuntime.
Context `{Runtime}.

Lemma technical_score_bounds (p : mission_params) :
  (30 <= score (_analyze_technical_parameters p) <= 100)%Z.
Proof.
  unfold _analyze_technical_parameters.
  set (w := default 0 (takeoff_weight (default no_aircraft (aircraft p)))).
  set (ft := default 0 (estimated_duration
                          (default no_flight_plan (flight_plan p)))).
  set (bt := default 0 (max_flight_time (default no_aircraft (aircraft p)))).
  destruct (Qgt_bool w 250), (Qgt_bool w 225), (Qge_bool ft (bt * 0.9)),
    (Qge_bool ft (bt * 0.8)); cbn [score]; lia.
Qed.

Lemma weather_score_bounds (w : weather_params) :
  (0 <= score (_analyze_weather_conditions w) <= 100)%Z.
Proof.
  unfold _analyze_weather_conditions.
  set (wind := default 0 (wind_speed w)).
  set (vis := default 10 (visibility w)).
  set (cond := default "vfr" (condition w)).
  destruct (Qgt_bool wind 15), (Qgt_bool wind 10), (Qlt_bool vis 3),
    (Qlt_bool vis 5), (String.eqb cond "ifr"), (String.eqb cond "mvfr");
    cbn [score]; lia.
Qed.

Lemma regulatory_score_bounds (p : mission_params) :
  (10 <= score (_check_regulatory_compliance p) <= 100)%Z
  /\ (default false (controlled_airspace p) = true ->
      default false (airspace_authorization p) = false ->
      (score (_check_regulatory_compliance p) <= 50)%Z).
Proof.
  unfold _check_regulatory_compliance.
  set (alt := default 0 (max_altitude (default no_flight_plan (flight_plan p)))).
  destruct (default false (controlled_airspace p)),
    (default false (airspace_authorization p)),
    (Qgt_bool alt 120), (Qgt_bool alt 100); cbn [score negb];
    (split; [lia | intros; try discriminate; lia]).
Qed.

(** X7.  The weather score is 0 exactly when the wind is above 15 kt, the
    visibility below 3 km and the condition is "ifr" (the only case in
    which the floor at 0 applies: the penalties add up to 105), and it is
    100 exactly when no issue is reported.  A condition other than the
    exact strings "ifr" and "mvfr" costs nothing. *)
Theorem weather_score_floor_and_issues (w : weather_params) :
  let wind := default 0 (wind_speed w) in
  let vis := default 10 (visibility w) in
  let cond := default "vfr" (condition w) in
  let s := _analyze_weather_conditions w in
  (0 <= score s <= 100)%Z
  /\ (score s = 0%Z <-> 15 < wind /\ vis < 3 /\ cond = "ifr")
  /\ (score s = 100%Z <-> issues s = [])
  /\ (length (issues s) <= 3)%nat
  /\ (cond <> "ifr" -> cond <> "mvfr" ->
      score s = score (_analyze_weather_conditions
                         {| wind_speed := wind_speed w;
                            visibility := visibility w;
                            condition := None |})).
Proof.
  intros wind vis cond s. subst s.
  rewrite <- (String.eqb_neq cond "ifr"), <- (String.eqb_neq cond "mvfr"),
    <- (Qgt_bool_iff wind 15), <- (Qlt_bool_iff vis 3),
    <- (String.eqb_eq cond "ifr").
  unfold _analyze_weather_conditions.
  fold wind. fold vis. fold cond. cbn [default condition wind_speed visibility].
  fold wind. fold vis.
  change (String.eqb "vfr" "ifr") with false.
  change (String.eqb "vfr" "mvfr") with false.
  destruct (Qgt_bool wind 15), (Qgt_bool wind 10), (Qlt_bool vis 3),
    (Qlt_bool vis 5), (String.eqb cond "ifr"), (String.eqb cond "mvfr");
    cbn [score issues length app];
    intuition (try discriminate; try lia).
Qed.

(** X8.  The regulatory score is at least 10 (the floor at 0 is never
    reached); it is 50 or less exactly when the airspace is controlled
    and not authorized; and no issue is reported exactly when the
    altitude is at most 100 m and the airspace is not controlled (an
    authorized controlled airspace is listed as an issue at no cost). *)
Theorem regulatory_score_cases (p : mission_params) :
  let alt := default 0 (max_altitude (default no_flight_plan (flight_plan p))) in
  let controlled := default false (controlled_airspace p) in
  let authorized := default false (airspace_authorization p) in
  let s := _check_regulatory_compliance p in
  (10 <= score s <= 100)%Z
  /\ ((score s <= 50)%Z <-> controlled = true /\ authorized = false)
  /\ (issues s = [] <-> alt <= 100 /\ controlled = false)
  /\ (controlled = true -> authorized = true ->
      In "🟢 Controlled airspace - authorized" (issues s)
      /\ score s
         = score (_check_regulatory_compliance
                    {| aircraft := aircraft p; flight_plan := flight_plan p;
                       weather := weather p; location := location p;
                       controlled_airspace := None;
                       airspace_authorization := None;
                       is_simulation := is_simulation p |})).
Proof.
  intros alt controlled authorized s. subst s.
  assert (Halt : alt <= 100 <-> Qgt_bool alt 100 = false)
    by (symmetry; apply Qlt_bool_false).
  rewrite Halt. clear Halt.
  assert (Hchain : Qgt_bool alt 120 = true -> Qgt_bool alt 100 = true).
  { rewrite !Qgt_bool_iff. lra. }
  unfold _check_regulatory_compliance. fold alt. fold controlled. fold authorized.
  cbn [default controlled_airspace airspace_authorization flight_plan].
  fold alt.
  destruct controlled, authorized, (Qgt_bool alt 120), (Qgt_bool alt 100);
    cbn [score issues negb app andb In];
    intuition (try discriminate; try lia).
Qed.

(** X9.  A mission that does not give [max_flight_time] (or gives no
    aircraft at all) while its duration is absent or not negative is
    scored as having an insufficient battery margin: the default 0 makes
    the test [duration >= 0.9 * 0] succeed, the critical issue is
    reported and the technical score is at most 70. *)
Theorem missing_flight_time_is_insufficient_battery (p : mission_params) :
  max_flight_time (default no_aircraft (aircraft p)) = None ->
  0 <= default 0 (estimated_duration (default no_flight_plan (flight_plan p))) ->
  In "🔴 Insufficient battery margin"
     (issues (_analyze_technical_parameters p))
  /\ (score (_analyze_technical_parameters p) <= 70)%Z.
Proof.
  intros Hmissing Hduration. unfold _analyze_technical_parameters.
  rewrite Hmissing. cbn [default].
  set (w := default 0 (takeoff_weight (default no_aircraft (aircraft p)))).
  set (ft := default 0 (estimated_duration
                          (default no_flight_plan (flight_plan p)))) in *.
  assert (E : Qge_bool ft (0 * 0.9) = true) by (apply Qge_bool_iff; lra).
  rewrite E.
  destruct (Qgt_bool w 250), (Qgt_bool w 225); cbn [score issues app In];
    (split; [auto | lia]).
Qed.

(** Every analysis comes from [analyze_from_validation]. *)
Lemma analyze_inv (now : Q) (g g' : option SystemValidator.t)
    (p : mission_params) (a : analysis) :
  analyze_mission_parameters now g p = Ok (a, g') ->
  exists confirmed : bool,
    ai_confidence a
    = inject_Z (score (_analyze_technical_parameters p)
                + score (_analyze_weather_conditions
                           (default no_weather (weather p)))
                + score (_check_regulatory_compliance p)
                + (if confirmed then 85 else 25)) / 4
    /\ ai_recommendation a = recommendation_of (ai_confidence a)
    /\ key_concerns a
       = if confirmed then []
         else ["System validation indicates poor signal conditions"].
Proof.
  intros Ha.
  destruct (SystemValidator.validate_mission_area now g
              (default 0 (latitude (default no_location (location p))))
              (default 0 (longitude (default no_location (location p))))
              (default true (is_simulation p))) as [[confirmed g0]|e] eqn:Hv.
  - rewrite (analyze_from_validation now g g0 p confirmed Hv) in Ha.
    injection Ha as <- _. exists confirmed. cbn. auto.
  - unfold analyze_mission_parameters in Ha. rewrite Hv in Ha. discriminate.
Qed.

Lemma mean_of_four_le (total bound : Z) (q : Q) :
  (total <= bound)%Z -> inject_Z bound / 4 <= q -> inject_Z total / 4 <= q.
Proof.
  intros Hle Hq. rewrite Zle_Qle in Hle.
  unfold Qdiv in *. change (/ 4) with (1 # 4) in *. lra.
Qed.

Lemma mean_of_four_ge (total bound : Z) (q : Q) :
  (bound <= total)%Z -> q <= inject_Z bound / 4 -> q <= inject_Z total / 4.
Proof.
  intros Hle Hq. rewrite Zle_Qle in Hle.
  unfold Qdiv in *. change (/ 4) with (1 # 4) in *. lra.
Qed.

Lemma below_85_is_not_go (c : Q) : c < 85 -> recommendation_of c <> "GO".
Proof.
  intros Hc. destruct (recommendation_of_cases c) as (_ & Hcaution & Hnogo).
  destruct (Qlt_le_dec c 70) as [Hlt|Hge].
  - by rewrite (Hnogo Hlt).
  - by rewrite (Hcaution (conj Hge Hc)).
Qed.

(** X6.  Every analysis has its confidence between 16.25 and 96.25.  When
    the geofence confirmation failed (the standing concern is present)
    the confidence is at most 81.25, and for controlled airspace without
    authorization it is at most 83.75: in both cases the recommendation
    is never GO, whatever the other scores are. *)
Theorem confidence_range_and_go_blockers
    (now : Q) (g g' : option SystemValidator.t) (p : mission_params)
    (a : analysis) :
  analyze_mission_parameters now g p = Ok (a, g') ->
  (16.25 <= ai_confidence a /\ ai_confidence a <= 96.25)
  /\ (key_concerns a = []
      \/ key_concerns a = ["System validation indicates poor signal conditions"])
  /\ (key_concerns a <> [] ->
      ai_confidence a <= 81.25 /\ ai_recommendation a <> "GO")
  /\ (default false (controlled_airspace p) = true ->
      default false (airspace_authorization p) = false ->
      ai_confidence a <= 83.75 /\ ai_recommendation a <> "GO").
Proof.
  intros Ha. destruct (analyze_inv _ _ _ _ _ Ha) as (confirmed & -> & -> & ->).
  pose proof (technical_score_bounds p) as Ht.
  pose proof (weather_score_bounds (default no_weather (weather p))) as Hw.
  pose proof (regulatory_score_bounds p) as [Hr Hr50].
  set (t := score (_analyze_technical_parameters p)) in *.
  set (w := score (_analyze_weather_conditions
                     (default no_weather (weather p)))) in *.
  set (r := score (_check_regulatory_compliance p)) in *.
  set (bonus := (if confirmed then 85 else 25)%Z).
  assert (Hbonus : (25 <= bonus <= 85)%Z) by (subst bonus; destruct confirmed; lia).
  split; [|split; [|split]].
  - split.
    + apply (mean_of_four_ge _ 65); [lia | vm_compute; discriminate].
    + apply (mean_of_four_le _ 385); [lia | vm_compute; discriminate].
  - destruct confirmed; auto.
  - intros Hconcern.
    assert (Hfailed : confirmed = false) by (by destruct confirmed).
    assert (Hle : inject_Z (t + w + r + bonus) / 4 <= 81.25).
    { apply (mean_of_four_le _ 325); [|vm_compute; discriminate].
      subst bonus. rewrite Hfailed. lia. }
    split; [exact Hle|]. apply below_85_is_not_go. lra.
  - intros Hcontrolled Hauth. specialize (Hr50 Hcontrolled Hauth).
    assert (Hle : inject_Z (t + w + r + bonus) / 4 <= 83.75).
    { apply (mean_of_four_le _ 335); [lia | vm_compute; discriminate]. }
    split; [exact Hle|]. apply below_85_is_not_go. lra.
Qed.

End WithRuntime.

(** Scenario B: controlled airspace without authorization. *)
Lemma confidence_range_and_go_blockers_witness :
  exists a g',
    @analyze_mission_parameters demo_runtime 0 None (scenario_B None) = Ok (a, g')
    /\ ai_confidence a <= 83.75
    /\ ai_recommendation a <> "GO".
Proof.
  destruct (is_ok_returns
              (@analyze_mission_parameters demo_runtime 0 None (scenario_B None)))
    as [[a g'] E]; [vm_eval|].
  exists a, g'. split; [exact E|].
  apply (@confidence_range_and_go_blockers demo_runtime 0 None g'
           (scenario_B None) a E); reflexivity.
Defined.

(** The empty mission: every key absent. *)
Lemma missing_flight_time_is_insufficient_battery_witness :
  In "🔴 Insufficient battery margin"
     (issues (@_analyze_technical_parameters demo_runtime no_parameters))
  /\ (score (@_analyze_technical_parameters demo_runtime no_parameters) <= 70)%Z.
Proof.
  apply (@missing_flight_time_is_insufficient_battery demo_runtime no_parameters).
  - reflexivity.
  - discriminate.
Defined.

End MissionPlannerMore.

(** ** ai_pilot.py: weather risk, terrain, planning and monitoring *)

Module AIPilotMore.
Import PyFacts AIPilotFacts AIPilot Closed Scenarios.

(** The simulated readings of [get_weather] are classified LOW_RISK. *)
Lemma assess_simulated_readings :
  WeatherService.assess_flight_risk
    (dict [ ("wind_speed", VNum 8);
            ("visibility", VNum 10);
            ("ceiling", VNum 5000) ])
  = Ok "LOW_RISK".
Proof. vm_eval. Qed.

(** [get_weather] returns for every location, with wind 8 and LOW_RISK. *)
Lemma get_weather_returns (location : gmap string Q) :
  exists weather metar : gmap string value,
    WeatherService.get_weather location = Ok weather
    /\ weather !! "flight_risk" = Some (VStr "LOW_RISK")
    /\ weather !! "metar" = Some (VDict metar)
    /\ metar !! "wind_speed" = Some (VNum 8).
Proof.
  unfold WeatherService.get_weather.
  rewrite assess_simulated_readings, bind_Ok_l.
  eexists _, _. split; [reflexivity|].
  split; [vm_eval|]. split; [reflexivity | vm_eval].
Qed.

(** The lowest of a sequence is at least a bound exactly when every
    element is. *)
Lemma fold_py_min_ge (bound : Q) (l : list Q) (x : Q) :
  bound <= fold_left py_min l x <-> bound <= x /\ Forall (Qle bound) l.
Proof.
  revert x. induction l as [|y l IH]; intros x; cbn [fold_left].
  - split; [intros Hx; split; [exact Hx | constructor] | by intros [Hx _]].
  - rewrite IH. rewrite Forall_cons.
    assert (Hmin : bound <= py_min x y <-> bound <= x /\ bound <= y).
    { unfold py_min. destruct (Qlt_bool y x) eqn:E.
      - apply Qlt_bool_iff in E. split; [intros Hb; split; lra | by intros [_ Hy]].
      - apply Qlt_bool_false in E. split; [intros Hb; split; lra | by intros [Hx _]]. }
    rewrite Hmin. tauto.
Qed.

(** The verdict of [check_terrain_clearance] on a path with a waypoint. *)
Lemma check_terrain_clearance_cons
    (max_terrain : Q) (wp : gmap string Q) (rest : list (gmap string Q)) :
  exists clear,
    TerrainService.check_terrain_clearance (wp :: rest) max_terrain = Ok clear
    /\ (clear = true <->
        Forall (fun w => max_terrain + 200 <= get w "altitude" 0) (wp :: rest)).
Proof.
  unfold TerrainService.check_terrain_clearance. cbn [map min_of].
  rewrite bind_Ok_l. eexists. split; [reflexivity|].
  rewrite Qge_bool_iff, fold_py_min_ge, Forall_cons, Forall_map. reflexivity.
Qed.

(** X10.  [check_terrain_clearance] raises [ValueError] on an empty
    flight path; on any other path it returns a verdict, which is [True]
    exactly when every waypoint's altitude, taken as 0 when the waypoint
    has none, is at least 200 above [max_terrain]. *)
Theorem terrain_clearance_is_for_all_waypoints
    (max_terrain : Q) (wp : gmap string Q) (rest : list (gmap string Q)) :
  TerrainService.check_terrain_clearance [] max_terrain = Raise ValueError
  /\ exists clear,
       TerrainService.check_terrain_clearance (wp :: rest) max_terrain = Ok clear
       /\ (clear = true <->
           Forall (fun w => max_terrain + 200 <= get w "altitude" 0) (wp :: rest)).
Proof.
  split; [reflexivity|]. apply check_terrain_clearance_cons.
Qed.

(** The terrain profile of a path with a waypoint. *)
Lemma get_terrain_profile_cons
    (wp : gmap string Q) (rest : list (gmap string Q)) :
  exists (terrain : gmap string value) (clear : bool),
    TerrainService.get_terrain_profile (wp :: rest) = Ok terrain
    /\ terrain !! "terrain_clearance" = Some (VBool clear)
    /\ terrain !! "minimum_safe_altitude" = Some (VNum (500 + 200))
    /\ (clear = true <->
        Forall (fun w => 700 <= get w "altitude" 0) (wp :: rest)).
Proof.
  unfold TerrainService.get_terrain_profile.
  destruct (check_terrain_clearance_cons 500 wp rest) as (clear & E & Hclear).
  rewrite E, bind_Ok_l. eexists _, clear.
  split; [reflexivity|]. split; [reflexivity|]. split; [reflexivity|].
  rewrite Hclear. apply Forall_iff. intros w.
  split; intros Hw; [|change (500 + 200) with 700]; lra.
Qed.

(** What [calculate_performance] reads and what it stores. *)
Lemma calculate_performance_inv (aircraft weather perf : gmap string value) :
  calculate_performance aircraft weather = Ok perf ->
  exists (wind_speed stall : value) (wind base : Q) (airspeeds : value),
    method_get (get weather "metar" (VDict ∅)) "wind_speed" (VNum 0)
    = Ok wind_speed
    /\ as_num wind_speed = Ok wind
    /\ as_num (get aircraft "estimated_flight_time" (VNum 30)) = Ok base
    /\ aircraft !! "airspeeds" = Some airspeeds
    /\ subscript airspeeds "Vs" = Ok stall
    /\ perf !! "estimated_flight_time"
       = Some (VNum (py_max 5 (base * (1 - wind * 0.1 / 100))))
    /\ perf !! "stall_speed" = Some stall.
Proof.
  intros Hp. unfold calculate_performance in Hp.
  bind_inv Hp as wind_speed Hwind_speed.
  bind_inv Hp as wind Hwind.
  bind_inv Hp as base Hbase.
  bind_inv Hp as airspeeds Hairspeeds.
  bind_inv Hp as cruise Hcruise.
  bind_inv Hp as airspeeds2 Hairspeeds2.
  bind_inv Hp as top Htop.
  bind_inv Hp as airspeeds3 Hairspeeds3.
  bind_inv Hp as stall Hstall.
  bind_inv Hp as airspeeds4 Hairspeeds4.
  bind_inv Hp as vy Hvy.
  bind_inv Hp as vy' Hvy'.
  injection Hp as <-.
  assert (airspeeds3 = airspeeds) as -> by congruence.
  exists wind_speed, stall, wind, base, airspeeds.
  split; [exact Hwind_speed|]. split; [exact Hwind|]. split; [exact Hbase|].
  split; [by apply getitem_Ok|]. split; [exact Hstall|].
  split; reflexivity.
Qed.





(** [check_flight_compliance] on a flight plan that has none of the six
    top-level keys that the checks read. *)
Lemma check_flight_compliance_bare (flight_plan : gmap string value) :
  flight_plan !! "max_altitude" = None ->
  flight_plan !! "estimated_flight_time" = None ->
  flight_plan !! "over_populated_area" = None ->
  flight_plan !! "wind_speed" = None ->
  flight_plan !! "terrain_elevation" = None ->
  flight_plan !! "near_airport" = None ->
  FAAKnowledgeBase.check_flight_compliance flight_plan
  = Ok (dict [ ("compliant", VBool false);
               ("violations",
                strs ["Insufficient battery reserve. Need at least 5min reserve"]);
               ("warnings", strs []);
               ("recommendations", strs []) ]).
Proof.
  intros H1 H2 H3 H4 H5 H6.
  unfold FAAKnowledgeBase.check_flight_compliance,
    FAAKnowledgeBase.generate_safety_recommendations, get.
  rewrite H1, H2, H3, H4, H5, H6. vm_eval.
Qed.

(** [make_go_no_go_decision] on a flight plan whose four entries are
    dictionaries and whose flight time is a number. *)
Lemma make_go_no_go_decision_eval
    (flight_plan faa weather terrain performance : gmap string value)
    (compliant : value) (minutes : Q) :
  flight_plan !! "faa_compliance" = Some (VDict faa) ->
  faa !! "compliant" = Some compliant ->
  flight_plan !! "weather" = Some (VDict weather) ->
  flight_plan !! "terrain" = Some (VDict terrain) ->
  flight_plan !! "performance" = Some (VDict performance) ->
  performance !! "estimated_flight_time" = Some (VNum minutes) ->
  let factors :=
    (truthy compliant,
     ne_str (get weather "flight_risk" VNone) "HIGH_RISK",
     truthy (get terrain "terrain_clearance" (VBool true)),
     Qgt_bool minutes 10) in
  let '(f1, f2, f3, f4) := factors in
  make_go_no_go_decision flight_plan
  = Ok (dict [ ("go", VBool (f1 && f2 && f3 && f4 && true));
               ("confidence_level",
                VStr (if f1 && f2 && f3 && f4 && true then "HIGH" else "LOW"));
               ("reasons", strs (Spec.failed_checks f1 f2 f3 f4 true));
               ("recommendations", get faa "recommendations" (VList [])) ]).
Proof.
  intros Hfaa Hcompliant Hweather Hterrain Hperformance Htime. cbv zeta beta iota.
  unfold make_go_no_go_decision, getitem.
  rewrite Hfaa, Hweather, Hterrain, Hperformance.
  cbn [mbind result_bind subscript method_get]. unfold getitem.
  rewrite Hcompliant, Htime.
  cbn [mbind result_bind gt_num as_num].
  cbn [forallb map snd fst List.filter truthy negb].
  destruct (truthy compliant),
    (ne_str (get weather "flight_risk" VNone) "HIGH_RISK"),
    (truthy (get terrain "terrain_clearance" (VBool true))),
    (Qgt_bool minutes 10); reflexivity.
Qed.

(** Some waypoint is below 700 ft exactly when not all are at or above. *)
Lemma low_waypoint_iff (l : list (gmap string Q)) :
  ~ Forall (fun w => 700 <= get w "altitude" 0) l <->
  Exists (fun w => get w "altitude" 0 < 700) l.
Proof.
  induction l as [|w l IH].
  - split; [intros Hn; destruct Hn; constructor | intros Hex; inversion Hex].
  - rewrite Forall_cons, Exists_cons, <- IH.
    destruct (Qlt_le_dec (get w "altitude" 0) 700) as [Hlt|Hge].
    + split; [by left | intros _ [Hw _]; lra].
    + split; [intros Hn; right; intros Hall; by apply Hn | ].
      intros [Hlt|Hn] [Hw Hall]; [lra | by apply Hn].
Qed.

Section WithEnvironment.
Context `{Runtime}.
Variable read_json : string -> option (result value).
Variable now_stamp : string.
Variable generate_pilot_briefing :
  gmap string value -> gmap string value -> gmap string value -> result string.

(** X12.  A mission without waypoints (the key absent, or an empty list)
    makes [plan_flight] raise, whatever the clock and the briefing are.
    When [load_aircraft_data] returns, the exception is [ValueError]:
    the lowest altitude of an empty path does not exist.  This is the
    case of an aircraft file that is missing or is no JSON, for which
    the built-in data is used.  An exception of [load_aircraft_data]
    leaves [plan_flight] as it is: another exception of [open] or
    [json.load], and [AttributeError] when the document, or its
    [design] entry, is not an object. *)
Theorem plan_flight_without_waypoints_raises
    (self : t) (mission : mission_params) :
  default [] (waypoints mission) = [] ->
  (forall aircraft,
     load_aircraft_data read_json (aircraft_config mission) = Ok aircraft ->
     plan_flight read_json now_stamp generate_pilot_briefing self mission
     = Raise ValueError)
  /\ (forall e,
        load_aircraft_data read_json (aircraft_config mission) = Raise e ->
        plan_flight read_json now_stamp generate_pilot_briefing self mission
        = Raise e)
  /\ (read_json ("aircraft_builder/" +:+ default "None" (aircraft_config mission))
      = None ->
      plan_flight read_json now_stamp generate_pilot_briefing self mission
      = Raise ValueError)
  /\ (forall e,
        read_json ("aircraft_builder/" +:+ default "None" (aircraft_config mission))
        = Some (Raise e) ->
        plan_flight read_json now_stamp generate_pilot_briefing self mission
        = Raise e)
  /\ (forall data,
        read_json ("aircraft_builder/" +:+ default "None" (aircraft_config mission))
        = Some (Ok data) ->
        (forall d, data <> VDict d) ->
        plan_flight read_json now_stamp generate_pilot_briefing self mission
        = Raise AttributeError)
  /\ (forall data design,
        read_json ("aircraft_builder/" +:+ default "None" (aircraft_config mission))
        = Some (Ok (VDict data)) ->
        data !! "design" = Some design ->
        (forall d, design <> VDict d) ->
        plan_flight read_json now_stamp generate_pilot_briefing self mission
        = Raise AttributeError).
Proof.
  intros Hempty.
  assert (Hok : forall aircraft,
    load_aircraft_data read_json (aircraft_config mission) = Ok aircraft ->
    plan_flight read_json now_stamp generate_pilot_briefing self mission
    = Raise ValueError).
  { intros aircraft Hload. unfold plan_flight. rewrite Hload, bind_Ok_l.
    destruct (get_weather_returns
                (default (list_to_map [("lat", 37.7749); ("lon", -122.4194)])
                         (location mission)))
      as (weather & metar & -> & _).
    rewrite bind_Ok_l, Hempty. reflexivity. }
  assert (Hraise : forall e,
    load_aircraft_data read_json (aircraft_config mission) = Raise e ->
    plan_flight read_json now_stamp generate_pilot_briefing self mission
    = Raise e).
  { intros e Hload. unfold plan_flight. rewrite Hload. reflexivity. }
  split; [exact Hok|]. split; [exact Hraise|]. split; [|split; [|split]].
  - intros Hfile. apply (Hok default_aircraft_data).
    unfold load_aircraft_data. by rewrite Hfile.
  - intros e Hfile. apply Hraise. unfold load_aircraft_data. by rewrite Hfile.
  - intros data Hfile Hdata. apply Hraise. unfold load_aircraft_data.
    rewrite Hfile. destruct data; try reflexivity. by destruct (Hdata d).
  - intros data design Hfile Hdesign Hshape. apply Hraise.
    unfold load_aircraft_data. rewrite Hfile.
    cbn [method_get mbind result_bind]. unfold get. rewrite Hdesign.
    cbn [from_option id]. destruct design; try reflexivity.
    by destruct (Hshape d).
Qed.

(** The steps of a call of [plan_flight] that returns. *)
Lemma plan_flight_inv
    (self self' : t) (mission : mission_params) (flight_plan : gmap string value) :
  plan_flight read_json now_stamp generate_pilot_briefing self mission
  = Ok (flight_plan, self') ->
  exists (weather metar terrain performance compliance decision : gmap string value)
         (clear : bool) (stall : value) (minutes : Q)
         (aircraft : gmap string value),
    load_aircraft_data read_json (aircraft_config mission) = Ok aircraft
    /\ weather !! "flight_risk" = Some (VStr "LOW_RISK")
    /\ TerrainService.get_terrain_profile (default [] (waypoints mission))
       = Ok terrain
    /\ terrain !! "terrain_clearance" = Some (VBool clear)
    /\ terrain !! "minimum_safe_altitude" = Some (VNum (500 + 200))
    /\ (clear = true <->
        Forall (fun w => 700 <= get w "altitude" 0)
               (default [] (waypoints mission)))
    /\ default [] (waypoints mission) <> []
    /\ calculate_performance aircraft weather = Ok performance
    /\ performance !! "estimated_flight_time" = Some (VNum minutes)
    /\ (exists base,
          as_num (get aircraft "estimated_flight_time" (VNum 30)) = Ok base
          /\ minutes = py_max 5 (base * (1 - 8 * 0.1 / 100)))
    /\ (exists airspeeds,
          aircraft !! "airspeeds" = Some airspeeds
          /\ subscript airspeeds "Vs" = Ok stall)
    /\ compliance
       = dict [ ("compliant", VBool false);
                ("violations",
                 strs ["Insufficient battery reserve. Need at least 5min reserve"]);
                ("warnings", strs []);
                ("recommendations", strs []) ]
    /\ decision
       = dict [ ("go", VBool false);
                ("confidence_level", VStr "LOW");
                ("reasons",
                 strs (Spec.failed_checks false true clear (Qgt_bool minutes 10)
                         true));
                ("recommendations", strs []) ]
    /\ flight_plan !! "aircraft" = Some (VDict aircraft)
    /\ flight_plan !! "weather" = Some (VDict weather)
    /\ flight_plan !! "terrain" = Some (VDict terrain)
    /\ flight_plan !! "performance" = Some (VDict performance)
    /\ flight_plan !! "emergency_procedures"
       = Some (VDict generate_emergency_procedures)
    /\ flight_plan !! "faa_compliance" = Some (VDict compliance)
    /\ flight_plan !! "go_no_go" = Some (VDict decision)
    /\ self' = {| current_flight_plan := Some flight_plan |}.
Proof.
  intros Hplan. unfold plan_flight in Hplan.
  bind_inv Hplan as aircraft Haircraft.
  destruct (get_weather_returns
              (default (list_to_map [("lat", 37.7749); ("lon", -122.4194)])
                       (location mission)))
    as (weather & metar & Eweather & Hrisk & Hmetar & Hwind).
  rewrite Eweather, bind_Ok_l in Hplan.
  bind_inv Hplan as terrain Hterrain.
  bind_inv Hplan as performance Hperformance.
  bind_inv Hplan as pilot_briefing Hbriefing.
  bind_inv Hplan as compliance Hcompliance.
  bind_inv Hplan as decision Hdecision.
  injection Hplan as <- <-.
  (* terrain *)
  destruct (default [] (waypoints mission)) as [|wp rest] eqn:Ewps;
    [discriminate|].
  destruct (get_terrain_profile_cons wp rest)
    as (terrain' & clear & Eterrain & Hclear & Hsafe & Hiff).
  assert (terrain' = terrain) as -> by congruence.
  (* performance *)
  destruct (calculate_performance_inv _ _ _ Hperformance)
    as (wind_speed & stall & wind & base & airspeeds
        & Hw1 & Hw2 & Hbase & Hairspeeds & Hstall & Htime & _).
  unfold get in Hw1. rewrite Hmetar in Hw1.
  cbn [from_option id method_get] in Hw1.
  unfold get in Hw1. rewrite Hwind in Hw1. cbn [from_option id] in Hw1.
  injection Hw1 as <-. cbn [as_num] in Hw2. injection Hw2 as <-.
  (* compliance *)
  rewrite check_flight_compliance_bare in Hcompliance by reflexivity.
  injection Hcompliance as <-.
  (* decision *)
  lazymatch type of Hdecision with
  | make_go_no_go_decision ?fp = _ =>
      pose proof (make_go_no_go_decision_eval fp _ weather terrain performance
                    (VBool false) _
                    (lookup_insert_eq _ _ _) eq_refl
                    ltac:(rewrite lookup_insert_ne by done; reflexivity)
                    ltac:(rewrite lookup_insert_ne by done; reflexivity)
                    ltac:(rewrite lookup_insert_ne by done; reflexivity)
                    Htime) as Heval
  end.
  cbv zeta beta iota in Heval. unfold get in Heval.
  rewrite Hrisk, Hclear in Heval.
  cbn [from_option id truthy ne_str andb] in Heval.
  change (negb ("LOW_RISK" =? "HIGH_RISK")%string) with true in Heval.
  rewrite Heval in Hdecision. clear Heval.
  injection Hdecision as <-.
  match goal with
  | |- context [<["go_no_go" := VDict ?d]> (<["faa_compliance" := VDict ?c]> _)] =>
      exists weather, metar, terrain, performance, c, d, clear, stall,
        (py_max 5 (base * (1 - 8 * 0.1 / 100))), aircraft
  end.
  split; [exact Haircraft|].
  split; [exact Hrisk|]. split; [exact Eterrain|]. split; [exact Hclear|].
  split; [exact Hsafe|]. split; [exact Hiff|]. split; [discriminate|].
  split; [exact Hperformance|]. split; [exact Htime|].
  split; [by exists base|]. split; [by exists airspeeds|].
  split; [reflexivity|]. split; [reflexivity|].
  split; [rewrite !lookup_insert_ne by done; reflexivity|].
  split; [rewrite !lookup_insert_ne by done; reflexivity|].
  split; [rewrite !lookup_insert_ne by done; reflexivity|].
  split; [rewrite !lookup_insert_ne by done; reflexivity|].
  split; [rewrite !lookup_insert_ne by done; reflexivity|].
  split; [rewrite lookup_insert_ne by done; apply lookup_insert_eq|].
  split; [apply lookup_insert_eq | reflexivity].
Qed.

(** X13.  Every flight plan that [plan_flight] returns carries the same
    [faa_compliance] entry, whatever the mission and the aircraft: not
    compliant, the insufficient-battery-reserve violation as the only
    violation, no warnings and no recommendations.  The altitude limit,
    the populated-area rule and the three recommendations are never
    reported, since the plan has none of the top-level keys they read. *)
Theorem plan_flight_compliance_is_constant
    (self self' : t) (mission : mission_params) (flight_plan : gmap string value) :
  plan_flight read_json now_stamp generate_pilot_briefing self mission
  = Ok (flight_plan, self') ->
  exists compliance : gmap string value,
    flight_plan !! "faa_compliance" = Some (VDict compliance)
    /\ compliance !! "compliant" = Some (VBool false)
    /\ compliance !! "violations"
       = Some (strs ["Insufficient battery reserve. Need at least 5min reserve"])
    /\ compliance !! "warnings" = Some (VList [])
    /\ compliance !! "recommendations" = Some (VList [])
    /\ flight_plan !! "max_altitude" = None
    /\ flight_plan !! "over_populated_area" = None.
Proof.
  intros Hplan.
  destruct (plan_flight_inv _ _ _ _ Hplan)
    as (weather & metar & terrain & performance & compliance & decision
        & clear & stall & minutes & aircraft & Hload & Hinv).
  destruct Hinv as (_ & _ & _ & _ & _ & _ & _ & _ & _ & _ & -> & _
                    & _ & _ & _ & _ & _ & Hfaa & _ & _).
  eexists. split; [exact Hfaa|].
  split; [vm_eval|]. split; [vm_eval|]. split; [vm_eval|]. split; [vm_eval|].
  clear Hfaa. unfold plan_flight in Hplan.
  repeat (let v := fresh "v" in let Hv := fresh "Hv" in bind_inv Hplan as v Hv).
  injection Hplan as <- _.
  split; rewrite !lookup_insert_ne by done; reflexivity.
Qed.

(** X14.  The decision of every flight plan that [plan_flight] returns:
    confidence LOW and no recommendations; the reasons always hold the
    failed FAA check and never the weather check; they hold the terrain
    check exactly when some waypoint is below 700 ft (a waypoint without
    altitude counts as 0), and the battery check exactly when the flight
    time stored under [performance] is at most 10 minutes. *)
Theorem plan_flight_decision_reasons
    (self self' : t) (mission : mission_params) (flight_plan : gmap string value) :
  plan_flight read_json now_stamp generate_pilot_briefing self mission
  = Ok (flight_plan, self') ->
  exists (decision performance : gmap string value) (reasons : list string)
         (minutes : Q),
    flight_plan !! "go_no_go" = Some (VDict decision)
    /\ flight_plan !! "performance" = Some (VDict performance)
    /\ performance !! "estimated_flight_time" = Some (VNum minutes)
    /\ decision !! "confidence_level" = Some (VStr "LOW")
    /\ decision !! "recommendations" = Some (VList [])
    /\ decision !! "reasons" = Some (strs reasons)
    /\ In "Failed faa compliant check" reasons
    /\ ~ In "Failed weather acceptable check" reasons
    /\ (In "Failed terrain clearance check" reasons <->
        Exists (fun w => get w "altitude" 0 < 700)
               (default [] (waypoints mission)))
    /\ (In "Failed battery reserve check" reasons <-> minutes <= 10).
Proof.
  intros Hplan.
  destruct (plan_flight_inv _ _ _ _ Hplan)
    as (weather & metar & terrain & performance & compliance & decision
        & clear & stall & minutes & aircraft & Hload & Hinv).
  destruct Hinv as (_ & _ & _ & _ & Hclear & _ & _ & Htime & _ & _ & _ & ->
                    & _ & _ & _ & Hperformance & _ & _ & Hdecision & _).
  eexists _, performance,
    (Spec.failed_checks false true clear (Qgt_bool minutes 10) true), minutes.
  split; [exact Hdecision|]. split; [exact Hperformance|].
  split; [exact Htime|]. split; [vm_eval|]. split; [vm_eval|].
  split; [vm_eval|].
  rewrite !failed_checks_In. split; [by left|]. split.
  { intros [[_ E]|[[E _]|[[_ E]|[[_ E]|[E _]]]]]; discriminate. }
  split.
  - rewrite <- low_waypoint_iff, <- Hclear. split.
    + intros [[_ E]|[[E _]|[[Hc _]|[[_ E]|[E _]]]]]; try discriminate.
      congruence.
    + intros Hc. right; right; left. split; [|reflexivity].
      by destruct clear.
  - split.
    + intros [[_ E]|[[E _]|[[_ E]|[[Hb _]|[E _]]]]]; try discriminate.
      by apply Qlt_bool_false in Hb.
    + intros Hle. right; right; right; left. split; [|reflexivity].
      by apply Qlt_bool_false.
Qed.




End WithEnvironment.

(** A mission whose dictionary has no [waypoints] key: with no aircraft
    file, with a file that holds a JSON array and with a file that
    cannot be opened. *)
Lemma plan_flight_without_waypoints_raises_witness :
  plan_flight (H := demo_runtime) (fun _ => None) "20250101_120000"
    (fun _ _ _ => Ok "briefing") {| current_flight_plan := None |}
    {| aircraft_config := Some "AI_Pilot_Flying_Wing_185g.json";
       location := None; waypoints := None |}
  = Raise ValueError
  /\ plan_flight (H := demo_runtime) (fun _ => Some (Ok (VList [])))
       "20250101_120000" (fun _ _ _ => Ok "briefing")
       {| current_flight_plan := None |}
       {| aircraft_config := Some "AI_Pilot_Flying_Wing_185g.json";
          location := None; waypoints := None |}
     = Raise AttributeError
  /\ plan_flight (H := demo_runtime) (fun _ => Some (Raise OSError))
       "20250101_120000" (fun _ _ _ => Ok "briefing")
       {| current_flight_plan := None |}
       {| aircraft_config := Some "AI_Pilot_Flying_Wing_185g.json";
          location := None; waypoints := None |}
     = Raise OSError.
Proof.
  split; [|split].
  - destruct (plan_flight_without_waypoints_raises (H := demo_runtime)
                (fun _ => None) "20250101_120000" (fun _ _ _ => Ok "briefing")
                {| current_flight_plan := None |}
                {| aircraft_config := Some "AI_Pilot_Flying_Wing_185g.json";
                   location := None; waypoints := None |} eq_refl)
      as (_ & _ & Hnone & _).
    exact (Hnone eq_refl).
  - destruct (plan_flight_without_waypoints_raises (H := demo_runtime)
                (fun _ => Some (Ok (VList []))) "20250101_120000"
                (fun _ _ _ => Ok "briefing")
                {| current_flight_plan := None |}
                {| aircraft_config := Some "AI_Pilot_Flying_Wing_185g.json";
                   location := None; waypoints := None |} eq_refl)
      as (_ & _ & _ & _ & Hshape & _).
    apply (Hshape (VList []) eq_refl). discriminate.
  - destruct (plan_flight_without_waypoints_raises (H := demo_runtime)
                (fun _ => Some (Raise OSError)) "20250101_120000"
                (fun _ _ _ => Ok "briefing")
                {| current_flight_plan := None |}
                {| aircraft_config := Some "AI_Pilot_Flying_Wing_185g.json";
                   location := None; waypoints := None |} eq_refl)
      as (_ & _ & _ & Hraise & _).
    exact (Hraise OSError eq_refl).
Defined.

(** The sample mission with its waypoints raised above 700 ft. *)
Lemma plan_flight_compliance_is_constant_witness :
  exists (flight_plan compliance : gmap string value) (self' : t),
    plan_flight (H := demo_runtime) (fun _ => None) "20250101_120000" (fun _ _ _ => Ok "briefing")
      {| current_flight_plan := None |} sample_mission
    = Ok (flight_plan, self')
    /\ flight_plan !! "faa_compliance" = Some (VDict compliance)
    /\ compliance !! "recommendations" = Some (VList []).
Proof.
  destruct (is_ok_returns
              (plan_flight (H := demo_runtime) (fun _ => None) "20250101_120000"
                 (fun _ _ _ => Ok "briefing")
                 {| current_flight_plan := None |} sample_mission))
    as [[flight_plan self'] E]; [vm_eval|].
  destruct (plan_flight_compliance_is_constant _ _ _ _ _ _ _ E)
    as (compliance & Hfaa & _ & _ & _ & Hrec & _).
  exists flight_plan, compliance, self'.
  split; [exact E|]. split; [exact Hfaa | exact Hrec].
Defined.

Lemma plan_flight_decision_reasons_witness :
  exists (flight_plan decision : gmap string value) (reasons : list string)
         (self' : t),
    plan_flight (H := demo_runtime) (fun _ => None) "20250101_120000" (fun _ _ _ => Ok "briefing")
      {| current_flight_plan := None |} main_mission
    = Ok (flight_plan, self')
    /\ flight_plan !! "go_no_go" = Some (VDict decision)
    /\ decision !! "reasons" = Some (strs reasons)
    /\ In "Failed terrain clearance check" reasons.
Proof.
  destruct (is_ok_returns
              (plan_flight (H := demo_runtime) (fun _ => None) "20250101_120000"
                 (fun _ _ _ => Ok "briefing")
                 {| current_flight_plan := None |} main_mission))
    as [[flight_plan self'] E]; [vm_eval|].
  destruct (plan_flight_decision_reasons _ _ _ _ _ _ _ E)
    as (decision & performance & reasons & minutes
        & Hd & _ & _ & _ & _ & Hreasons & _ & _ & Hterrain & _).
  exists flight_plan, decision, reasons, self'.
  split; [exact E|]. split; [exact Hd|]. split; [exact Hreasons|].
  apply Hterrain. apply Exists_cons_hd. vm_compute. reflexivity.
Defined.


(** *** [assess_flight_risk] *)

(** A key of a dictionary of numbers, read with a numeric default. *)
Lemma get_numeric (w : gmap string Q) (key : string) (dflt : Q) :
  get (VNum <$> w) key (VNum dflt) = VNum (get w key dflt).
Proof. unfold get. rewrite lookup_fmap. by destruct (w !! key). Qed.

Lemma assess_flight_risk_numeric (w : gmap string Q) :
  WeatherService.assess_flight_risk (VNum <$> w)
  = Ok (if high_risk w then "HIGH_RISK"
        else if moderate_risk w then "MODERATE_RISK" else "LOW_RISK").
Proof.
  unfold WeatherService.assess_flight_risk, high_risk, moderate_risk.
  rewrite !get_numeric. cbn [gt_num lt_num as_num mbind result_bind].
  destruct (Qgt_bool (get w "wind_speed" 0) 20),
    (Qlt_bool (get w "visibility" 10) 3),
    (Qlt_bool (get w "ceiling" 10000) 1000),
    (Qgt_bool (get w "wind_speed" 0) 10),
    (Qlt_bool (get w "visibility" 10) 5),
    (Qlt_bool (get w "ceiling" 10000) 3000); reflexivity.
Qed.

Lemma high_risk_iff (w : gmap string Q) :
  high_risk w = true <->
  20 < get w "wind_speed" 0 \/ get w "visibility" 10 < 3
  \/ get w "ceiling" 10000 < 1000.
Proof.
  unfold high_risk. rewrite !orb_true_iff, Qgt_bool_iff, !Qlt_bool_iff. tauto.
Qed.

Lemma moderate_risk_iff (w : gmap string Q) :
  moderate_risk w = true <->
  10 < get w "wind_speed" 0 \/ get w "visibility" 10 < 5
  \/ get w "ceiling" 10000 < 3000.
Proof.
  unfold moderate_risk.
  rewrite !orb_true_iff, Qgt_bool_iff, !Qlt_bool_iff. tauto.
Qed.

(** X16.  On numeric readings [assess_flight_risk] always returns one of
    the three classes, a missing reading counting as wind 0, visibility
    10 and ceiling 10000; and the class never improves when the weather
    gets worse: with at least as much wind, at most as much visibility
    and at most as high a ceiling, HIGH_RISK stays HIGH_RISK and LOW_RISK
    is only reached from LOW_RISK. *)
Theorem assess_flight_risk_monotone (w1 w2 : gmap string Q) :
  get w1 "wind_speed" 0 <= get w2 "wind_speed" 0 ->
  get w2 "visibility" 10 <= get w1 "visibility" 10 ->
  get w2 "ceiling" 10000 <= get w1 "ceiling" 10000 ->
  exists r1 r2 : string,
    WeatherService.assess_flight_risk (VNum <$> w1) = Ok r1
    /\ WeatherService.assess_flight_risk (VNum <$> w2) = Ok r2
    /\ In r1 ["LOW_RISK"; "MODERATE_RISK"; "HIGH_RISK"]
    /\ In r2 ["LOW_RISK"; "MODERATE_RISK"; "HIGH_RISK"]
    /\ (r1 = "HIGH_RISK" -> r2 = "HIGH_RISK")
    /\ (r2 = "LOW_RISK" -> r1 = "LOW_RISK").
Proof.
  intros Hwind Hvis Hceil. rewrite !assess_flight_risk_numeric.
  eexists _, _. split; [reflexivity|]. split; [reflexivity|].
  assert (Hhigh : high_risk w1 = true -> high_risk w2 = true).
  { rewrite !high_risk_iff. intros [Hw|[Hv|Hc]];
      [left | right; left | right; right]; lra. }
  assert (Hmod : moderate_risk w1 = true -> moderate_risk w2 = true).
  { rewrite !moderate_risk_iff. intros [Hw|[Hv|Hc]];
      [left | right; left | right; right]; lra. }
  assert (Hhm : forall w, high_risk w = true -> moderate_risk w = true).
  { intros w. rewrite high_risk_iff, moderate_risk_iff. intros [Hw|[Hv|Hc]];
      [left | right; left | right; right]; lra. }
  pose proof (Hhm w1) as Hhm1. pose proof (Hhm w2) as Hhm2.
  destruct (high_risk w1), (moderate_risk w1), (high_risk w2),
    (moderate_risk w2); cbn [In];
    repeat match goal with
           | Hx : true = true -> false = true |- _ =>
               discriminate (Hx eq_refl)
           end;
    (split; [tauto|]); (split; [tauto|]); split; intros; congruence.
Qed.

(** The simulated readings of [get_weather] against a gusty day. *)
Lemma assess_flight_risk_monotone_witness :
  exists r1 r2 : string,
    WeatherService.assess_flight_risk
      (VNum <$> list_to_map [("wind_speed", 8); ("visibility", 10);
                             ("ceiling", 5000)]) = Ok r1
    /\ WeatherService.assess_flight_risk
         (VNum <$> list_to_map [("wind_speed", 25); ("visibility", 4);
                               ("ceiling", 4000)]) = Ok r2
    /\ (r2 = "LOW_RISK" -> r1 = "LOW_RISK").
Proof.
  destruct (assess_flight_risk_monotone
              (list_to_map [("wind_speed", 8); ("visibility", 10);
                            ("ceiling", 5000)])
              (list_to_map [("wind_speed", 25); ("visibility", 4);
                               ("ceiling", 4000)]))
    as (r1 & r2 & E1 & E2 & _ & _ & _ & Hlow).
  - vm_compute. discriminate.
  - vm_compute. discriminate.
  - vm_compute. discriminate.
  - exists r1, r2. split; [exact E1|]. split; [exact E2 | exact Hlow].
Defined.

(** *** [monitor_flight] *)

Section Monitoring.
Context `{Runtime}.

(** What [monitor_flight] reads and what it reports. *)
Lemma monitor_flight_inv (self : t) (telemetry : gmap string Q)
    (r : monitor_report) :
  monitor_flight self telemetry = Ok r ->
  exists (flight_plan : gmap string value) (stall min_safe : Q),
    current_flight_plan self = Some flight_plan
    /\ (a ← getitem flight_plan "aircraft"; s ← subscript a "airspeeds";
        v ← subscript s "Vs"; as_num v) = Ok stall
    /\ (g ← getitem flight_plan "terrain";
        m ← subscript g "minimum_safe_altitude"; as_num m) = Ok min_safe
    /\ map level (alerts r)
       = (if Qlt_bool (get telemetry "airspeed" 0) (stall * 1.2)
          then ["CRITICAL"] else [])
         ++ (if Qlt_bool (get telemetry "altitude" 0) min_safe
             then ["WARNING"] else [])
         ++ (if Qlt_bool (get telemetry "battery_percent" 100) 20
             then ["WARNING"] else [])
    /\ flight_status r
       = (if Nat.eqb (length (alerts r)) 0 then "NOMINAL" else "CAUTION")
    /\ monitor_recommendations r = [].
Proof.
  intros Hr. unfold monitor_flight in Hr.
  destruct (current_flight_plan self) as [flight_plan|]; [|discriminate].
  rewrite bind_Ok_l in Hr.
  bind_inv Hr as aircraft Haircraft.
  bind_inv Hr as airspeeds Hairspeeds.
  bind_inv Hr as stall_speed Hstall_speed.
  bind_inv Hr as stall Hstall.
  bind_inv Hr as terrain Hterrain.
  bind_inv Hr as min_safe_alt Hmin_safe_alt.
  bind_inv Hr as min_safe Hmin_safe.
  injection Hr as <-.
  exists flight_plan, stall, min_safe.
  split; [reflexivity|].
  split; [by rewrite Haircraft, bind_Ok_l, Hairspeeds, bind_Ok_l,
            Hstall_speed, bind_Ok_l|].
  split; [by rewrite Hterrain, bind_Ok_l, Hmin_safe_alt, bind_Ok_l|].
  cbn [alerts flight_status monitor_recommendations].
  split; [|split; reflexivity].
  destruct (Qlt_bool (get telemetry "airspeed" 0) (stall * 1.2)),
    (Qlt_bool (get telemetry "altitude" 0) min_safe),
    (Qlt_bool (get telemetry "battery_percent" 100) 20); reflexivity.
Qed.

(** The status is NOMINAL exactly when no alert was raised. *)
Lemma nominal_iff_no_alert (levels : list string) (b1 b2 b3 : bool)
    (n : nat) :
  n = length ((if b1 then ["CRITICAL"] else [])
              ++ (if b2 then ["WARNING"] else [])
              ++ (if b3 then ["WARNING"] else [])) ->
  (if Nat.eqb n 0 then "NOMINAL" else "CAUTION") = "NOMINAL" <->
  b1 = false /\ b2 = false /\ b3 = false.
Proof.
  intros ->. destruct b1, b2, b3; cbn; intuition discriminate.
Qed.

(** The airspeed test away from its threshold: below 1.199999 and from
    1.200001 times the stall speed its outcome does not depend on the
    last digits of the product [stall_speed * 1.2]. *)
Lemma airspeed_test_margin (airspeed stall : Q) :
  0.001 <= stall ->
  (airspeed <= 1.199999 * stall -> Qlt_bool airspeed (stall * 1.2) = true)
  /\ (1.200001 * stall <= airspeed -> Qlt_bool airspeed (stall * 1.2) = false).
Proof.
  intros Hstall. split; intros Hairspeed.
  - apply Qlt_bool_iff. lra.
  - apply Qlt_bool_false. lra.
Qed.

(** X17.  Whenever [monitor_flight] returns, a flight plan is stored; the
    alerts are, in this order, a CRITICAL one when the airspeed test
    succeeds, a WARNING when the altitude is below the plan's minimum
    safe altitude and a WARNING when the battery is below 20 %, a
    missing reading counting as airspeed 0, altitude 0 and battery 100.
    For a stall speed of at least 0.001 the airspeed test succeeds when
    the airspeed is at most 1.199999 times the stall speed of the plan's
    aircraft and fails when it is at least 1.200001 times the stall
    speed.  The status is NOMINAL exactly when none of the three alerts
    is raised and CAUTION otherwise; no recommendation is ever given. *)
Theorem monitor_flight_alerts (self : t) (telemetry : gmap string Q)
    (r : monitor_report) :
  monitor_flight self telemetry = Ok r ->
  exists (flight_plan : gmap string value) (stall min_safe : Q)
         (critical : bool),
    current_flight_plan self = Some flight_plan
    /\ (a ← getitem flight_plan "aircraft"; s ← subscript a "airspeeds";
        v ← subscript s "Vs"; as_num v) = Ok stall
    /\ (g ← getitem flight_plan "terrain";
        m ← subscript g "minimum_safe_altitude"; as_num m) = Ok min_safe
    /\ map level (alerts r)
       = (if critical then ["CRITICAL"] else [])
         ++ (if Qlt_bool (get telemetry "altitude" 0) min_safe
             then ["WARNING"] else [])
         ++ (if Qlt_bool (get telemetry "battery_percent" 100) 20
             then ["WARNING"] else [])
    /\ (0.001 <= stall ->
        get telemetry "airspeed" 0 <= 1.199999 * stall -> critical = true)
    /\ (0.001 <= stall ->
        1.200001 * stall <= get telemetry "airspeed" 0 -> critical = false)
    /\ (flight_status r = "NOMINAL" <->
        critical = false
        /\ min_safe <= get telemetry "altitude" 0
        /\ 20 <= get telemetry "battery_percent" 100)
    /\ (flight_status r = "NOMINAL" \/ flight_status r = "CAUTION")
    /\ monitor_recommendations r = [].
Proof.
  intros Hr.
  destruct (monitor_flight_inv _ _ _ Hr)
    as (flight_plan & stall & min_safe & Hplan & Hstall & Hsafe & Hlevels
        & Hstatus & Hrec).
  exists flight_plan, stall, min_safe,
    (Qlt_bool (get telemetry "airspeed" 0) (stall * 1.2)).
  split; [exact Hplan|]. split; [exact Hstall|]. split; [exact Hsafe|].
  split; [exact Hlevels|].
  split; [intros Hs; apply (airspeed_test_margin _ _ Hs)|].
  split; [intros Hs; apply (airspeed_test_margin _ _ Hs)|].
  split; [|split; [|exact Hrec]].
  - rewrite Hstatus, <- !Qlt_bool_false.
    apply (nominal_iff_no_alert (map level (alerts r))).
    by rewrite <- Hlevels, length_map.
  - rewrite Hstatus. destruct (Nat.eqb (length (alerts r)) 0); auto.
Qed.

(** [monitor_flight] returns on a stored plan that has the entries it
    reads. *)
Lemma monitor_flight_returns (self : t) (telemetry : gmap string Q)
    (flight_plan aircraft terrain : gmap string value)
    (airspeeds stall_speed : value) (stall min_safe : Q) :
  current_flight_plan self = Some flight_plan ->
  flight_plan !! "aircraft" = Some (VDict aircraft) ->
  aircraft !! "airspeeds" = Some airspeeds ->
  subscript airspeeds "Vs" = Ok stall_speed ->
  as_num stall_speed = Ok stall ->
  flight_plan !! "terrain" = Some (VDict terrain) ->
  terrain !! "minimum_safe_altitude" = Some (VNum min_safe) ->
  exists r,
    monitor_flight self telemetry = Ok r
    /\ map level (alerts r)
       = (if Qlt_bool (get telemetry "airspeed" 0) (stall * 1.2)
          then ["CRITICAL"] else [])
         ++ (if Qlt_bool (get telemetry "altitude" 0) min_safe
             then ["WARNING"] else [])
         ++ (if Qlt_bool (get telemetry "battery_percent" 100) 20
             then ["WARNING"] else [])
    /\ flight_status r
       = (if Nat.eqb (length (alerts r)) 0 then "NOMINAL" else "CAUTION").
Proof.
  intros Hplan Haircraft Hairspeeds Hstall_speed Hstall Hterrain Hsafe.
  assert (Hok : returns (monitor_flight self telemetry)).
  { unfold monitor_flight, getitem.
    rewrite Hplan. cbn [mbind result_bind].
    rewrite Haircraft, Hterrain. cbn [mbind result_bind subscript].
    unfold getitem. rewrite Hairspeeds, Hsafe. cbn [mbind result_bind].
    rewrite Hstall_speed. cbn [mbind result_bind].
    rewrite Hstall. cbn [mbind result_bind as_num]. by eexists. }
  destruct Hok as [r Hr]. exists r. split; [exact Hr|].
  destruct (monitor_flight_inv _ _ _ Hr)
    as (flight_plan' & stall' & min_safe' & Hplan' & Hstall' & Hsafe' & Hlevels
        & Hstatus & _).
  assert (flight_plan' = flight_plan) as -> by congruence.
  unfold getitem in Hstall', Hsafe'.
  rewrite Haircraft in Hstall'. rewrite Hterrain in Hsafe'.
  cbn [mbind result_bind subscript] in Hstall', Hsafe'.
  unfold getitem in Hstall', Hsafe'.
  rewrite Hairspeeds in Hstall'. rewrite Hsafe in Hsafe'.
  cbn [mbind result_bind as_num] in Hstall', Hsafe'.
  rewrite Hstall_speed in Hstall'. cbn [mbind result_bind] in Hstall'.
  assert (stall' = stall) as -> by congruence.
  assert (min_safe' = min_safe) as -> by congruence.
  split; [exact Hlevels | exact Hstatus].
Qed.

Section WithEnvironment.
Variable read_json : string -> option (result value).
Variable now_stamp : string.
Variable generate_pilot_briefing :
  gmap string value -> gmap string value -> gmap string value -> result string.

(** X18.  Monitoring before any flight was planned raises [TypeError].
    After [plan_flight] has returned, the plan's aircraft has a stall
    speed entry.  When that entry is a number, monitoring on the new
    state returns for every telemetry; it raises the CRITICAL alert when
    the airspeed is at most 1.199999 times the stall speed and does not
    when the airspeed is at least 1.200001 times the stall speed (for a
    stall speed of at least 0.001), and the status is NOMINAL exactly
    when that alert is not raised, the altitude is at least 700 ft and
    the battery at least 20 %.  When the entry is not a number,
    monitoring raises [TypeError]. *)
Theorem monitor_flight_after_plan_flight
    (self self' : t) (mission : mission_params)
    (flight_plan : gmap string value) (telemetry : gmap string Q) :
  plan_flight read_json now_stamp generate_pilot_briefing self mission
  = Ok (flight_plan, self') ->
  monitor_flight {| current_flight_plan := None |} telemetry = Raise TypeError
  /\ exists stall_speed : value,
       (a ← getitem flight_plan "aircraft"; s ← subscript a "airspeeds";
        subscript s "Vs") = Ok stall_speed
       /\ (forall stall,
             as_num stall_speed = Ok stall ->
             exists (r : monitor_report) (critical : bool),
               monitor_flight self' telemetry = Ok r
               /\ (critical = true <-> In "CRITICAL" (map level (alerts r)))
               /\ (0.001 <= stall ->
                   get telemetry "airspeed" 0 <= 1.199999 * stall ->
                   critical = true)
               /\ (0.001 <= stall ->
                   1.200001 * stall <= get telemetry "airspeed" 0 ->
                   critical = false)
               /\ (flight_status r = "NOMINAL" <->
                   critical = false
                   /\ 700 <= get telemetry "altitude" 0
                   /\ 20 <= get telemetry "battery_percent" 100))
       /\ (as_num stall_speed = Raise TypeError ->
           monitor_flight self' telemetry = Raise TypeError).
Proof.
  intros Hplan. split; [reflexivity|].
  destruct (plan_flight_inv _ _ _ _ _ _ _ Hplan)
    as (weather & metar & terrain & performance & compliance & decision
        & clear & stall_speed & minutes & aircraft & Hload & Hinv).
  destruct Hinv as (_ & _ & _ & Hsafe & _ & _ & _ & _ & _
                    & (airspeeds & Hairspeeds & Hstall_speed) & _ & _
                    & Haircraft & _ & Hterrain & _ & _ & _ & _ & ->).
  exists stall_speed. split; [|split].
  - unfold getitem at 1. rewrite Haircraft. cbn [mbind result_bind subscript].
    unfold getitem. rewrite Hairspeeds. cbn [mbind result_bind].
    exact Hstall_speed.
  - intros stall Hstall.
    destruct (monitor_flight_returns {| current_flight_plan := Some flight_plan |}
                telemetry flight_plan _ terrain airspeeds stall_speed stall
                (500 + 200) eq_refl Haircraft Hairspeeds Hstall_speed Hstall
                Hterrain Hsafe) as (r & Hr & Hlevels & Hstatus).
    exists r, (Qlt_bool (get telemetry "airspeed" 0) (stall * 1.2)).
    split; [exact Hr|]. split.
    { rewrite Hlevels.
      destruct (Qlt_bool (get telemetry "airspeed" 0) (stall * 1.2)),
        (Qlt_bool (get telemetry "altitude" 0) (500 + 200)),
        (Qlt_bool (get telemetry "battery_percent" 100) 20);
        cbn [app In]; intuition discriminate. }
    split; [intros Hs; apply (airspeed_test_margin _ _ Hs)|].
    split; [intros Hs; apply (airspeed_test_margin _ _ Hs)|].
    assert (H700 : 500 + 200 == 700) by reflexivity.
    assert (Hiff : flight_status r = "NOMINAL" <->
                   Qlt_bool (get telemetry "airspeed" 0) (stall * 1.2) = false
                   /\ Qlt_bool (get telemetry "altitude" 0) (500 + 200) = false
                   /\ Qlt_bool (get telemetry "battery_percent" 100) 20 = false).
    { rewrite Hstatus. apply (nominal_iff_no_alert (map level (alerts r))).
      by rewrite <- Hlevels, length_map. }
    rewrite Hiff, !Qlt_bool_false.
    split; intros (H1 & H2 & H3); (split; [exact H1|]);
      (split; [lra | exact H3]).
  - intros Hstall. unfold monitor_flight, getitem.
    cbn [current_flight_plan mbind result_bind]. rewrite Haircraft.
    cbn [mbind result_bind subscript].
    unfold getitem. rewrite Hairspeeds. cbn [mbind result_bind].
    rewrite Hstall_speed. cbn [mbind result_bind].
    rewrite Hstall. reflexivity.
Qed.

End WithEnvironment.
End Monitoring.

(** A stored plan with the default stall speed 1.1 m/s and the minimum
    safe altitude 700 ft; telemetry at 1.4 m/s, 800 ft, 60 % is NOMINAL
    and telemetry at 1.2 m/s raises the one CRITICAL alert. *)
Lemma monitor_flight_alerts_witness :
  (exists r,
     monitor_flight (H := demo_runtime)
       {| current_flight_plan :=
            Some (dict [ ("aircraft", VDict default_aircraft_data);
                         ("terrain",
                          VDict (dict [ ("minimum_safe_altitude", VNum 700) ])) ]) |}
       (list_to_map [("airspeed", 1.4); ("altitude", 800);
                     ("battery_percent", 60)])
     = Ok r
     /\ map level (alerts r) = []
     /\ flight_status r = "NOMINAL")
  /\ (exists r,
        monitor_flight (H := demo_runtime)
          {| current_flight_plan :=
               Some (dict [ ("aircraft", VDict default_aircraft_data);
                            ("terrain",
                             VDict (dict [ ("minimum_safe_altitude",
                                            VNum 700) ])) ]) |}
          (list_to_map [("airspeed", 1.2); ("altitude", 800);
                        ("battery_percent", 60)])
        = Ok r
        /\ map level (alerts r) = ["CRITICAL"]).
Proof.
  split.
  - destruct (is_ok_returns
                (monitor_flight (H := demo_runtime)
                   {| current_flight_plan :=
                        Some (dict [ ("aircraft", VDict default_aircraft_data);
                                     ("terrain",
                                      VDict (dict [ ("minimum_safe_altitude",
                                                     VNum 700) ])) ]) |}
                   (list_to_map [("airspeed", 1.4); ("altitude", 800);
                                 ("battery_percent", 60)])))
      as [r E]; [vm_eval|].
    exists r. split; [exact E|].
    destruct (monitor_flight_alerts (H := demo_runtime) _ _ r E)
      as (flight_plan & stall & min_safe & critical & Hplan & Hstall & Hsafe
          & Hlevels & _ & Hhigh & Hnominal & _).
    injection Hplan as <-.
    vm_compute in Hstall. injection Hstall as <-.
    vm_compute in Hsafe. injection Hsafe as <-.
    assert (Hc : critical = false).
    { apply Hhigh; vm_compute; discriminate. }
    split.
    + rewrite Hlevels, Hc. reflexivity.
    + apply Hnominal. split; [exact Hc|]. split; vm_compute; discriminate.
  - destruct (is_ok_returns
                (monitor_flight (H := demo_runtime)
                   {| current_flight_plan :=
                        Some (dict [ ("aircraft", VDict default_aircraft_data);
                                     ("terrain",
                                      VDict (dict [ ("minimum_safe_altitude",
                                                     VNum 700) ])) ]) |}
                   (list_to_map [("airspeed", 1.2); ("altitude", 800);
                                 ("battery_percent", 60)])))
      as [r E]; [vm_eval|].
    exists r. split; [exact E|].
    destruct (monitor_flight_alerts (H := demo_runtime) _ _ r E)
      as (flight_plan & stall & min_safe & critical & Hplan & Hstall & Hsafe
          & Hlevels & Hlow & _).
    injection Hplan as <-.
    vm_compute in Hstall. injection Hstall as <-.
    vm_compute in Hsafe. injection Hsafe as <-.
    assert (Hc : critical = true).
    { apply Hlow; vm_compute; discriminate. }
    rewrite Hlevels, Hc. reflexivity.
Defined.

(** The sample mission of [main] with the built-in aircraft data (stall
    speed 1.1 m/s), then telemetry at 1.4 m/s and a planned waypoint
    altitude of 250 ft: no CRITICAL alert, and the status is not
    NOMINAL since 250 ft is below the 700 ft minimum. *)
Lemma monitor_flight_after_plan_flight_witness :
  exists (flight_plan : gmap string value) (self' : t) (r : monitor_report),
    plan_flight (H := demo_runtime) (fun _ => None) "20250101_120000"
      (fun _ _ _ => Ok "briefing")
      {| current_flight_plan := None |} main_mission
    = Ok (flight_plan, self')
    /\ monitor_flight (H := demo_runtime) self'
         (list_to_map [("airspeed", 1.4); ("altitude", 250)]) = Ok r
    /\ ~ In "CRITICAL" (map level (alerts r))
    /\ flight_status r <> "NOMINAL".
Proof.
  destruct (is_ok_returns
              (plan_flight (H := demo_runtime) (fun _ => None) "20250101_120000"
                 (fun _ _ _ => Ok "briefing")
                 {| current_flight_plan := None |} main_mission))
    as [[flight_plan self'] E]; [vm_eval|].
  destruct (monitor_flight_after_plan_flight (H := demo_runtime)
              _ _ _ _ _ _ flight_plan
              (list_to_map [("airspeed", 1.4); ("altitude", 250)]) E)
    as (_ & stall_speed & Hstall & Hnumber & _).
  assert (Hs : stall_speed = VNum 1.1).
  { vm_compute in E. injection E as <- _. vm_compute in Hstall. congruence. }
  destruct (Hnumber 1.1) as (r & critical & Hr & Hin & _ & Hhigh & Hnominal).
  { rewrite Hs. reflexivity. }
  exists flight_plan, self', r. split; [exact E|]. split; [exact Hr|].
  assert (Hc : critical = false).
  { apply Hhigh; vm_compute; discriminate. }
  split.
  - rewrite <- Hin, Hc. discriminate.
  - rewrite Hnominal. intros (_ & Halt & _). vm_compute in Halt. by apply Halt.
Defined.

End AIPilotMore.

(** ** complete_ai_pilot_system.py: the pre-flight checks *)

Module PreflightMore.
Import PyFacts AIPilotFacts AIPilot Scenarios CompleteAIPilotSystem.

(** [all_present] returns [True] only when every field is in the
    container. *)
Lemma all_present_true (container : value) (fields : list string) :
  all_present container fields = Ok true ->
  Forall (fun field => contains container field = Ok true) fields.
Proof.
  induction fields as [|field fields IH]; intros Hall; [constructor|].
  cbn [all_present] in Hall. bind_inv Hall as present Hpresent.
  destruct present; [|discriminate].
  constructor; [exact Hpresent | by apply IH].
Qed.

(** On a dictionary, [all_present] returns and tests key membership. *)
Lemma all_present_dict (d : gmap string value) (fields : list string) :
  all_present (VDict d) fields
  = Ok (forallb (fun field => bool_decide (is_Some (d !! field))) fields).
Proof.
  induction fields as [|field fields IH]; [reflexivity|].
  cbn [all_present contains forallb]. rewrite bind_Ok_l.
  destruct (bool_decide (is_Some (d !! field))); [exact IH | reflexivity].
Qed.

(** What a passed aircraft check implies. *)
Lemma check_aircraft_configuration_true (flight_plan : gmap string value) :
  check_aircraft_configuration flight_plan = Ok true ->
  exists (aircraft : gmap string value) (weight : value) (grams : Q),
    flight_plan !! "aircraft" = Some (VDict aircraft)
    /\ Forall (fun field => is_Some (aircraft !! field))
              ["name"; "empty_weight"; "airspeeds"; "estimated_flight_time"]
    /\ aircraft !! "empty_weight" = Some weight
    /\ as_num weight = Ok grams
    /\ grams <= 250.
Proof.
  intros Hc. unfold check_aircraft_configuration in Hc.
  bind_inv Hc as present Hpresent.
  destruct present; cbn [negb] in Hc; [|discriminate].
  bind_inv Hc as weight Hweight.
  bind_inv Hc as heavy Hheavy.
  destruct heavy; [discriminate|].
  apply gt_num_Ok in Hheavy as (grams & Hgrams & Hle).
  symmetry in Hle. apply Qlt_bool_false in Hle.
  unfold get in Hpresent, Hweight.
  destruct (flight_plan !! "aircraft") as [[| | | | |aircraft]|] eqn:Ea;
    cbn [from_option id method_get] in Hweight; try discriminate.
  cbn [from_option id] in Hpresent. rewrite all_present_dict in Hpresent.
  injection Hpresent as Hall.
  exists aircraft, weight, grams.
  assert (Hfields :
    Forall (fun field => is_Some (aircraft !! field))
           ["name"; "empty_weight"; "airspeeds"; "estimated_flight_time"]).
  { cbn [forallb] in Hall.
    rewrite !andb_true_iff, !bool_decide_eq_true in Hall.
    destruct Hall as (H1 & H2 & H3 & H4 & _).
    repeat constructor; assumption. }
  split; [reflexivity|]. split; [exact Hfields|].
  split; [|split; [exact Hgrams | exact Hle]].
  inversion Hfields as [|? ? _ Hrest]. inversion Hrest as [|? ? [w Hw] _].
  injection Hweight as <-. unfold get. rewrite Hw. reflexivity.
Qed.

(** What a passed weather check implies. *)
Lemma check_weather_conditions_true (flight_plan : gmap string value) :
  check_weather_conditions flight_plan = Ok true ->
  exists (weather : gmap string value) (risk wind_speed : value) (knots : Q),
    flight_plan !! "weather" = Some (VDict weather)
    /\ weather !! "flight_risk" = Some risk
    /\ risk <> VStr "HIGH_RISK" /\ risk <> VStr "UNKNOWN"
    /\ method_get (get weather "metar" (VDict ∅)) "wind_speed" (VNum 0)
       = Ok wind_speed
    /\ as_num wind_speed = Ok knots
    /\ knots <= 15.
Proof.
  intros Hc. unfold check_weather_conditions in Hc.
  bind_inv Hc as risk Hrisk.
  destruct (eq_str risk "HIGH_RISK" || eq_str risk "UNKNOWN") eqn:Erisk;
    [discriminate|].
  apply orb_false_iff in Erisk as [Ehigh Eunknown].
  bind_inv Hc as metar Hmetar.
  bind_inv Hc as wind_speed Hwind.
  bind_inv Hc as windy Hwindy.
  destruct windy; [discriminate|].
  apply gt_num_Ok in Hwindy as (knots & Hknots & Hle).
  symmetry in Hle. apply Qlt_bool_false in Hle.
  unfold get in Hrisk, Hmetar.
  destruct (flight_plan !! "weather") as [[| | | | |weather]|] eqn:Ew;
    cbn [from_option id method_get] in Hrisk; try discriminate.
  - cbn [from_option id method_get] in Hmetar.
    injection Hrisk as <-. injection Hmetar as <-.
    destruct (weather !! "flight_risk") as [risk|] eqn:Er.
    + exists weather, risk, wind_speed, knots.
      unfold get in Ehigh, Eunknown. rewrite Er in Ehigh, Eunknown.
      cbn [from_option id] in Ehigh, Eunknown.
      split; [reflexivity|]. split; [exact Er|].
      split; [intros ->; discriminate|]. split; [intros ->; discriminate|].
      split; [exact Hwind|]. split; [exact Hknots | exact Hle].
    + unfold get in Eunknown. rewrite Er in Eunknown. discriminate.
  - injection Hrisk as <-. discriminate.
Qed.

(** A truthy answer of the FAA check comes from the plan. *)
Lemma check_faa_compliance_truthy (flight_plan : gmap string value)
    (answer : value) :
  check_faa_compliance flight_plan = Ok answer ->
  truthy answer = true ->
  exists compliance : gmap string value,
    flight_plan !! "faa_compliance" = Some (VDict compliance)
    /\ compliance !! "compliant" = Some answer.
Proof.
  unfold check_faa_compliance, get. intros Hc Htruthy.
  destruct (flight_plan !! "faa_compliance") as [[| | | | |compliance]|] eqn:Ef;
    cbn [from_option id method_get] in Hc; try discriminate.
  - injection Hc as <-. exists compliance. split; [reflexivity|].
    unfold get in Htruthy |- *.
    destruct (compliance !! "compliant"); [reflexivity | discriminate].
  - injection Hc as <-. discriminate.
Qed.

(** What passed emergency procedures imply. *)
Lemma verify_emergency_procedures_true (flight_plan : gmap string value) :
  verify_emergency_procedures flight_plan = Ok true ->
  exists procedures : value,
    flight_plan !! "emergency_procedures" = Some procedures
    /\ Forall (fun proc => contains procedures proc = Ok true)
              ["engine_failure"; "loss_of_control"; "low_battery";
               "ads_b_traffic"].
Proof.
  unfold verify_emergency_procedures, get. intros Hv.
  destruct (flight_plan !! "emergency_procedures") as [procedures|] eqn:Ep.
  - exists procedures. split; [reflexivity|]. by apply all_present_true.
  - discriminate.
Qed.

(** The verdict of [perform_preflight_checks] is the conjunction of the
    five checks. *)
Lemma perform_preflight_checks_inv (flight_plan : gmap string value)
    (verdict : bool) :
  perform_preflight_checks flight_plan = Ok verdict ->
  exists (aircraft_config weather_conditions emergency_procedures : bool)
         (faa_compliance : value),
    check_aircraft_configuration flight_plan = Ok aircraft_config
    /\ check_weather_conditions flight_plan = Ok weather_conditions
    /\ check_faa_compliance flight_plan = Ok faa_compliance
    /\ verify_emergency_procedures flight_plan = Ok emergency_procedures
    /\ verdict = aircraft_config && weather_conditions
                 && truthy faa_compliance && emergency_procedures.
Proof.
  intros Hp. unfold perform_preflight_checks in Hp.
  bind_inv Hp as aircraft_config Haircraft.
  bind_inv Hp as weather_conditions Hweather.
  bind_inv Hp as faa_compliance Hfaa.
  bind_inv Hp as emergency_procedures Hemergency.
  injection Hp as <-.
  exists aircraft_config, weather_conditions, emergency_procedures,
    faa_compliance.
  repeat (split; [assumption|]).
  cbn [fold_left snd truthy check_system_integrity negb].
  by destruct aircraft_config, weather_conditions, (truthy faa_compliance),
    emergency_procedures.
Qed.

(** X19.  [perform_preflight_checks] returns [False] on the empty flight
    plan, and whenever it returns [True] the plan has: an [aircraft]
    dictionary with the four required fields and a numeric
    [empty_weight] of at most 250; a [weather] dictionary whose
    [flight_risk] is present and neither HIGH_RISK nor UNKNOWN and whose
    METAR wind (0 when absent) is at most 15; an [faa_compliance]
    dictionary with a truthy [compliant]; and [emergency_procedures]
    containing the four required procedures. *)
Theorem preflight_pass_requirements (flight_plan : gmap string value) :
  perform_preflight_checks ∅ = Ok false
  /\ (perform_preflight_checks flight_plan = Ok true ->
      (exists (aircraft : gmap string value) (weight : value) (grams : Q),
         flight_plan !! "aircraft" = Some (VDict aircraft)
         /\ Forall (fun field => is_Some (aircraft !! field))
                   ["name"; "empty_weight"; "airspeeds"; "estimated_flight_time"]
         /\ aircraft !! "empty_weight" = Some weight
         /\ as_num weight = Ok grams
         /\ grams <= 250)
      /\ (exists (weather : gmap string value) (risk wind_speed : value)
                 (knots : Q),
            flight_plan !! "weather" = Some (VDict weather)
            /\ weather !! "flight_risk" = Some risk
            /\ risk <> VStr "HIGH_RISK" /\ risk <> VStr "UNKNOWN"
            /\ method_get (get weather "metar" (VDict ∅)) "wind_speed" (VNum 0)
               = Ok wind_speed
            /\ as_num wind_speed = Ok knots
            /\ knots <= 15)
      /\ (exists (compliance : gmap string value) (answer : value),
            flight_plan !! "faa_compliance" = Some (VDict compliance)
            /\ compliance !! "compliant" = Some answer
            /\ truthy answer = true)
      /\ (exists procedures : value,
            flight_plan !! "emergency_procedures" = Some procedures
            /\ Forall (fun proc => contains procedures proc = Ok true)
                      ["engine_failure"; "loss_of_control"; "low_battery";
                       "ads_b_traffic"])).
Proof.
  split; [vm_eval|]. intros Hp.
  destruct (perform_preflight_checks_inv _ _ Hp)
    as (aircraft_config & weather_conditions & emergency_procedures
        & faa_compliance & Haircraft & Hweather & Hfaa & Hemergency & Hall).
  symmetry in Hall.
  apply andb_true_iff in Hall as [Hall ->].
  apply andb_true_iff in Hall as [Hall Htruthy].
  apply andb_true_iff in Hall as [-> ->].
  split; [by apply check_aircraft_configuration_true|].
  split; [by apply check_weather_conditions_true|].
  split; [|by apply verify_emergency_procedures_true].
  destruct (check_faa_compliance_truthy _ _ Hfaa Htruthy)
    as (compliance & Hc & Hanswer).
  by exists compliance, faa_compliance.
Qed.

Lemma preflight_pass_requirements_witness :
  perform_preflight_checks passing_plan = Ok true
  /\ exists (compliance : gmap string value) (answer : value),
       passing_plan !! "faa_compliance" = Some (VDict compliance)
       /\ compliance !! "compliant" = Some answer
       /\ truthy answer = true.
Proof.
  assert (Hp : perform_preflight_checks passing_plan = Ok true) by vm_eval.
  split; [exact Hp|].
  destruct (preflight_pass_requirements passing_plan) as [_ Hreq].
  destruct (Hreq Hp) as (_ & _ & Hfaa & _). exact Hfaa.
Defined.

Section WithEnvironment.
Context `{Runtime}.
Variable read_json : string -> option (result value).
Variable now_stamp : string.
Variable generate_pilot_briefing :
  gmap string value -> gmap string value -> gmap string value -> result string.

(** The weather entry of a flight plan that [plan_flight] returns. *)
Lemma plan_flight_weather
    (self self' : t) (mission : mission_params) (flight_plan : gmap string value) :
  plan_flight read_json now_stamp generate_pilot_briefing self mission
  = Ok (flight_plan, self') ->
  exists weather metar : gmap string value,
    flight_plan !! "weather" = Some (VDict weather)
    /\ weather !! "flight_risk" = Some (VStr "LOW_RISK")
    /\ weather !! "metar" = Some (VDict metar)
    /\ metar !! "wind_speed" = Some (VNum 8).
Proof.
  intros Hplan. unfold plan_flight in Hplan.
  bind_inv Hplan as aircraft Haircraft.
  destruct (AIPilotMore.get_weather_returns
              (default (list_to_map [("lat", 37.7749); ("lon", -122.4194)])
                       (location mission)))
    as (weather & metar & Eweather & Hrisk & Hmetar & Hwind).
  rewrite Eweather, bind_Ok_l in Hplan.
  repeat (let v := fresh "v" in let Hv := fresh "Hv" in
          bind_inv Hplan as v Hv).
  injection Hplan as <- _.
  exists weather, metar.
  split; [rewrite !lookup_insert_ne by done; reflexivity|].
  split; [exact Hrisk|]. split; [exact Hmetar | exact Hwind].
Qed.

(** X20.  Applied to a flight plan that [plan_flight] has returned, the
    pre-flight checks never pass: the weather check and the
    emergency-procedure check return [True], the FAA check returns
    [False], and [perform_preflight_checks] returns [False], or raises
    [TypeError] when the aircraft's [empty_weight] is not a number. *)
Theorem preflight_never_passes_after_plan_flight
    (self self' : t) (mission : mission_params) (flight_plan : gmap string value) :
  plan_flight read_json now_stamp generate_pilot_briefing self mission
  = Ok (flight_plan, self') ->
  check_weather_conditions flight_plan = Ok true
  /\ check_faa_compliance flight_plan = Ok (VBool false)
  /\ verify_emergency_procedures flight_plan = Ok true
  /\ (perform_preflight_checks flight_plan = Ok false
      \/ perform_preflight_checks flight_plan = Raise TypeError).
Proof.
  intros Hplan.
  destruct (AIPilotMore.plan_flight_inv _ _ _ _ _ _ _ Hplan)
    as (weather & metar & terrain & performance & compliance & decision
        & clear & stall & minutes & aircraft & Hload & Hinv).
  destruct Hinv as (Hrisk & _ & _ & _ & _ & _ & _ & _ & _ & _ & -> & _
                    & Haircraft & Hweather & _ & _ & Hprocedures & Hfaa & _ & _).
  destruct (plan_flight_weather _ _ _ _ Hplan)
    as (weather' & metar' & Hweather' & Hrisk' & Hmetar & Hwind).
  assert (Hw : check_weather_conditions flight_plan = Ok true).
  { unfold check_weather_conditions, get. rewrite Hweather'.
    cbn [from_option id method_get mbind result_bind]. unfold get.
    rewrite Hrisk', Hmetar. cbn [from_option id method_get mbind result_bind].
    unfold get. rewrite Hwind. reflexivity. }
  assert (Hf : check_faa_compliance flight_plan = Ok (VBool false)).
  { unfold check_faa_compliance, get. rewrite Hfaa. reflexivity. }
  assert (He : verify_emergency_procedures flight_plan = Ok true).
  { unfold verify_emergency_procedures, get. rewrite Hprocedures.
    cbn [from_option id]. vm_eval. }
  split; [exact Hw|]. split; [exact Hf|]. split; [exact He|].
  unfold perform_preflight_checks. rewrite Hw, Hf, He.
  destruct (check_aircraft_configuration flight_plan) as [b|e] eqn:Ea.
  - left. cbn [mbind result_bind fold_left snd truthy negb]. reflexivity.
  - right. cbn [mbind result_bind]. f_equal.
    unfold check_aircraft_configuration, get in Ea. rewrite Haircraft in Ea.
    cbn [from_option id] in Ea. rewrite all_present_dict in Ea.
    rewrite bind_Ok_l in Ea.
    destruct (negb _); [discriminate|].
    cbn [method_get mbind result_bind] in Ea.
    unfold gt_num in Ea.
    destruct (as_num _) as [q|e'] eqn:En.
    + cbn [mbind result_bind] in Ea. by destruct (Qgt_bool q 250).
    + cbn [mbind result_bind] in Ea. injection Ea as <-.
      match type of En with
      | as_num ?v = _ => destruct v; cbn [as_num] in En; congruence
      end.
Qed.

End WithEnvironment.

(** The sample mission of [main] with the built-in aircraft data. *)
Lemma preflight_never_passes_after_plan_flight_witness :
  exists (flight_plan : gmap string value) (self' : t),
    plan_flight (H := demo_runtime) (fun _ => None) "20250101_120000" (fun _ _ _ => Ok "briefing")
      {| current_flight_plan := None |} main_mission
    = Ok (flight_plan, self')
    /\ check_faa_compliance flight_plan = Ok (VBool false).
Proof.
  destruct (is_ok_returns
              (plan_flight (H := demo_runtime) (fun _ => None) "20250101_120000"
                 (fun _ _ _ => Ok "briefing")
                 {| current_flight_plan := None |} main_mission))
    as [[flight_plan self'] E]; [vm_eval|].
  destruct (preflight_never_passes_after_plan_flight _ _ _ _ _ _ _ E)
    as (_ & Hfaa & _).
  exists flight_plan, self'. split; [exact E | exact Hfaa].
Defined.

End PreflightMore.

(** ** aircraft_builder.py: the design, its weight and its balance *)

Module AircraftBuilderMore.
Import PyFacts AircraftBuilderFacts AircraftBuilder Closed Scenarios.

(** *** Sums *)

Lemma fold_left_Qplus (l : list Q) (a : Q) :
  fold_left Qplus l a == a + fold_left Qplus l 0.
Proof.
  revert a. induction l as [|x l IH]; intros a; cbn [fold_left].
  - ring.
  - rewrite IH, (IH (0 + x)). ring.
Qed.

Lemma sum_cons (x : Q) (l : list Q) : sum (x :: l) == x + sum l.
Proof. unfold sum. cbn [fold_left]. rewrite fold_left_Qplus. ring. Qed.


Lemma sum_nonneg (l : list Q) : Forall (Qle 0) l -> 0 <= sum l.
Proof.
  induction 1 as [|x l Hx Hl IH].
  - unfold sum. cbn [fold_left]. lra.
  - rewrite sum_cons. lra.
Qed.

(** *** [min] with a key *)

Lemma min_by_fold {A} (key : A -> Q) (xs : list A) (x : A) :
  In (fold_left (fun best y => if Qlt_bool (key y) (key best) then y else best)
                xs x) (x :: xs)
  /\ Forall (fun y =>
               key (fold_left (fun best y =>
                                 if Qlt_bool (key y) (key best) then y else best)
                              xs x) <= key y) (x :: xs).
Proof.
  revert x. induction xs as [|y xs IH]; intros x; cbn [fold_left].
  - split; [by left|]. constructor; [apply Qle_refl | constructor].
  - destruct (Qlt_bool (key y) (key x)) eqn:E.
    + apply Qlt_bool_iff in E. destruct (IH y) as [Hin Hall].
      split; [by right|].
      inversion Hall as [|? ? Hy Hrest]; subst.
      constructor; [lra|]. constructor; assumption.
    + apply Qlt_bool_false in E. destruct (IH x) as [Hin Hall].
      split; [destruct Hin as [Hin|Hin]; [by left | by right; right]|].
      inversion Hall as [|? ? Hx Hrest]; subst.
      constructor; [exact Hx|]. constructor; [lra | exact Hrest].
Qed.

Lemma min_by_Ok {A} (key : A -> Q) (xs : list A) (best : A) :
  min_by key xs = Ok best ->
  In best xs /\ Forall (fun y => key best <= key y) xs.
Proof.
  destruct xs as [|x xs]; [discriminate|].
  cbn [min_by]. intros [= <-]. apply min_by_fold.
Qed.

(** *** [design_flying_wing] *)

Lemma design_flying_wing_inv (self : t) (target_weight : Q)
    (d : AircraftDesign.t) :
  design_flying_wing self target_weight = Ok d ->
  exists autopilot : Hardware.t,
    min_by Hardware.weight (map snd (autopilots self)) = Ok autopilot
    /\ AircraftDesign.components d
       = selected self autopilot
         ++ [ component "LiPo Battery"
                (py_max 20 (target_weight
                            - sum (map Component.weight (selected self autopilot))
                            - 30))
                (xyz (-20) 0 (-5));
              component "Brushless Motor + Propeller" 15 (xyz 80 0 0) ]
    /\ AircraftDesign.empty_weight d
       = sum (map Component.weight (AircraftDesign.components d))
    /\ AircraftDesign.max_takeoff_weight d
       = py_min 250 (AircraftDesign.empty_weight d + 20)
    /\ AircraftDesign.wingspan d = 800
    /\ AircraftDesign.wing_area d = 800 * 150 / 1000000.
Proof.
  intros Hd. unfold design_flying_wing in Hd.
  bind_inv Hd as autopilot Hautopilot.
  bind_inv Hd as components Hloop.
  injection Hd as <-.
  exists autopilot. split; [exact Hautopilot|].
  cbn [AircraftDesign.components AircraftDesign.empty_weight
       AircraftDesign.max_takeoff_weight AircraftDesign.wingspan
       AircraftDesign.wing_area].
  split; [|repeat split].
  change (imap pair ["imu_mpu6050"; "gps_ublox_neo_m8n"; "baro_ms5611"])
    with [(0%nat, "imu_mpu6050"); (1%nat, "gps_ublox_neo_m8n");
          (2%nat, "baro_ms5611")] in Hloop.
  cbn [for_each] in Hloop. unfold selected, optional.
  destruct (sensors self !! "imu_mpu6050") as [imu|];
    destruct (sensors self !! "gps_ublox_neo_m8n") as [gps|];
    destruct (sensors self !! "baro_ms5611") as [baro|];
    cbn [mbind result_bind index lookup list_lookup] in Hloop;
    injection Hloop as <-;
    destruct (sensors self !! "airspeed_mp3v5004") as [airspeed|];
    cbn [app]; rewrite <- ?app_assoc; reflexivity.
Qed.

(** [design_flying_wing] returns as soon as there is an autopilot. *)
Lemma design_flying_wing_returns (self : t) (target_weight : Q) :
  autopilots self <> [] -> returns (design_flying_wing self target_weight).
Proof.
  intros Hne. unfold design_flying_wing.
  destruct (autopilots self) as [|[key a] rest]; [done|].
  cbn [map snd min_by]. rewrite bind_Ok_l.
  change (imap pair ["imu_mpu6050"; "gps_ublox_neo_m8n"; "baro_ms5611"])
    with [(0%nat, "imu_mpu6050"); (1%nat, "gps_ublox_neo_m8n");
          (2%nat, "baro_ms5611")].
  cbn [for_each].
  destruct (sensors self !! "imu_mpu6050") as [imu|];
    destruct (sensors self !! "gps_ublox_neo_m8n") as [gps|];
    destruct (sensors self !! "baro_ms5611") as [baro|];
    cbn [mbind result_bind index lookup list_lookup]; by eexists.
Qed.

Lemma selected_length (self : t) (autopilot : Hardware.t) :
  (1 <= length (selected self autopilot) <= 5)%nat.
Proof.
  unfold selected, optional.
  destruct (sensors self !! "imu_mpu6050"), (sensors self !! "gps_ublox_neo_m8n"),
    (sensors self !! "baro_ms5611"), (sensors self !! "airspeed_mp3v5004");
    cbn [app length]; lia.
Qed.

(** X21.  With an empty autopilot table [design_flying_wing] raises
    [ValueError].  Otherwise it returns a design of three to seven
    components whose first component, mounted at the origin, is an
    autopilot of the table that no other autopilot of the table
    undercuts in weight. *)
Theorem design_selects_lightest_autopilot (self : t) (target_weight : Q) :
  (autopilots self = [] ->
   design_flying_wing self target_weight = Raise ValueError)
  /\ (autopilots self <> [] ->
      exists (d : AircraftDesign.t) (autopilot : Hardware.t)
             (rest : list Component.t),
        design_flying_wing self target_weight = Ok d
        /\ In autopilot (map snd (autopilots self))
        /\ Forall (fun a => Hardware.weight autopilot <= Hardware.weight a)
                  (map snd (autopilots self))
        /\ AircraftDesign.components d
           = component (Hardware.name autopilot) (Hardware.weight autopilot)
                       (xyz 0 0 0) :: rest
        /\ (3 <= length (AircraftDesign.components d) <= 7)%nat).
Proof.
  split.
  - intros Hnone. unfold design_flying_wing. rewrite Hnone. reflexivity.
  - intros Hne.
    destruct (design_flying_wing_returns self target_weight Hne) as [d Hd].
    destruct (design_flying_wing_inv _ _ _ Hd)
      as (autopilot & Hmin & Hcomponents & _).
    destruct (min_by_Ok _ _ _ Hmin) as [Hin Hall].
    exists d, autopilot. eexists.
    split; [exact Hd|]. split; [exact Hin|]. split; [exact Hall|].
    rewrite Hcomponents. split; [reflexivity|].
    rewrite length_app. pose proof (selected_length self autopilot).
    cbn [length]. lia.
Qed.

Lemma design_selects_lightest_autopilot_witness :
  exists (d : AircraftDesign.t) (autopilot : Hardware.t),
    design_flying_wing small_database 200 = Ok d
    /\ In autopilot (map snd (autopilots small_database)).
Proof.
  destruct (design_selects_lightest_autopilot small_database 200) as [_ Hsome].
  destruct Hsome as (d & autopilot & rest & Hd & Hin & _); [discriminate|].
  exists d, autopilot. split; [exact Hd | exact Hin].
Defined.

(** The two clamps of the design. *)
Lemma py_max_20_cases (x : Q) :
  (x <= 20 /\ py_max 20 x = 20) \/ (20 < x /\ py_max 20 x = x).
Proof.
  unfold py_max. destruct (Qgt_bool x 20) eqn:E.
  - apply Qgt_bool_iff in E. by right.
  - apply Qlt_bool_false in E. by left.
Qed.




(** *** [calculate_weight_balance] *)

Lemma moment_of_Ok (wing_start : Q) (comp : Component.t) (m : Moment.t) :
  moment_of wing_start comp = Ok m -> moment_for wing_start comp m.
Proof.
  unfold moment_of. intros Hm.
  bind_inv Hm as x Hx. bind_inv Hm as x' Hx'.
  assert (x' = x) as -> by congruence.
  injection Hm as <-. apply getitem_Ok in Hx.
  repeat split; assumption.
Qed.

(** The loop over the components appends one entry per component, in
    order. *)
Lemma moments_loop_inv (wing_start : Q) (comps : list Component.t)
    (acc res : list Moment.t) :
  for_each (fun moments comp =>
              m ← moment_of wing_start comp; Ok (moments ++ [m]))
           acc comps = Ok res ->
  exists ms, res = acc ++ ms /\ Forall2 (moment_for wing_start) comps ms.
Proof.
  revert acc. induction comps as [|comp comps IH]; intros acc Hloop.
  - cbn [for_each] in Hloop. injection Hloop as <-.
    exists []. split; [by rewrite app_nil_r | constructor].
  - cbn [for_each] in Hloop. bind_inv Hloop as st Hst.
    bind_inv Hst as m Hm. injection Hst as <-.
    destruct (IH _ Hloop) as (ms & -> & Hms).
    exists (m :: ms). split; [by rewrite <- app_assoc|].
    constructor; [by apply moment_of_Ok | exact Hms].
Qed.

(** What [calculate_weight_balance] computes. *)
Lemma calculate_weight_balance_inv (design : AircraftDesign.t)
    (r : weight_balance) :
  calculate_weight_balance design = Ok r ->
  Forall2 (moment_for 100) (AircraftDesign.components design)
          (weight_distribution r)
  /\ total_weight r
     = sum (map Component.weight (AircraftDesign.components design))
  /\ ~ total_weight r == 0
  /\ cg_from_wing r
     = sum (map Moment.moment (weight_distribution r)) / total_weight r
  /\ cg_from_nose r = cg_from_wing r + 100
  /\ mac r = AircraftDesign.wing_area design * 1000000
             / AircraftDesign.wingspan design
  /\ ~ AircraftDesign.wingspan design == 0
  /\ ~ mac r == 0
  /\ stability_margin r = (0.25 * mac r - cg_from_wing r) / mac r
  /\ is_stable r = Qgt_bool (stability_margin r) 0.05.
Proof.
  intros Hr. unfold calculate_weight_balance in Hr.
  bind_inv Hr as moments Hmoments.
  bind_inv Hr as cg Hcg.
  bind_inv Hr as chord Hchord.
  bind_inv Hr as margin Hmargin.
  apply truediv_Ok in Hcg as [-> Hweight].
  apply truediv_Ok in Hchord as [-> Hspan].
  apply truediv_Ok in Hmargin as [-> Hmac].
  injection Hr as <-.
  destruct (moments_loop_inv _ _ _ _ Hmoments) as (ms & -> & Hms).
  cbn [weight_distribution total_weight cg_from_wing cg_from_nose mac
       stability_margin is_stable app].
  repeat split; assumption.
Qed.

(** The total moment, from the weights and positions of the components. *)
Lemma sum_moments (wing_start : Q) (comps : list Component.t)
    (ms : list Moment.t) :
  Forall2 (moment_for wing_start) comps ms ->
  sum (map Moment.moment ms)
  == sum (map (fun m => Moment.weight m * Moment.position m) ms)
     - wing_start * sum (map Component.weight comps).
Proof.
  induction 1 as [|comp m comps ms (_ & Hw & _ & _ & Hm) _ IH]; cbn [map].
  - unfold sum. cbn [fold_left]. ring.
  - rewrite !sum_cons, IH, Hm, Hw. ring.
Qed.

(** X23.  Every weight-balance report lists one entry per component, in
    the order of the components, with the component's name, weight and
    x position, the position relative to the wing [x - 100] and the
    moment [weight * relative_pos].  The total weight is the sum of the
    component weights and is not zero, [cg_from_wing] is the sum of the
    listed moments divided by the total weight, and [cg_from_nose] is
    [cg_from_wing + 100]. *)
Theorem weight_report_entries_and_cg
    (design : AircraftDesign.t) (r : weight_balance) :
  calculate_weight_balance design = Ok r ->
  Forall2 (fun comp m =>
             Moment.component m = Component.name comp
             /\ Moment.weight m = Component.weight comp
             /\ Component.position comp !! "x" = Some (Moment.position m)
             /\ Moment.relative_pos m = Moment.position m - 100
             /\ Moment.moment m = Moment.weight m * Moment.relative_pos m)
          (AircraftDesign.components design) (weight_distribution r)
  /\ length (weight_distribution r) = length (AircraftDesign.components design)
  /\ total_weight r
     = sum (map Component.weight (AircraftDesign.components design))
  /\ ~ total_weight r == 0
  /\ cg_from_wing r
     = sum (map Moment.moment (weight_distribution r)) / total_weight r
  /\ cg_from_nose r = cg_from_wing r + 100.
Proof.
  intros Hr.
  destruct (calculate_weight_balance_inv _ _ Hr)
    as (Hms & Htotal & Hweight & Hcg & Hnose & _).
  split; [|split; [|repeat split; assumption]].
  - eapply Forall2_impl; [exact Hms|].
    intros comp m (H1 & H2 & H3 & H4 & H5).
    repeat (split; [assumption|]). by rewrite H2, H4.
  - symmetry. exact (Forall2_length _ _ _ Hms).
Qed.

(** Two payloads of 10 g, at 130 mm and at 70 mm. *)
Lemma weight_report_entries_and_cg_witness :
  exists r,
    calculate_weight_balance (wing_with [payload_at 130; payload_at 70]) = Ok r
    /\ length (weight_distribution r) = 2%nat
    /\ total_weight r = sum [10; 10]
    /\ cg_from_nose r = cg_from_wing r + 100.
Proof.
  destruct (is_ok_returns
              (calculate_weight_balance
                 (wing_with [payload_at 130; payload_at 70])))
    as [r Hr]; [vm_eval|].
  exists r. split; [exact Hr|].
  destruct (weight_report_entries_and_cg _ _ Hr)
    as (_ & Hlength & Htotal & _ & _ & Hnose).
  split; [exact Hlength|]. split; [exact Htotal | exact Hnose].
Defined.

(** The stability test, with the division removed. *)
Lemma is_stable_iff (cg chord : Q) :
  0 < chord ->
  Qgt_bool ((0.25 * chord - cg) / chord) 0.05 = true <-> cg < 0.2 * chord.
Proof.
  intros Hchord. rewrite Qgt_bool_iff. split.
  - intros Hm.
    assert (Hmul : 0.05 * chord < (0.25 * chord - cg) / chord * chord)
      by (apply Qmult_lt_compat_r; assumption).
    assert (Hdiv : (0.25 * chord - cg) / chord * chord == 0.25 * chord - cg)
      by (field; lra).
    lra.
  - intros Hcg. apply Qlt_shift_div_l; [exact Hchord | lra].
Qed.

(** X24.  For a mean aerodynamic chord of at least 0.001 mm, the report
    says stable when the centre of gravity lies at most 19.9999 % of the
    chord behind the wing's leading edge, and not stable when it lies at
    least 20.0001 % of the chord behind it: the threshold of the test,
    a margin above 0.05 below the neutral point at 25 % of the chord, is
    20 % of the chord. *)
Theorem stable_by_cg_position
    (design : AircraftDesign.t) (r : weight_balance) :
  calculate_weight_balance design = Ok r ->
  0.001 <= mac r ->
  (cg_from_wing r <= 0.199999 * mac r -> is_stable r = true)
  /\ (0.200001 * mac r <= cg_from_wing r -> is_stable r = false).
Proof.
  intros Hr Hchord.
  destruct (calculate_weight_balance_inv _ _ Hr)
    as (_ & _ & _ & _ & _ & _ & _ & _ & Hmargin & Hstable).
  assert (Hiff : is_stable r = true <-> cg_from_wing r < 0.2 * mac r).
  { rewrite Hstable, Hmargin. apply is_stable_iff. lra. }
  split; intros Hcg.
  - apply Hiff. lra.
  - apply not_true_iff_false. rewrite Hiff. lra.
Qed.

(** A payload at 120 mm is stable on the 150 mm chord, a payload at
    131 mm is not. *)
Lemma stable_by_cg_position_witness :
  (exists r,
     calculate_weight_balance (wing_with [payload_at 120]) = Ok r
     /\ is_stable r = true)
  /\ (exists r,
        calculate_weight_balance (wing_with [payload_at 131]) = Ok r
        /\ is_stable r = false).
Proof.
  split.
  - destruct (is_ok_returns
                (calculate_weight_balance (wing_with [payload_at 120])))
      as [r Hr]; [vm_eval|].
    exists r. split; [exact Hr|].
    destruct (stable_by_cg_position _ _ Hr) as (Hstable & _).
    + vm_compute in Hr. injection Hr as <-. vm_compute. discriminate.
    + apply Hstable.
      vm_compute in Hr. injection Hr as <-. vm_compute. discriminate.
  - destruct (is_ok_returns
                (calculate_weight_balance (wing_with [payload_at 131])))
      as [r Hr]; [vm_eval|].
    exists r. split; [exact Hr|].
    destruct (stable_by_cg_position _ _ Hr) as (_ & Hunstable).
    + vm_compute in Hr. injection Hr as <-. vm_compute. discriminate.
    + apply Hunstable.
      vm_compute in Hr. injection Hr as <-. vm_compute. discriminate.
Defined.

(** *** The balance of a design *)

Lemma xyz_x (x y z : Q) : xyz x y z !! "x" = Some x.
Proof. reflexivity. Qed.

(** The sum of [weight * x] over the moment entries, from the
    components. *)
Lemma sum_weight_position (wing_start : Q) (comps : list Component.t)
    (ms : list Moment.t) :
  Forall2 (moment_for wing_start) comps ms ->
  sum (map (fun m => Moment.weight m * Moment.position m) ms)
  == sum (map (fun c => Component.weight c
                        * get (Component.position c) "x" 0) comps).
Proof.
  induction 1 as [|comp m comps ms (_ & Hw & Hx & _) _ IH]; cbn [map].
  - reflexivity.
  - rewrite !sum_cons, IH, Hw. unfold get. rewrite Hx. reflexivity.
Qed.

(** Stability of a 150 mm chord from the components alone: the weights
    times the distances behind the 130 mm station sum to less than
    zero. *)
Lemma is_stable_from_components (design : AircraftDesign.t)
    (r : weight_balance) :
  calculate_weight_balance design = Ok r ->
  mac r == 150 ->
  0 < total_weight r ->
  sum (map (fun c => Component.weight c * get (Component.position c) "x" 0)
           (AircraftDesign.components design))
  < 130 * sum (map Component.weight (AircraftDesign.components design)) ->
  is_stable r = true.
Proof.
  intros Hr Hmac Htotal Hsum.
  destruct (calculate_weight_balance_inv _ _ Hr)
    as (Hms & Hweight & Hnz & Hcg & _ & _ & _ & _ & Hmargin & Hstable).
  rewrite Hstable, Hmargin.
  apply is_stable_iff; [lra|]. rewrite Hmac, Hcg.
  apply Qlt_shift_div_r; [exact Htotal|].
  rewrite (sum_moments 100 _ _ Hms), (sum_weight_position 100 _ _ Hms).
  rewrite Hweight. lra.
Qed.

(** The components of a design made from a hardware database without
    negative weights: each has an x position, together they weigh at
    least 35 g, and their weights times their positions sum to less than
    130 times the total weight when the GPS weighs less than 375 g. *)
Lemma design_components_balance (self : t) (target_weight : Q)
    (d : AircraftDesign.t) :
  design_flying_wing self target_weight = Ok d ->
  Forall (fun a => 0 <= Hardware.weight a.2) (autopilots self) ->
  (forall key s, sensors self !! key = Some s -> 0 <= Hardware.weight s) ->
  Forall (fun comp => is_Some (Component.position comp !! "x"))
         (AircraftDesign.components d)
  /\ 35 <= sum (map Component.weight (AircraftDesign.components d))
  /\ ((forall gps, sensors self !! "gps_ublox_neo_m8n" = Some gps ->
                   Hardware.weight gps < 375) ->
      sum (map (fun c => Component.weight c
                         * get (Component.position c) "x" 0)
               (AircraftDesign.components d))
      < 130 * sum (map Component.weight (AircraftDesign.components d))).
Proof.
  intros Hd Hautopilots Hsensors.
  destruct (design_flying_wing_inv _ _ _ Hd)
    as (autopilot & Hmin & Hcomponents & Hempty & _ & Hspan & Harea).
  destruct (min_by_Ok _ _ _ Hmin) as [Hin _].
  assert (Ha : 0 <= Hardware.weight autopilot).
  { apply in_map_iff in Hin as ([key a] & <- & Hin).
    rewrite List.Forall_forall in Hautopilots. exact (Hautopilots _ Hin). }
  pose proof (Hsensors "imu_mpu6050") as Himu.
  pose proof (Hsensors "gps_ublox_neo_m8n") as Hgps.
  pose proof (Hsensors "baro_ms5611") as Hbaro.
  pose proof (Hsensors "airspeed_mp3v5004") as Hairspeed.
  set (battery := py_max 20 (target_weight
                             - sum (map Component.weight (selected self autopilot))
                             - 30)) in Hcomponents.
  assert (Hbattery : 20 <= battery).
  { subst battery. match goal with
    | |- _ <= py_max 20 ?x =>
        destruct (py_max_20_cases x) as [[Hx ->]|[Hx ->]]; lra
    end. }
  clearbody battery.
  split.
  { rewrite Hcomponents. unfold selected, optional.
    destruct (sensors self !! "imu_mpu6050"),
      (sensors self !! "gps_ublox_neo_m8n"), (sensors self !! "baro_ms5611"),
      (sensors self !! "airspeed_mp3v5004"); cbn [app];
      repeat (constructor; [by eexists|]); constructor. }
  rewrite Hcomponents. unfold selected, optional.
  destruct (sensors self !! "imu_mpu6050") as [imu|];
    destruct (sensors self !! "gps_ublox_neo_m8n") as [gps|];
    destruct (sensors self !! "baro_ms5611") as [baro|];
    destruct (sensors self !! "airspeed_mp3v5004") as [airspeed|];
    cbn [app map Component.weight Component.position component];
    unfold get; rewrite !xyz_x; cbn [from_option id];
    rewrite !sum_cons; change (sum []) with 0;
    try specialize (Himu _ eq_refl); try specialize (Hgps _ eq_refl);
    try specialize (Hbaro _ eq_refl); try specialize (Hairspeed _ eq_refl);
    (split; [lra|]); intros Hlight;
    try specialize (Hlight _ eq_refl); lra.
Qed.

(** X25.  A design made from a hardware database without negative
    weights always has a weight-balance report: no division by zero and
    no missing position.  The report's total weight is the design's
    empty weight, at least 35 g, and its mean aerodynamic chord is
    150 mm.  When, in addition, the GPS of the database weighs less than
    375 g, the report says stable. *)
Theorem design_is_balanced (self : t) (target_weight : Q)
    (d : AircraftDesign.t) :
  design_flying_wing self target_weight = Ok d ->
  Forall (fun a => 0 <= Hardware.weight a.2) (autopilots self) ->
  (forall key s, sensors self !! key = Some s -> 0 <= Hardware.weight s) ->
  exists r : weight_balance,
    calculate_weight_balance d = Ok r
    /\ total_weight r = AircraftDesign.empty_weight d
    /\ 35 <= total_weight r
    /\ mac r == 150
    /\ ((forall gps, sensors self !! "gps_ublox_neo_m8n" = Some gps ->
                     Hardware.weight gps < 375) ->
        is_stable r = true).
Proof.
  intros Hd Hautopilots Hsensors.
  destruct (design_flying_wing_inv _ _ _ Hd)
    as (autopilot & _ & _ & Hempty & _ & Hspan & Harea).
  destruct (design_components_balance _ _ _ Hd Hautopilots Hsensors)
    as (Hx & Hweight & Hstable).
  destruct (calculate_weight_balance_returns d Hx) as [r Hr].
  { lra. }
  { rewrite Hspan. discriminate. }
  { rewrite Harea. discriminate. }
  exists r.
  destruct (calculate_weight_balance_inv _ _ Hr)
    as (_ & Htotal & _ & _ & _ & Hmac & _).
  assert (Hchord : mac r == 150).
  { rewrite Hmac, Hspan, Harea. reflexivity. }
  split; [exact Hr|]. split; [by rewrite Htotal, Hempty|].
  split; [rewrite Htotal; exact Hweight|]. split; [exact Hchord|].
  intros Hlight. apply (is_stable_from_components d r Hr Hchord).
  - rewrite Htotal. lra.
  - by apply Hstable.
Qed.

Lemma design_is_balanced_witness :
  exists (d : AircraftDesign.t) (r : weight_balance),
    design_flying_wing small_database 200 = Ok d
    /\ calculate_weight_balance d = Ok r
    /\ is_stable r = true.
Proof.
  destruct (is_ok_returns (design_flying_wing small_database 200))
    as [d Hd]; [vm_eval|].
  destruct (design_is_balanced small_database 200 d Hd)
    as (r & Hr & _ & _ & _ & Hstable).
  - repeat constructor; vm_compute; discriminate.
  - intros key s Hs. unfold small_database in Hs. cbn [sensors] in Hs.
    apply elem_of_list_to_map_2 in Hs.
    inversion Hs as [|? ? ? Hnil]; subst; [vm_compute; discriminate|].
    inversion Hnil.
  - exists d, r. split; [exact Hd|]. split; [exact Hr|].
    apply Hstable. intros gps Hgps.
    vm_compute in Hgps. injection Hgps as <-. vm_compute. reflexivity.
Defined.

(** *** [estimate_flight_time] *)

Lemma find_battery_app (before after : list Component.t) (b : Component.t) :
  Forall (fun c => is_substring "Battery" (Component.name c) = false) before ->
  is_substring "Battery" (Component.name b) = true ->
  List.find (fun c => is_substring "Battery" (Component.name c))
            (before ++ b :: after) = Some b.
Proof.
  intros Hbefore Hb. induction Hbefore as [|c before Hc _ IH]; cbn [app List.find].
  - by rewrite Hb.
  - by rewrite Hc.
Qed.

Lemma find_no_battery (comps : list Component.t) :
  Forall (fun c => is_substring "Battery" (Component.name c) = false) comps ->
  List.find (fun c => is_substring "Battery" (Component.name c)) comps = None.
Proof.
  induction 1 as [|c comps Hc _ IH]; cbn [List.find]; [reflexivity|].
  by rewrite Hc.
Qed.

(** X26.  [estimate_flight_time] is [weight / 30 * 10] minutes for the
    weight of the first component whose name contains "Battery", and
    [30 / 30 * 10], that is 10 minutes, when no component has such a
    name.  For a design of [design_flying_wing] whose selected hardware
    has no such name, that component is the LiPo battery: it weighs at
    least 20 g and the estimate is at least 6.66 minutes. *)
Theorem estimate_flight_time_of_first_battery :
  (forall (design : AircraftDesign.t) (before after : list Component.t)
          (b : Component.t),
     AircraftDesign.components design = before ++ b :: after ->
     Forall (fun c => is_substring "Battery" (Component.name c) = false) before ->
     is_substring "Battery" (Component.name b) = true ->
     estimate_flight_time design = Component.weight b / 30 * 10)
  /\ (forall design : AircraftDesign.t,
        Forall (fun c => is_substring "Battery" (Component.name c) = false)
               (AircraftDesign.components design) ->
        estimate_flight_time design = 30 / 30 * 10
        /\ estimate_flight_time design == 10)
  /\ (forall (self : t) (target_weight : Q) (d : AircraftDesign.t)
             (hardware : list Component.t) (battery : Q),
        design_flying_wing self target_weight = Ok d ->
        AircraftDesign.components d
        = hardware
          ++ [ component "LiPo Battery" battery (xyz (-20) 0 (-5));
               component "Brushless Motor + Propeller" 15 (xyz 80 0 0) ] ->
        Forall (fun c => is_substring "Battery" (Component.name c) = false)
               hardware ->
        estimate_flight_time d = battery / 30 * 10
        /\ 20 <= battery
        /\ 6.66 <= estimate_flight_time d).
Proof.
  assert (Hfirst :
    forall (design : AircraftDesign.t) (before after : list Component.t)
           (b : Component.t),
      AircraftDesign.components design = before ++ b :: after ->
      Forall (fun c => is_substring "Battery" (Component.name c) = false) before ->
      is_substring "Battery" (Component.name b) = true ->
      estimate_flight_time design = Component.weight b / 30 * 10).
  { intros design before after b Hcomponents Hbefore Hb.
    unfold estimate_flight_time.
    by rewrite Hcomponents, (find_battery_app _ _ _ Hbefore Hb). }
  split; [exact Hfirst|]. split.
  - intros design Hnone. unfold estimate_flight_time.
    rewrite (find_no_battery _ Hnone). split; reflexivity.
  - intros self target_weight d hardware battery Hd Hcomponents Hhardware.
    assert (Hestimate : estimate_flight_time d = battery / 30 * 10).
    { apply (Hfirst d hardware
               [component "Brushless Motor + Propeller" 15 (xyz 80 0 0)]
               (component "LiPo Battery" battery (xyz (-20) 0 (-5)))
               Hcomponents Hhardware).
      vm_eval. }
    destruct (design_flying_wing_inv _ _ _ Hd)
      as (autopilot & _ & Hcomponents' & _).
    rewrite Hcomponents' in Hcomponents.
    apply app_inj_2 in Hcomponents as [Hsel Htail]; [|reflexivity].
    injection Htail as Hb.
    assert (Hbattery : 20 <= battery).
    { rewrite <- Hb.
      match goal with
      | |- _ <= py_max 20 ?x =>
          destruct (py_max_20_cases x) as [[Hx ->]|[Hx ->]]; lra
      end. }
    split; [exact Hestimate|]. split; [exact Hbattery|].
    rewrite Hestimate. unfold Qdiv. change (/ 30) with (1 # 30). lra.
Qed.

(** A 45 g battery behind a payload gives 15 minutes; the design for a
    200 g target from the small database carries its LiPo battery after
    the autopilot and the GPS, and flies at least 6.66 minutes. *)
Lemma estimate_flight_time_of_first_battery_witness :
  estimate_flight_time
    (wing_with [ payload_at 130;
                 component "LiPo Battery" 45 (xyz (-20) 0 (-5)) ])
  = 45 / 30 * 10
  /\ exists (d : AircraftDesign.t) (battery : Q),
       design_flying_wing small_database 200 = Ok d
       /\ estimate_flight_time d = battery / 30 * 10
       /\ 20 <= battery
       /\ 6.66 <= estimate_flight_time d.
Proof.
  destruct estimate_flight_time_of_first_battery as (Hfirst & _ & Hdesign).
  split.
  - apply (Hfirst _ [payload_at 130] []
             (component "LiPo Battery" 45 (xyz (-20) 0 (-5)))).
    + reflexivity.
    + repeat constructor.
    + vm_eval.
  - destruct (is_ok_returns (design_flying_wing small_database 200))
      as [d Hd]; [vm_eval|].
    destruct (design_flying_wing_inv _ _ _ Hd)
      as (autopilot & Hmin & Hcomponents & _).
    vm_compute in Hmin. injection Hmin as <-.
    exists d. eexists. split; [exact Hd|].
    apply (Hdesign small_database 200 d _ _ Hd Hcomponents).
    unfold selected, optional. cbn [small_database sensors].
    repeat match goal with
    | |- context [list_to_map ?l !! ?k] =>
        let v := eval vm_compute in (list_to_map l !! k) in
        change (list_to_map l !! k) with v
    end.
    cbn [app]. repeat constructor.
Defined.

End AircraftBuilderMore.

(** ** Normal operation: the scorers, the geofence and the balance *)

Module NormalOperation.
Import PyFacts.

Section WithRuntime.
Context `{Runtime}.



End WithRuntime.


End NormalOperation.
